(** * PyCIRCLean: the file checker of CIRCLean, embedded in Rocq

    A shallow embedding of [kittengroomer/helpers.py] (classes [FileBase]
    and [KittenGroomerBase]) and of [bin/filecheck.py] (classes [Config],
    [File], [GroomerLogger] and [KittenGroomerFileCheck]), followed by the
    properties of the classification pipeline, of the archive recursion and
    of the audit log.

    Conventions.
    - A Python [str] is a list of code points ([pystr]); literals are
      written [py "..."].
    - A method of [File] is a computation over [self] and the outside
      world ([FM]); a method of the groomer is a computation over the
      groomer's state ([GM]).  Both can raise a Python exception, and the
      state reached when the exception is raised is kept.
    - The libraries the program calls (libmagic, the [mimetypes] tables,
      olefile/oletools, officedissector, zipfile, PDFiD, exifread, Pillow,
      7z, the hash of a file) are not part of the repository: what they
      answer for a file is carried by the file ([verdicts]) or taken as a
      variable of the development ([MimeDB]). *)

From Stdlib Require Import List ZArith NArith Bool String Ascii Lia DecimalString
  Permutation.
Import ListNotations.

Set Warnings "-register-all".

Set Implicit Arguments.

(* ================================================================== *)
(** ** Python strings *)
(* ================================================================== *)

Module PyStr.

Definition pystr := list N.

Definition py (s : string) : pystr := map N_of_ascii (list_ascii_of_string s).

Fixpoint str_eqb (a b : pystr) : bool :=
  match a, b with
  | [], [] => true
  | x :: a', y :: b' => N.eqb x y && str_eqb a' b'
  | _, _ => false
  end.

(** [s.startswith(p)] *)
Fixpoint startswith (s p : pystr) : bool :=
  match p, s with
  | [], _ => true
  | _ :: _, [] => false
  | x :: p', y :: s' => N.eqb x y && startswith s' p'
  end.

(** [s.endswith(p)] *)
Definition endswith (s p : pystr) : bool := startswith (rev s) (rev p).

(** [sub in s] for two strings *)
Fixpoint contains (s sub : pystr) : bool :=
  startswith s sub ||
  match s with
  | [] => false
  | _ :: s' => contains s' sub
  end.

(** [x in l] for a string and a list, tuple or dict of strings *)
Definition str_mem (x : pystr) (l : list pystr) : bool := existsb (str_eqb x) l.

(** [s.replace(c, new)] where [c] is one character: the program calls
    [replace] with the right-to-left override only. *)
Definition replace_char (c : N) (new s : pystr) : pystr :=
  flat_map (fun x => if N.eqb x c then new else [x]) s.

(** [s.count(c)] for one character *)
Definition count_char (c : N) (s : pystr) : nat :=
  List.length (filter (N.eqb c) s).

Definition lower_char (c : N) : N :=
  if (N.leb 65 c && N.leb c 90)%bool then (c + 32)%N else c.

Definition upper_char (c : N) : N :=
  if (N.leb 97 c && N.leb c 122)%bool then (c - 32)%N else c.

(** [s.lower()], on the ASCII letters; a code point outside ASCII is kept
    (Python consults the Unicode tables there). *)
Definition lower (s : pystr) : pystr := map lower_char s.

(** [s.capitalize()], on the ASCII letters *)
Definition capitalize (s : pystr) : pystr :=
  match s with
  | [] => []
  | c :: s' => upper_char c :: lower s'
  end.

(** [s.split(c)] *)
Fixpoint split_on (c : N) (s : pystr) : list pystr :=
  match s with
  | [] => [[]]
  | x :: s' =>
      if N.eqb x c then [] :: split_on c s'
      else match split_on c s' with
           | [] => [[x]]
           | h :: t => (x :: h) :: t
           end
  end.

(** [sep.join(l)] *)
Fixpoint join_with (sep : pystr) (l : list pystr) : pystr :=
  match l with
  | [] => []
  | [x] => x
  | x :: l' => x ++ sep ++ join_with sep l'
  end.

(** [s.rstrip(c)] for one character *)
Definition rstrip_char (c : N) (s : pystr) : pystr :=
  let fix drop (l : pystr) : pystr :=
    match l with
    | [] => []
    | x :: l' => if N.eqb x c then drop l' else l
    end in
  rev (drop (rev s)).

(** The string cut at the last occurrence of [c]: what is before it and
    what is after it ([s.rfind(c)]); [None] when [c] does not occur. *)
Fixpoint break_last (c : N) (s : pystr) : option (pystr * pystr) :=
  match s with
  | [] => None
  | x :: s' =>
      match break_last c s' with
      | Some (a, b) => Some (x :: a, b)
      | None => if N.eqb x c then Some ([], s') else None
      end
  end.

(** [str(z)] for an int *)
Definition str_of_Z (z : Z) : pystr := py (NilZero.string_of_int (Z.to_int z)).

(** Comparison of two strings, as in [a <= b] (code point by code point) *)
Fixpoint str_leb (a b : pystr) : bool :=
  match a, b with
  | [], _ => true
  | _ :: _, [] => false
  | x :: a', y :: b' => N.ltb x y || (N.eqb x y && str_leb a' b')
  end.

End PyStr.
Export PyStr.

(* ================================================================== *)
(** ** [os.path] on POSIX *)
(* ================================================================== *)

Module OsPath.

Definition sep : N := 47.      (* '/' *)
Definition extsep : N := 46.   (* '.' *)

(** [os.path.split(p)] *)
Definition split (p : pystr) : pystr * pystr :=
  match break_last sep p with
  | None => ([], p)
  | Some (a, tail) =>
      let head := a ++ [sep] in
      if forallb (N.eqb sep) head then (head, tail)
      else (rstrip_char sep head, tail)
  end.

(** [os.path.basename(p)] *)
Definition basename (p : pystr) : pystr :=
  match break_last sep p with
  | None => p
  | Some (_, tail) => tail
  end.

(** [os.path.join(a, b)] *)
Definition join (a b : pystr) : pystr :=
  if startswith b [sep] then b
  else match a with
       | [] => b
       | _ => if endswith a [sep] then a ++ b else a ++ sep :: b
       end.

(** [os.path.splitext(p)]: the extension is what follows the last dot of
    the last component, unless that component has only dots before it. *)
Definition splitext (p : pystr) : pystr * pystr :=
  match break_last extsep (basename p) with
  | None => (p, [])
  | Some (stem, after) =>
      if existsb (fun c => negb (N.eqb c extsep)) stem
      then let ext := extsep :: after in
           (firstn (List.length p - List.length ext) p, ext)
      else (p, [])
  end.

Fixpoint commonprefix (a b : list pystr) : list pystr :=
  match a, b with
  | x :: a', y :: b' => if str_eqb x y then x :: commonprefix a' b' else []
  | _, _ => []
  end.

(** [os.path.relpath(path, start)] for two absolute paths without [.] and
    [..] components, which [os.path.abspath] leaves as they are up to
    repeated separators. *)
Definition relpath (path start : pystr) : pystr :=
  let nonempty (x : pystr) := match x with [] => false | _ => true end in
  let start_list := filter nonempty (split_on sep start) in
  let path_list := filter nonempty (split_on sep path) in
  let i := List.length (commonprefix start_list path_list) in
  let rel_list := repeat (py "..") (List.length start_list - i) ++ skipn i path_list in
  match rel_list with
  | [] => py "."
  | x :: l => fold_left join l x
  end.

End OsPath.

(* ================================================================== *)
(** ** Python values, exceptions and what the libraries answer *)
(* ================================================================== *)

(** The values stored in the property dictionary of a file *)
Inductive pyval :=
| VNone
| VBool (b : bool)
| VInt (z : Z)
| VStr (s : pystr).

(** [a == b] on these values ([True == 1] and [False == 0] in Python) *)
Definition pyval_eqb (a b : pyval) : bool :=
  match a, b with
  | VNone, VNone => true
  | VBool x, VBool y => Bool.eqb x y
  | VInt x, VInt y => Z.eqb x y
  | VBool x, VInt y | VInt y, VBool x => Z.eqb y (if x then 1 else 0)
  | VStr x, VStr y => str_eqb x y
  | _, _ => false
  end.

(** [str(v)], as [str.format] prints a value *)
Definition pyval_str (v : pyval) : pystr :=
  match v with
  | VNone => py "None"
  | VBool true => py "True"
  | VBool false => py "False"
  | VInt z => str_of_Z z
  | VStr s => s
  end.

Inductive pyexn :=
| IndexError
| ValueError
| TypeError
| AttributeError
| UnboundLocalError
| FileNotFoundError
| OSError
| UnicodeEncodeError
| KittenGroomerError (message : pystr)
| LibraryError (what : pystr).

(** [magic.from_file(path, mime=True)], decoded *)
Inductive magic_verdict :=
| MagicMime (mt : pystr)
| MagicUnicodeEncodeError.

(** An [olefile.OleFileIO] object: whether [parsing_issues] is non-empty
    and the streams for which [exists] answers true. *)
Record OleFileIO := {
  parsing_issues : bool;
  ole_streams : list pystr
}.

Definition ole_exists (ole : OleFileIO) (name : pystr) : bool :=
  str_mem name (ole_streams ole).

(** An [oletools.oleid.OleID] object after [check()]: the indicators are
    pairs of an [id] and of the truth value of [value]. *)
Record OleID := {
  oid_encrypted : bool;
  oid_macros : bool;
  oid_ole : OleFileIO;
  oid_indicators : list (pystr * bool)
}.

(** An [officedissector.doc.Document] *)
Record OoxmlDocument := {
  is_macro_enabled : bool;
  features_macros : nat;
  features_embedded_controls : nat;
  features_embedded_objects : nat;
  features_embedded_packages : nat
}.

(** The counts of a [cPDFiD] object *)
Record cPDFiD := {
  pdf_encrypt : Z;
  pdf_js : Z;
  pdf_javascript : Z;
  pdf_aa : Z;
  pdf_openaction : Z;
  pdf_richmedia : Z;
  pdf_launch : Z
}.

(** What [subprocess.check_call] does with the 7z command: it returns,
    raises [CalledProcessError] (non-zero exit) or [TimeoutExpired], or the
    command cannot be split or started at all. *)
Inductive extractor_outcome :=
| ExitZero
| CalledProcessError
| TimeoutExpired
| CannotRun (e : pyexn).

(** Everything the libraries answer about the file at one path *)
Record verdicts := {
  v_size : Z;                                (* os.path.getsize, 0 if absent *)
  v_symlink : option pystr;                  (* os.readlink when os.path.islink *)
  v_magic : magic_verdict;
  v_sha256 : pystr;                          (* Logging.computehash *)
  v_isOleFile : bool;                        (* olefile.isOleFile *)
  v_OleFileIO : option OleFileIO;            (* None: the constructor raises *)
  v_OleID : OleID;
  v_ooxml : option OoxmlDocument;            (* None: Document raises *)
  v_zip_infolist : option (list pystr);      (* None: ZipFile raises *)
  v_pdfid : cPDFiD;
  v_exif_first : pyexn + list pystr;         (* exifread.process_file, tag names *)
  v_exif_retry : pyexn + list pystr;
  v_png_info : pyexn + list pystr;           (* Image.open(...).info keys *)
  v_reencode : option pyexn;                 (* None: Pillow re-encodes the image *)
  v_reencoded_sha256 : pystr;
  v_copy : option pyexn                      (* None: shutil.copy succeeds *)
}.

(** The tables of Python's [mimetypes] module, which depend on the host *)
Record MimeDB := {
  guess_type : pystr -> option pystr;          (* guess_type(path, strict=False)[0] *)
  types_map_keys : list pystr;                 (* mimetypes.types_map.keys() *)
  guess_all_extensions : pystr -> list pystr   (* guess_all_extensions(mt, strict=False) *)
}.

(* ================================================================== *)
(** ** The outside world: paths that exist, copies made, the log file *)
(* ================================================================== *)

Record world := {
  fs : list pystr;                  (* the paths for which os.path.exists holds *)
  copies : list (pystr * pystr);    (* the (src, dst) of each shutil.copy that succeeded *)
  log : list pystr                  (* the lines of circlean_log.txt *)
}.

Definition set_fs (l : list pystr) (w : world) : world :=
  {| fs := l; copies := copies w; log := log w |}.

Definition exists_path (p : pystr) (w : world) : bool := str_mem p (fs w).

(** The directories above [p]: each non-empty part of [p] that ends
    before a separator. *)
Fixpoint ancestors (before p : pystr) : list pystr :=
  match p with
  | [] => []
  | c :: p' =>
      let rest := ancestors (before ++ [c]) p' in
      if N.eqb c OsPath.sep
      then match before with
           | [] => rest
           | _ => if endswith before [OsPath.sep] then rest else before :: rest
           end
      else rest
  end.

(** [os.makedirs(p)], called when [p] does not exist *)
Definition makedirs (p : pystr) (w : world) : pyexn + world :=
  match p with
  | [] => inl FileNotFoundError
  | _ => inr (set_fs (fs w ++ ancestors [] p ++ [p]) w)
  end.

(** [shutil.rmtree(p)] *)
Definition rmtree (p : pystr) (w : world) : world :=
  set_fs (filter (fun q => negb (str_eqb q p || startswith q (p ++ [OsPath.sep]))) (fs w)) w.

(** A file written at [p] *)
Definition write_file (p : pystr) (w : world) : world :=
  set_fs (fs w ++ [p]) w.

Definition record_copy (src dst : pystr) (w : world) : world :=
  {| fs := fs w ++ [dst]; copies := copies w ++ [(src, dst)]; log := log w |}.

Definition append_log (line : pystr) (w : world) : world :=
  {| fs := fs w; copies := copies w; log := log w ++ [line] |}.

(* ================================================================== *)
(** ** [kittengroomer/helpers.py]: class [FileBase] *)
(* ================================================================== *)

(** [self._file_props] *)
Record file_props := {
  p_filepath : pyval;
  p_filename : pyval;
  p_file_size : pyval;
  p_maintype : pyval;
  p_subtype : pyval;
  p_extension : pyval;
  p_safety_category : pyval;
  p_symlink : pyval;
  p_copied : pyval;
  p_description_string : list pyval;
  p_errors : list (pyexn * pystr);
  p_user_defined : list (pystr * pyval)
}.

(** [GroomerLogger]: its two roots; the log file itself is in the world. *)
Record GroomerLogger := {
  _src_root_path : pystr;
  _dst_root_path : pystr
}.

(** A [File] object: the attributes of [FileBase] and of [File], and what
    the libraries answer about the file at [src_path]. *)
Record File := {
  src_path : pystr;
  dst_path : pystr;
  filename : pystr;
  _file_props : file_props;
  extension : option pystr;
  mimetype : option pystr;
  should_copy : bool;
  main_type : option pystr;
  sub_type : option pystr;
  is_recursive : bool;
  logger : GroomerLogger;
  tempdir_path : pystr;
  metadata_file_path : option pystr;
  seen : verdicts
}.

Definition with_props (p : file_props) (f : File) : File :=
  {| src_path := src_path f; dst_path := dst_path f; filename := filename f;
     _file_props := p; extension := extension f; mimetype := mimetype f;
     should_copy := should_copy f; main_type := main_type f; sub_type := sub_type f;
     is_recursive := is_recursive f; logger := logger f; tempdir_path := tempdir_path f;
     metadata_file_path := metadata_file_path f; seen := seen f |}.

Definition with_dst_path (d : pystr) (f : File) : File :=
  {| src_path := src_path f; dst_path := d; filename := filename f;
     _file_props := _file_props f; extension := extension f; mimetype := mimetype f;
     should_copy := should_copy f; main_type := main_type f; sub_type := sub_type f;
     is_recursive := is_recursive f; logger := logger f; tempdir_path := tempdir_path f;
     metadata_file_path := metadata_file_path f; seen := seen f |}.

(** [self.src_path = p], the libraries now answering [v] at that path *)
Definition with_src_path (p : pystr) (v : verdicts) (f : File) : File :=
  {| src_path := p; dst_path := dst_path f; filename := filename f;
     _file_props := _file_props f; extension := extension f; mimetype := mimetype f;
     should_copy := should_copy f; main_type := main_type f; sub_type := sub_type f;
     is_recursive := is_recursive f; logger := logger f; tempdir_path := tempdir_path f;
     metadata_file_path := metadata_file_path f; seen := v |}.

Definition with_should_copy (b : bool) (f : File) : File :=
  {| src_path := src_path f; dst_path := dst_path f; filename := filename f;
     _file_props := _file_props f; extension := extension f; mimetype := mimetype f;
     should_copy := b; main_type := main_type f; sub_type := sub_type f;
     is_recursive := is_recursive f; logger := logger f; tempdir_path := tempdir_path f;
     metadata_file_path := metadata_file_path f; seen := seen f |}.

Definition with_is_recursive (b : bool) (f : File) : File :=
  {| src_path := src_path f; dst_path := dst_path f; filename := filename f;
     _file_props := _file_props f; extension := extension f; mimetype := mimetype f;
     should_copy := should_copy f; main_type := main_type f; sub_type := sub_type f;
     is_recursive := b; logger := logger f; tempdir_path := tempdir_path f;
     metadata_file_path := metadata_file_path f; seen := seen f |}.

Definition with_metadata_file_path (p : pystr) (f : File) : File :=
  {| src_path := src_path f; dst_path := dst_path f; filename := filename f;
     _file_props := _file_props f; extension := extension f; mimetype := mimetype f;
     should_copy := should_copy f; main_type := main_type f; sub_type := sub_type f;
     is_recursive := is_recursive f; logger := logger f; tempdir_path := tempdir_path f;
     metadata_file_path := Some p; seen := seen f |}.

(** *** The property dictionary *)

Definition file_props_keys : list pystr :=
  [py "filepath"; py "filename"; py "file_size"; py "maintype"; py "subtype";
   py "extension"; py "safety_category"; py "symlink"; py "copied";
   py "description_string"; py "errors"; py "user_defined"].

(** [d[k] = v] on a dictionary kept in insertion order *)
Fixpoint dict_set {V : Type} (k : pystr) (v : V) (d : list (pystr * V)) : list (pystr * V) :=
  match d with
  | [] => [(k, v)]
  | (k', v') :: d' => if str_eqb k k' then (k, v) :: d' else (k', v') :: dict_set k v d'
  end.

(** [d.get(k)] *)
Fixpoint dict_get {V : Type} (k : pystr) (d : list (pystr * V)) : option V :=
  match d with
  | [] => None
  | (k', v') :: d' => if str_eqb k k' then Some v' else dict_get k d'
  end.

(** [self._file_props[k] = v] for a key of the property API.  The two
    keys that hold dictionaries, [errors] and [user_defined], are never
    assigned by the program and are left as they are here. *)
Definition assign_prop (k : pystr) (v : pyval) (p : file_props) : file_props :=
  let key (name : string) := str_eqb k (py name) in
  {| p_filepath := if key "filepath"%string then v else p_filepath p;
     p_filename := if key "filename"%string then v else p_filename p;
     p_file_size := if key "file_size"%string then v else p_file_size p;
     p_maintype := if key "maintype"%string then v else p_maintype p;
     p_subtype := if key "subtype"%string then v else p_subtype p;
     p_extension := if key "extension"%string then v else p_extension p;
     p_safety_category := if key "safety_category"%string then v else p_safety_category p;
     p_symlink := if key "symlink"%string then v else p_symlink p;
     p_copied := if key "copied"%string then v else p_copied p;
     p_description_string := p_description_string p;
     p_errors := p_errors p;
     p_user_defined := p_user_defined p |}.

Definition with_description (l : list pyval) (p : file_props) : file_props :=
  {| p_filepath := p_filepath p; p_filename := p_filename p;
     p_file_size := p_file_size p; p_maintype := p_maintype p;
     p_subtype := p_subtype p; p_extension := p_extension p;
     p_safety_category := p_safety_category p; p_symlink := p_symlink p;
     p_copied := p_copied p; p_description_string := l;
     p_errors := p_errors p; p_user_defined := p_user_defined p |}.

Definition with_errors (l : list (pyexn * pystr)) (p : file_props) : file_props :=
  {| p_filepath := p_filepath p; p_filename := p_filename p;
     p_file_size := p_file_size p; p_maintype := p_maintype p;
     p_subtype := p_subtype p; p_extension := p_extension p;
     p_safety_category := p_safety_category p; p_symlink := p_symlink p;
     p_copied := p_copied p; p_description_string := p_description_string p;
     p_errors := l; p_user_defined := p_user_defined p |}.

Definition with_user_defined (l : list (pystr * pyval)) (p : file_props) : file_props :=
  {| p_filepath := p_filepath p; p_filename := p_filename p;
     p_file_size := p_file_size p; p_maintype := p_maintype p;
     p_subtype := p_subtype p; p_extension := p_extension p;
     p_safety_category := p_safety_category p; p_symlink := p_symlink p;
     p_copied := p_copied p; p_description_string := p_description_string p;
     p_errors := p_errors p; p_user_defined := l |}.

(** [set_property] on the dictionary.  The test [prop_string is
    'description_string'] compares two interned literals and is read as
    an equality. *)
Definition props_set (prop_string : pystr) (value : pyval) (p : file_props) : file_props :=
  if str_eqb prop_string (py "description_string") then
    if existsb (pyval_eqb value) (p_description_string p) then p
    else with_description (p_description_string p ++ [value]) p
  else if str_mem prop_string file_props_keys then assign_prop prop_string value p
  else with_user_defined (dict_set prop_string value (p_user_defined p)) p.

Definition set_property (prop_string : pystr) (value : pyval) (f : File) : File :=
  with_props (props_set prop_string value (_file_props f)) f.

(** [add_error]: the key is an exception object, new at each call *)
Definition props_add_error (error : pyexn) (info_string : pystr) (p : file_props) : file_props :=
  with_errors (p_errors p ++ [(error, info_string)]) p.

Definition add_error (error : pyexn) (info_string : pystr) (f : File) : File :=
  with_props (props_add_error error info_string (_file_props f)) f.

Definition add_description (description_string : pystr) (f : File) : File :=
  set_property (py "description_string") (VStr description_string) f.

(** *** Derived properties *)

(** The truth value of an optional string: [None] and [''] are false *)
Definition truthy (o : option pystr) : bool :=
  match o with
  | None | Some [] => false
  | Some _ => true
  end.

Definition has_mimetype (f : File) : bool :=
  if (negb (truthy (main_type f)) || negb (truthy (sub_type f)))%bool then false else true.

Definition has_extension (f : File) : bool :=
  match extension f with
  | None => false
  | Some _ => true
  end.

(** [is 'dangerous'] and the like compare with an interned literal and
    are read as equalities. *)
Definition is_dangerous (f : File) : bool :=
  pyval_eqb (p_safety_category (_file_props f)) (VStr (py "dangerous")).

Definition is_unknown (f : File) : bool :=
  pyval_eqb (p_safety_category (_file_props f)) (VStr (py "unknown")).

Definition is_binary (f : File) : bool :=
  pyval_eqb (p_safety_category (_file_props f)) (VStr (py "binary")).

Definition is_symlink (f : File) : bool :=
  match p_symlink (_file_props f) with
  | VBool false => false
  | _ => true
  end.

(** *** Safety categories *)

Definition make_dangerous (reason_string : pyval) (f : File) : File :=
  if is_dangerous f then set_property (py "description_string") reason_string f
  else
    let f := set_property (py "safety_category") (VStr (py "dangerous")) f in
    let f := set_property (py "description_string") reason_string f in
    let (path, filename) := OsPath.split (dst_path f) in
    with_dst_path (OsPath.join path (py "DANGEROUS_" ++ filename ++ py "_DANGEROUS")) f.

Definition make_unknown (f : File) : File :=
  if (is_dangerous f || is_binary f)%bool then f
  else
    let f := set_property (py "safety_category") (VStr (py "unknown")) f in
    let (path, filename) := OsPath.split (dst_path f) in
    with_dst_path (OsPath.join path (py "UNKNOWN_" ++ filename)) f.

Definition make_binary (f : File) : File :=
  if is_dangerous f then f
  else
    let f := set_property (py "safety_category") (VStr (py "binary")) f in
    let (path, filename) := OsPath.split (dst_path f) in
    with_dst_path (OsPath.join path (filename ++ py ".bin")) f.

Definition _check_leading_dot (ext : pystr) : pystr :=
  match ext with
  | [] => ext
  | _ => if negb (startswith ext (py ".")) then py "." ++ ext else ext
  end.

Definition force_ext (ext : pystr) (f : File) : File :=
  let ext := _check_leading_dot ext in
  let f := if negb (endswith (dst_path f) ext) then with_dst_path (dst_path f ++ ext) f else f in
  if negb (pyval_eqb (p_extension (_file_props f)) (VStr ext))
  then set_property (py "extension") (VStr ext) f
  else f.

(** *** Methods as computations over [self] and the world *)

Inductive fres (A : Type) :=
| FOk (a : A) (self : File) (w : world)
| FRaise (e : pyexn) (self : File) (w : world).

Arguments FOk {A} a self w.
Arguments FRaise {A} e self w.

Definition FM (A : Type) := File -> world -> fres A.

Definition fret {A : Type} (a : A) : FM A := fun self w => FOk a self w.

Definition fraise {A : Type} (e : pyexn) : FM A := fun self w => FRaise e self w.

Definition fbind {A B : Type} (m : FM A) (k : A -> FM B) : FM B :=
  fun self w =>
    match m self w with
    | FOk a self' w' => k a self' w'
    | FRaise e self' w' => FRaise e self' w'
    end.

(** [try: m  except Exception as e: handler(e)] *)
Definition ftry {A : Type} (m : FM A) (handler : pyexn -> FM A) : FM A :=
  fun self w =>
    match m self w with
    | FOk a self' w' => FOk a self' w'
    | FRaise e self' w' => handler e self' w'
    end.

Definition self_get {A : Type} (g : File -> A) : FM A := fun self w => FOk (g self) self w.

Definition self_do (g : File -> File) : FM unit := fun self w => FOk tt (g self) w.

Definition world_get {A : Type} (g : world -> A) : FM A := fun self w => FOk (g w) self w.

Definition world_do (g : world -> world) : FM unit := fun self w => FOk tt self (g w).

Declare Scope fm_scope.
Delimit Scope fm_scope with fm.
Bind Scope fm_scope with FM.

Notation "x <- c1 ;; c2" := (fbind c1 (fun x => c2))
  (at level 61, c1 at next level, right associativity) : fm_scope.
Notation "c1 ;; c2" := (fbind c1 (fun _ => c2))
  (at level 61, right associativity) : fm_scope.

Local Open Scope fm_scope.

Definition os_makedirs (p : pystr) : FM unit :=
  fun self w =>
    match makedirs p w with
    | inl e => FRaise e self w
    | inr w' => FOk tt self w'
    end.

(** [if not os.path.exists(p): os.makedirs(p)] *)
Definition makedirs_if_absent (p : pystr) : FM unit :=
  present <- world_get (exists_path p) ;;
  if present then fret tt else os_makedirs p.

(** [shutil.copy(src, dst)] *)
Definition shutil_copy (src dst : pystr) : FM unit :=
  v <- self_get seen ;;
  match v_copy v with
  | Some e => fraise e
  | None => world_do (record_copy src dst)
  end.

Definition safe_copy (src dst : option pystr) : FM unit :=
  src <- match src with None => self_get src_path | Some s => fret s end ;;
  dst <- match dst with None => self_get dst_path | Some d => fret d end ;;
  ftry (let (dst_path, filename) := OsPath.split dst in
        makedirs_if_absent dst_path ;;
        shutil_copy src dst)
       (fun e => self_do (add_error e [])).

Definition quote : pystr := [34%N].

Definition create_metadata_file (ext : pystr) : FM pyval :=
  let ext := _check_leading_dot ext in
  src <- self_get src_path ;;
  present <- world_get (exists_path (src ++ ext)) ;;
  if present then
    name <- self_get filename ;;
    let err_str := py "Could not create metadata file for " ++ quote ++ name ++ quote
                   ++ py ": a file with that path already exists." in
    (* raise KittenGroomerError(err_str), caught four lines below *)
    self_do (add_error (KittenGroomerError err_str) []) ;;
    fret (VBool false)
  else
    dst <- self_get dst_path ;;
    let (dst_dir_path, filename) := OsPath.split dst in
    makedirs_if_absent dst_dir_path ;;
    self_do (with_metadata_file_path (dst ++ ext)) ;;
    fret (VStr (dst ++ ext)).

(** *** [__init__] *)

Definition _determine_extension (src_path : pystr) : option pystr :=
  let (_, ext) := OsPath.splitext src_path in
  let ext := lower ext in
  match ext with
  | [] => None
  | _ => Some ext
  end.

(** The mimetype, and the property dictionary after the call *)
Definition _determine_mimetype (v : verdicts) (p : file_props) : option pystr * file_props :=
  match v_symlink v with
  | Some target => (Some (py "inode/symlink"), props_set (py "symlink") (VStr target) p)
  | None =>
      match v_magic v with
      | MagicMime mt => (Some mt, p)
      | MagicUnicodeEncodeError => (None, props_add_error UnicodeEncodeError [] p)
      end
  end.

(** [main_type, sub_type = mimetype.split('/')] fails to unpack unless
    there is exactly one separator. *)
Definition _split_subtypes (mimetype : pystr) : pyexn + (option pystr * option pystr) :=
  if contains mimetype (py "/") then
    match split_on OsPath.sep mimetype with
    | [main_type; sub_type] => inr (Some main_type, Some sub_type)
    | _ => inl ValueError
    end
  else inr (None, None).

Definition opt_val (o : option pystr) : pyval :=
  match o with
  | None => VNone
  | Some s => VStr s
  end.

Definition initial_props (src_path filename : pystr) (size : Z) : file_props :=
  {| p_filepath := VStr src_path;
     p_filename := VStr filename;
     p_file_size := VInt size;
     p_maintype := VNone;
     p_subtype := VNone;
     p_extension := VNone;
     p_safety_category := VNone;
     p_symlink := VBool false;
     p_copied := VBool false;
     p_description_string := [];
     p_errors := [];
     p_user_defined := [] |}.

(** [File(src_path, dst_path, logger)]: [FileBase.__init__] followed by
    the attributes [File.__init__] adds.  The file at [src_path] is the one
    the libraries answer [v] about. *)
Definition File_init (src_path dst_path : pystr) (logger : GroomerLogger) (v : verdicts)
  : pyexn + File :=
  let filename := OsPath.basename src_path in
  let props := initial_props src_path filename (v_size v) in
  let extension := _determine_extension src_path in
  let props := props_set (py "extension") (opt_val extension) props in
  let (mimetype, props) := _determine_mimetype v props in
  let split :=
    match mimetype with
    | Some (c :: mt) => _split_subtypes (c :: mt)
    | _ => inr (None, None)
    end in
  match split with
  | inl e => inl e
  | inr (main_type, sub_type) =>
      let props := if truthy main_type
                   then props_set (py "maintype") (opt_val main_type) props else props in
      let props := if truthy sub_type
                   then props_set (py "subtype") (opt_val sub_type) props else props in
      inr {| src_path := src_path; dst_path := dst_path; filename := filename;
             _file_props := props; extension := extension; mimetype := mimetype;
             should_copy := true; main_type := main_type; sub_type := sub_type;
             is_recursive := false; logger := logger;
             tempdir_path := dst_path ++ py "_temp";
             metadata_file_path := None; seen := v |}
  end.

(* ================================================================== *)
(** ** [bin/filecheck.py]: class [Config] *)
(* ================================================================== *)

Module Config.

Definition mimes_ooxml : list pystr := [py "vnd.openxmlformats-officedocument."].
Definition mimes_office : list pystr := [py "msword"; py "vnd.ms-"].
Definition mimes_libreoffice : list pystr := [py "vnd.oasis.opendocument"].
Definition mimes_rtf : list pystr := [py "rtf"; py "richtext"].
Definition mimes_pdf : list pystr := [py "pdf"; py "postscript"].
Definition mimes_xml : list pystr := [py "xml"].
Definition mimes_ms : list pystr := [py "dosexec"].
Definition mimes_compressed : list pystr :=
  [py "zip"; py "rar"; py "bzip2"; py "lzip"; py "lzma"; py "lzop";
   py "xz"; py "compress"; py "gzip"; py "tar"].
Definition mimes_data : list pystr := [py "octet-stream"].

Definition mimes_exif : list pystr := [py "image/jpeg"; py "image/tiff"].
Definition mimes_png : list pystr := [py "image/png"].

Definition mimes_metadata : list pystr := [py "image/jpeg"; py "image/tiff"; py "image/png"].

Definition malicious_exts : list pystr :=
  map py
    [ (* Applications *)
      ".exe"; ".pif"; ".application"; ".gadget"; ".msi"; ".msp"; ".com"; ".scr";
      ".hta"; ".cpl"; ".msc"; ".jar";
      (* Scripts *)
      ".bat"; ".cmd"; ".vb"; ".vbs"; ".vbe"; ".js"; ".jse"; ".ws"; ".wsf";
      ".wsc"; ".wsh"; ".ps1"; ".ps1xml"; ".ps2"; ".ps2xml"; ".psc1"; ".psc2";
      ".msh"; ".msh1"; ".msh2"; ".mshxml"; ".msh1xml"; ".msh2xml";
      (* Shortcuts *)
      ".scf"; ".lnk"; ".inf";
      (* Other *)
      ".reg"; ".dll";
      (* Office macro (OOXML with macro enabled) *)
      ".docm"; ".dotm"; ".xlsm"; ".xltm"; ".xlam"; ".pptm"; ".potm"; ".ppam";
      ".ppsm"; ".sldm";
      (* banned from wirecode *)
      ".asf"; ".asx"; ".au"; ".htm"; ".html"; ".mht"; ".vbs";
      ".wax"; ".wm"; ".wma"; ".wmd"; ".wmv"; ".wmx"; ".wmz"; ".wvx" ]%string.

Definition aliases : list (pystr * pystr) :=
  [ (py "application/x-msdos-program", py "application/x-dosexec");
    (py "application/x-dosexec", py "application/x-msdos-program");
    (py "application/rtf", py "text/rtf") ].

Definition override_ext : list (pystr * pystr) := [ (py ".gz", py "application/gzip") ].

End Config.

(* ================================================================== *)
(** ** [bin/filecheck.py]: class [GroomerLogger] *)
(* ================================================================== *)

Definition raising (A : Type) := (pyexn + A)%type.

(** [_get_path_depth]: no base path is bound when neither root occurs in
    the path. *)
Definition _get_path_depth (lg : GroomerLogger) (path : pystr) : raising Z :=
  let base_path :=
    if contains path (_dst_root_path lg) then Some (_dst_root_path lg)
    else if contains path (_src_root_path lg) then Some (_src_root_path lg)
    else None in
  match base_path with
  | None => inl UnboundLocalError
  | Some base_path =>
      let relpath := OsPath.relpath path base_path in
      inr (Z.of_nat (count_char OsPath.sep relpath))
  end.

(** [_write_line_to_log]: the line as text, before [os.fsencode] *)
Definition _write_line_to_log (line : pystr) (indentation_depth : Z) (w : world) : world :=
  let padding := py "   " ++ List.concat (repeat (py "|  ") (Z.to_nat indentation_depth)) in
  append_log (padding ++ line) w.

(** [', '.join(l)] on a list of values: every item must be a string *)
Fixpoint join_values (l : list pyval) : raising (list pystr) :=
  match l with
  | [] => inr []
  | VStr s :: l' =>
      match join_values l' with
      | inl e => inl e
      | inr r => inr (s :: r)
      end
  | _ :: _ => inl TypeError
  end.

(** [add_file]; [sha256] is [Logging.computehash(file_path)]. *)
Definition add_file (lg : GroomerLogger) (file_path sha256 : pystr) (props : file_props)
    (in_tempdir : bool) (w : world) : raising world :=
  match _get_path_depth lg file_path with
  | inl e => inl e
  | inr depth =>
      match join_values (p_description_string props) with
      | inl e => inl e
      | inr items =>
          let description_string := join_with (py ", ") items in
          let file_hash := firstn 6 sha256 in
          let descr_cat :=
            match p_safety_category props with
            | VNone => inr (py "Normal")
            | VStr s => inr (capitalize s)
            | _ => inl AttributeError
            end in
          match descr_cat with
          | inl e => inl e
          | inr descr_cat =>
              let size := pyval_str (p_file_size props) ++ py "B" in
              let file_string :=
                py "+- " ++ pyval_str (p_filename props) ++ py " (" ++ file_hash ++ py "): "
                ++ size ++ py ", " ++ pyval_str (p_maintype props) ++ py "/"
                ++ pyval_str (p_subtype props) ++ py ". " ++ descr_cat ++ py ": "
                ++ description_string in
              let depth := if in_tempdir then (depth - 1)%Z else depth in
              inr (_write_line_to_log file_string depth w)
          end
      end
  end.

Definition add_dir (lg : GroomerLogger) (dir_path : pystr) (w : world) : raising world :=
  match _get_path_depth lg dir_path with
  | inl e => inl e
  | inr path_depth =>
      let dirname := snd (OsPath.split dir_path) ++ py "/" in
      let log_line := py "+- " ++ dirname in
      inr (_write_line_to_log log_line path_depth w)
  end.

(* ================================================================== *)
(** ** [bin/filecheck.py]: class [File] *)
(* ================================================================== *)

(** The bound methods the two dispatch tables of [File.__init__] hold *)
Inductive app_method :=
| m_winoffice | m_ooxml | m_text | m_libreoffice | m_pdf
| m_executables | m_archive | m_binary_app.

Inductive metadata_method := m_metadata_exif | m_metadata_png.

Inductive type_method :=
| t_text | t_audio | t_image | t_video | t_application | t_example
| t_message | t_model | t_multipart | t_inode | t_unknown.

Definition _make_method_dict {M : Type} (list_of_tuples : list (list pystr * M))
  : list (pystr * M) :=
  fold_left
    (fun dict_to_return '(list_of_subtypes, method) =>
       fold_left (fun d subtype => dict_set subtype method d) list_of_subtypes dict_to_return)
    list_of_tuples [].

Definition subtypes_apps : list (list pystr * app_method) :=
  [ (Config.mimes_office, m_winoffice);
    (Config.mimes_ooxml, m_ooxml);
    (Config.mimes_rtf, m_text);
    (Config.mimes_libreoffice, m_libreoffice);
    (Config.mimes_pdf, m_pdf);
    (Config.mimes_xml, m_text);
    (Config.mimes_ms, m_executables);
    (Config.mimes_compressed, m_archive);
    (Config.mimes_data, m_binary_app) ].

Definition app_subtype_methods : list (pystr * app_method) :=
  _make_method_dict subtypes_apps.

Definition types_metadata : list (list pystr * metadata_method) :=
  [ (Config.mimes_exif, m_metadata_exif);
    (Config.mimes_png, m_metadata_png) ].

Definition metadata_mimetype_methods : list (pystr * metadata_method) :=
  _make_method_dict types_metadata.

Definition mime_processing_options : list (pystr * type_method) :=
  [ (py "text", t_text); (py "audio", t_audio); (py "image", t_image);
    (py "video", t_video); (py "application", t_application);
    (py "example", t_example); (py "message", t_message); (py "model", t_model);
    (py "multipart", t_multipart); (py "inode", t_inode) ].

Definition right_to_left_override : N := 8238.   (* U+202E *)

Definition opt_str_eqb (a b : option pystr) : bool :=
  match a, b with
  | None, None => true
  | Some x, Some y => str_eqb x y
  | _, _ => false
  end.

(** [k in d] and [d[k]] for a key that may be [None] *)
Definition opt_dict_get {V : Type} (k : option pystr) (d : list (pystr * V)) : option V :=
  match k with
  | None => None
  | Some k => dict_get k d
  end.

Definition opt_mem (k : option pystr) (l : list pystr) : bool :=
  match k with
  | None => false
  | Some k => str_mem k l
  end.

Section FileCheck.

Variable mdb : MimeDB.

Definition _check_dangerous (f : File) : File :=
  let f := if negb (has_mimetype f)
           then make_dangerous (VStr (py "File has no mimetype")) f else f in
  let f := if negb (has_extension f)
           then make_dangerous (VStr (py "File has no extension")) f else f in
  if opt_mem (extension f) Config.malicious_exts
  then make_dangerous (VStr (py "Extension identifies file as potentially dangerous")) f
  else f.

Definition _check_extension (f : File) : File :=
  let expected_mimetype :=
    match opt_dict_get (extension f) Config.override_ext with
    | Some m => Some m
    | None =>
        let expected_mimetype := guess_type mdb (src_path f) in
        match opt_dict_get expected_mimetype Config.aliases with
        | Some m => Some m
        | None => expected_mimetype
        end
    end in
  let is_known_extension := opt_mem (extension f) (types_map_keys mdb) in
  if (is_known_extension && negb (opt_str_eqb expected_mimetype (mimetype f)))%bool
  then make_dangerous (VStr (py "Mimetype does not match expected mimetype for this extension")) f
  else f.

(** [mimetypes.guess_all_extensions(None)] fails on [None.lower()]. *)
Definition _check_mimetype : FM unit :=
  mt <- self_get mimetype ;;
  let mimetype :=
    match opt_dict_get mt Config.aliases with
    | Some m => Some m
    | None => mt
    end in
  match mimetype with
  | None => fraise AttributeError
  | Some mimetype =>
      let expected_extensions := guess_all_extensions mdb mimetype in
      match expected_extensions with
      | [] => fret tt
      | _ =>
          self_do (fun f =>
            if (has_extension f && negb (opt_mem (extension f) expected_extensions))%bool
            then make_dangerous
                   (VStr (py "Extension does not match expected extensions for this mimetype")) f
            else f)
      end
  end.

(** [self.filename[0]] fails on an empty name. *)
Definition _check_filename : FM unit :=
  name <- self_get filename ;;
  match name with
  | [] => fraise IndexError
  | _ =>
      if contains name [right_to_left_override] then
        self_do (make_dangerous (VStr (py "Filename contains dangerous character"))) ;;
        self_do (fun f => with_dst_path (replace_char right_to_left_override [] (dst_path f)) f)
      else fret tt
  end.

(** [write_log]; the hash is the one of the file at [src_path]. *)
Definition write_log : FM unit :=
  fun self w =>
    let in_tempdir := (negb (is_recursive self) && exists_path (tempdir_path self) w)%bool in
    match add_file (logger self) (src_path self) (v_sha256 (seen self))
                   (_file_props self) in_tempdir w with
    | inl e => FRaise e self w
    | inr w' => FOk tt self w'
    end.

Definition has_metadata (f : File) : bool := opt_mem (mimetype f) Config.mimes_metadata.

Definition make_tempdir : FM pystr :=
  tempdir_path <- self_get tempdir_path ;;
  makedirs_if_absent tempdir_path ;;
  fret tempdir_path.

(** *** Discarded mimetypes *)

Definition inode (f : File) : File :=
  let f :=
    if is_symlink f then
      (* get_property('symlink') *)
      let symlink_path := p_symlink (_file_props f) in
      add_description (py "File is a symlink to " ++ pyval_str symlink_path) f
    else add_description (py "File is an inode (empty file)") f in
  with_should_copy false f.

Definition unknown (f : File) : File :=
  with_should_copy false (add_description (py "Unknown mimetype") f).

Definition example (f : File) : File :=
  with_should_copy false (add_description (py "Example file") f).

Definition multipart (f : File) : File :=
  with_should_copy false (add_description (py "Multipart file - usually found in web apps") f).

(** *** Treated as malicious *)

Definition message (f : File) : File :=
  make_dangerous (VStr (py "Message file - should not be found on USB key")) f.

Definition model (f : File) : File :=
  make_dangerous (VStr (py "Model file - should not be found on USB key")) f.

(** *** Applications *)

Definition _executables (f : File) : File :=
  make_dangerous (VStr (py "Executable file")) f.

Definition has_macro_stream (ole : OleFileIO) : bool :=
  (ole_exists ole (py "macros/vba") || ole_exists ole (py "Macros")
   || ole_exists ole (py "_VBA_PROJECT_CUR") || ole_exists ole (py "VBA"))%bool.

(** When [OleFileIO] raises, the handler marks the file and falls through
    to [ole.parsing_issues], where [ole] was never bound. *)
Definition _winoffice : FM unit :=
  v <- self_get seen ;;
  let oid := v_OleID v in
  (if negb (v_isOleFile v) then
     match v_OleFileIO v with
     | None =>
         self_do (make_dangerous (VStr (py "Unparsable WinOffice file"))) ;;
         fraise UnboundLocalError
     | Some ole =>
         if parsing_issues ole then
           self_do (make_dangerous (VStr (py "Parsing issues with WinOffice file")))
         else if has_macro_stream ole then
           self_do (make_dangerous (VStr (py "WinOffice file containing a macro")))
         else fret tt
     end
   else
     (if oid_encrypted oid
      then self_do (make_dangerous (VStr (py "Encrypted WinOffice file")))
      else fret tt) ;;
     (if (oid_macros oid || has_macro_stream (oid_ole oid))%bool
      then self_do (make_dangerous (VStr (py "WinOffice file containing a macro")))
      else fret tt) ;;
     self_do (fun f =>
       fold_left
         (fun f '(id, value) =>
            if (str_eqb id (py "ObjectPool") && value)%bool
            then add_description (py "WinOffice file containing an object pool") f
            else if (str_eqb id (py "flash") && value)%bool
            then make_dangerous (VStr (py "WinOffice file with embedded flash")) f
            else f)
         (oid_indicators oid) f)) ;;
  self_do (add_description (py "WinOffice file")).

Definition _ooxml (f : File) : File :=
  match v_ooxml (seen f) with
  | None => make_dangerous (VStr (py "Invalid ooxml file")) f
  | Some doc =>
      let f := if (is_macro_enabled doc || Nat.ltb 0 (features_macros doc))%bool
               then make_dangerous (VStr (py "Ooxml file containing macro")) f else f in
      let f := if Nat.ltb 0 (features_embedded_controls doc)
               then make_dangerous (VStr (py "Ooxml file with activex")) f else f in
      let f := if Nat.ltb 0 (features_embedded_objects doc)
               then make_dangerous (VStr (py "Ooxml file with embedded objects")) f else f in
      if Nat.ltb 0 (features_embedded_packages doc)
      then make_dangerous (VStr (py "Ooxml file with embedded packages")) f else f
  end.

(** When [ZipFile] raises, the handler marks the file and falls through
    to [lodoc.infolist()], where [lodoc] was never bound. *)
Definition _libreoffice : FM unit :=
  v <- self_get seen ;;
  match v_zip_infolist v with
  | None =>
      self_do (make_dangerous (VStr (py "Invalid libreoffice file"))) ;;
      fraise UnboundLocalError
  | Some infolist =>
      self_do (fun f =>
        fold_left
          (fun f name =>
             let fname := lower name in
             if (startswith fname (py "script") || startswith fname (py "basic")
                 || startswith fname (py "object") || endswith fname (py ".bin"))%bool
             then make_dangerous (VStr (py "Libreoffice file containing executable code")) f
             else f)
          infolist f) ;;
      self_do (fun f => if negb (is_dangerous f)
                        then add_description (py "Libreoffice file") f else f)
  end.

Definition _pdf (f : File) : File :=
  let oPDFiD := v_pdfid (seen f) in
  let f := if (0 <? pdf_encrypt oPDFiD)%Z
           then make_dangerous (VStr (py "Encrypted pdf")) f else f in
  let f := if ((0 <? pdf_js oPDFiD) || (0 <? pdf_javascript oPDFiD))%Z
           then make_dangerous (VStr (py "Pdf with embedded javascript")) f else f in
  let f := if ((0 <? pdf_aa oPDFiD) || (0 <? pdf_openaction oPDFiD))%Z
           then make_dangerous (VStr (py "Pdf with openaction(s)")) f else f in
  let f := if (0 <? pdf_richmedia oPDFiD)%Z
           then make_dangerous (VStr (py "Pdf containing flash")) f else f in
  let f := if (0 <? pdf_launch oPDFiD)%Z
           then make_dangerous (VStr (py "Pdf with launch action(s)")) f else f in
  if negb (is_dangerous f) then add_description (py "Pdf file") f else f.

Definition _archive (f : File) : File :=
  let f := add_description (py "Archive") f in
  let f := with_should_copy false f in
  with_is_recursive true f.

Definition _unknown_app (f : File) : File :=
  make_unknown (add_description (py "Unknown application file") f).

Definition _binary_app (f : File) : File :=
  make_binary (add_description (py "Unknown binary file") f).

(** *** Files that will be converted *)

(** [mt in self.sub_type] fails when [sub_type] is [None]. *)
Definition text : FM unit :=
  st <- self_get sub_type ;;
  match st with
  | None => fraise TypeError
  | Some sub_type =>
      if existsb (fun mt => contains sub_type mt) Config.mimes_rtf then
        self_do (add_description (py "Rich Text (rtf) file")) ;;
        self_do (force_ext (py ".txt"))
      else if existsb (fun mt => contains sub_type mt) Config.mimes_ooxml then
        self_do (add_description (py "OOXML (openoffice) file")) ;;
        self_do _ooxml
      else
        self_do (add_description (py "Plain text file")) ;;
        self_do (force_ext (py ".txt"))
  end.

Definition call_app_method (m : app_method) : FM unit :=
  match m with
  | m_winoffice => _winoffice
  | m_ooxml => self_do _ooxml
  | m_text => text
  | m_libreoffice => _libreoffice
  | m_pdf => self_do _pdf
  | m_executables => self_do _executables
  | m_archive => self_do _archive
  | m_binary_app => self_do _binary_app
  end.

Definition application : FM unit :=
  st <- self_get sub_type ;;
  match st with
  | None => fraise TypeError
  | Some sub_type =>
      match find (fun '(subtype, _) => contains sub_type subtype) app_subtype_methods with
      | Some (_, method) => call_app_method method
      | None => self_do _unknown_app
      end
  end.

(** *** Metadata extractors *)

(** [for x in l: body(x)] *)
Fixpoint ffor {A : Type} (l : list A) (body : A -> FM unit) : FM unit :=
  match l with
  | [] => fret tt
  | x :: l' => body x ;; ffor l' body
  end.

(** [with open(metadata_file_path, 'w+') as f: f.write(...)].  When the
    sidecar file could not be created the path is [False], which [open]
    takes for the file descriptor 0, the standard input, and the statement
    raises [OSError]. *)
Definition write_metadata (metadata_file_path : pyval) : FM unit :=
  match metadata_file_path with
  | VStr p => world_do (write_file p)
  | _ => fraise OSError
  end.

Definition _metadata_exif (metadata_file_path : pyval) : FM pyval :=
  src <- self_get src_path ;;
  v <- self_get seen ;;
  let finish (tags : list pystr) : FM pyval :=
    ffor tags (fun tag =>
      if negb (str_mem tag [py "JPEGThumbnail"; py "TIFFThumbnail"])
      then write_metadata metadata_file_path else fret tt) ;;
    self_do (set_property (py "metadata") (VStr (py "exif"))) ;;
    fret (VBool true) in
  match v_exif_first v with
  | inr tags => finish tags
  | inl e =>
      self_do (add_error e (py "Error while trying to grab full metadata for file " ++ src
                            ++ py "; retrying for partial data.")) ;;
      match v_exif_retry v with
      | inr tags => finish tags
      | inl e =>
          self_do (add_error e (py "Failed to get any metadata for file " ++ src ++ py ".")) ;;
          fret (VBool false)
      end
  end.

(** [tag not in ('icc_profile')] is a test on substrings of one string. *)
Definition _metadata_png (metadata_file_path : pyval) : FM pyval :=
  src <- self_get src_path ;;
  v <- self_get seen ;;
  ftry
    (match v_png_info v with
     | inl e => fraise e
     | inr tags =>
         ffor tags (fun tag =>
           if negb (contains (py "icc_profile") tag)
           then write_metadata metadata_file_path else fret tt) ;;
         self_do (set_property (py "metadata") (VStr (py "png"))) ;;
         fret VNone
     end)
    (fun e =>
       self_do (add_error e (py "Caught exception processing metadata for " ++ src)) ;;
       self_do (make_dangerous (VStr (py "exception processing metadata"))) ;;
       fret (VBool false)).

Definition extract_metadata : FM unit :=
  metadata_file_path <- create_metadata_file (py ".metadata.txt") ;;
  mt <- self_get mimetype ;;
  match opt_dict_get mt metadata_mimetype_methods with
  | Some m_metadata_exif => _metadata_exif metadata_file_path ;; fret tt
  | Some m_metadata_png => _metadata_png metadata_file_path ;; fret tt
  | None => fret tt
  end.

(** *** Media *)

Definition _media_processing (f : File) : File := add_description (py "Media file") f.

Definition audio (f : File) : File := _media_processing (add_description (py "Audio file") f).

Definition video (f : File) : File := _media_processing (add_description (py "Video file") f).

(** What the libraries answer about the re-encoded image *)
Definition reencoded (v : verdicts) : verdicts :=
  {| v_size := v_size v; v_symlink := v_symlink v; v_magic := v_magic v;
     v_sha256 := v_reencoded_sha256 v;
     v_isOleFile := v_isOleFile v; v_OleFileIO := v_OleFileIO v; v_OleID := v_OleID v;
     v_ooxml := v_ooxml v; v_zip_infolist := v_zip_infolist v; v_pdfid := v_pdfid v;
     v_exif_first := v_exif_first v; v_exif_retry := v_exif_retry v;
     v_png_info := v_png_info v; v_reencode := v_reencode v;
     v_reencoded_sha256 := v_reencoded_sha256 v; v_copy := v_copy v |}.

Definition image : FM unit :=
  hm <- self_get has_metadata ;;
  (if hm then extract_metadata else fret tt) ;;
  tempdir_path <- make_tempdir ;;
  name <- self_get filename ;;
  let tempfile_path := OsPath.join tempdir_path name in
  src <- self_get src_path ;;
  v <- self_get seen ;;
  ftry
    (match v_reencode v with
     | Some e => fraise e
     | None =>
         world_do (write_file tempfile_path) ;;
         self_do (with_src_path tempfile_path (reencoded v))
     end)
    (fun e =>
       self_do (add_error e (py "Caught exception (possible decompression bomb?) while translating file "
                             ++ src ++ py ".")) ;;
       self_do (make_dangerous (VStr (py "Image file containing decompression bomb")))) ;;
  self_do (fun f => if negb (is_dangerous f) then add_description (py "Image file") f else f).

(** *** [check] *)

Definition call_type_method (m : type_method) : FM unit :=
  match m with
  | t_text => text
  | t_audio => self_do audio
  | t_image => image
  | t_video => self_do video
  | t_application => application
  | t_example => self_do example
  | t_message => self_do message
  | t_model => self_do model
  | t_multipart => self_do multipart
  | t_inode => self_do inode
  | t_unknown => self_do unknown
  end.

Definition check : FM unit :=
  self_do _check_dangerous ;;
  _check_filename ;;
  he <- self_get has_extension ;;
  (if he then self_do _check_extension else fret tt) ;;
  hm <- self_get has_mimetype ;;
  (if hm then _check_mimetype else fret tt) ;;
  dangerous <- self_get is_dangerous ;;
  if negb dangerous then
    mt <- self_get main_type ;;
    (* self.mime_processing_options.get(self.main_type, self.unknown)() *)
    match opt_dict_get mt mime_processing_options with
    | Some method => call_type_method method
    | None => call_type_method t_unknown
    end
  else fret tt.

End FileCheck.

(* ================================================================== *)
(** ** [bin/filecheck.py]: class [KittenGroomerFileCheck] *)
(* ================================================================== *)

(** The source tree as [os.listdir], [os.path.isdir] and [os.path.isfile]
    show it.  A regular file carries what the libraries answer about it
    and, should it be handed to 7z, how the command ends and what it
    leaves in the scratch directory. *)
Inductive node :=
| Directory (name : pystr) (children : list node)
| Regular (name : pystr) (v : verdicts) (o : extractor_outcome) (unpacked : list node)
| Special (name : pystr).   (* neither a directory nor a file: skipped *)

Definition node_name (n : node) : pystr :=
  match n with
  | Directory name _ | Regular name _ _ _ | Special name => name
  end.

(** An item of the queue [list_files_dirs] returns *)
Inductive entry :=
| EDir (path : pystr)
| EFile (path : pystr) (v : verdicts) (o : extractor_outcome) (unpacked : list node).

(** [sorted(l, key=...)]: a stable sort on the keys *)
Fixpoint insert_by_key {A : Type} (x : pystr * A) (l : list (pystr * A)) : list (pystr * A) :=
  match l with
  | [] => [x]
  | y :: l' => if str_leb (fst x) (fst y) then x :: l else y :: insert_by_key x l'
  end.

Definition sorted_by_key {A : Type} (l : list (pystr * A)) : list (pystr * A) :=
  fold_right insert_by_key [] l.

(** What one name of [os.listdir(root_dir_path)] adds to the queue.  The
    queue of each child is computed first and the children are then put
    in the order of their lower-cased names, which is the queue the
    program builds by sorting first. *)
Fixpoint queue_of (root_dir_path : pystr) (n : node) : list entry :=
  let full_path := OsPath.join root_dir_path (node_name n) in
  match n with
  | Directory _ children =>
      EDir full_path ::
      List.concat (map snd (sorted_by_key
        (map (fun c => (lower (node_name c), queue_of full_path c)) children)))
  | Regular _ v o unpacked => [EFile full_path v o unpacked]
  | Special _ => []
  end.

Definition list_files_dirs (root_dir_path : pystr) (ls : list node) : list entry :=
  List.concat (map snd (sorted_by_key
    (map (fun c => (lower (node_name c), queue_of root_dir_path c)) ls))).

(** Every path below [root_dir_path], for the paths 7z creates *)
Fixpoint paths_of (root_dir_path : pystr) (n : node) : list pystr :=
  let full_path := OsPath.join root_dir_path (node_name n) in
  match n with
  | Directory _ children => full_path :: flat_map (paths_of full_path) children
  | Regular _ _ _ _ | Special _ => [full_path]
  end.

(** The attributes of the groomer that never change *)
Record KittenGroomerFileCheck := {
  src_root_path : pystr;
  dst_root_path : pystr;
  max_recursive_depth : Z;
  groomer_logger : GroomerLogger
}.

(** What changes during a run: the world, the [File] objects created so
    far (in the order of their creation), [self.cur_file] as an index in
    them, and [self.recursive_archive_depth]. *)
Record state := {
  outside : world;
  heap : list File;
  cur_file : option nat;
  recursive_archive_depth : Z
}.

Definition set_outside (w : world) (s : state) : state :=
  {| outside := w; heap := heap s; cur_file := cur_file s;
     recursive_archive_depth := recursive_archive_depth s |}.

Definition set_depth (d : Z) (s : state) : state :=
  {| outside := outside s; heap := heap s; cur_file := cur_file s;
     recursive_archive_depth := d |}.

Fixpoint list_update {A : Type} (i : nat) (x : A) (l : list A) : list A :=
  match l, i with
  | [], _ => []
  | _ :: l', O => x :: l'
  | y :: l', S i' => y :: list_update i' x l'
  end.

(** The object at index [i] is now [f] *)
Definition store (i : nat) (f : File) (s : state) : state :=
  {| outside := outside s; heap := list_update i f (heap s); cur_file := cur_file s;
     recursive_archive_depth := recursive_archive_depth s |}.

(** A new object, which [self.cur_file] now names *)
Definition allocate (f : File) (s : state) : nat * state :=
  let i := List.length (heap s) in
  (i, {| outside := outside s; heap := heap s ++ [f]; cur_file := Some i;
         recursive_archive_depth := recursive_archive_depth s |}).

Inductive outcome (A : Type) :=
| Ok (a : A) (s : state)
| Raise (e : pyexn) (s : state)
| OutOfFuel.

Arguments Ok {A} a s.
Arguments Raise {A} e s.
Arguments OutOfFuel {A}.

Definition GM (A : Type) := state -> outcome A.

Definition gret {A : Type} (a : A) : GM A := fun s => Ok a s.

Definition graise {A : Type} (e : pyexn) : GM A := fun s => Raise e s.

Definition gbind {A B : Type} (m : GM A) (k : A -> GM B) : GM B :=
  fun s =>
    match m s with
    | Ok a s' => k a s'
    | Raise e s' => Raise e s'
    | OutOfFuel => OutOfFuel
    end.

Definition state_get {A : Type} (g : state -> A) : GM A := fun s => Ok (g s) s.

Definition state_do (g : state -> state) : GM unit := fun s => Ok tt (g s).

Declare Scope gm_scope.
Delimit Scope gm_scope with gm.
Bind Scope gm_scope with GM.

Notation "x <- c1 ;; c2" := (gbind c1 (fun x => c2))
  (at level 61, c1 at next level, right associativity) : gm_scope.
Notation "c1 ;; c2" := (gbind c1 (fun _ => c2))
  (at level 61, right associativity) : gm_scope.

(** A method called on the [File] object at index [i], whose attributes
    are [f] when the call starts; the object is written back, also when
    the method raises. *)
Definition on_file {A : Type} (i : nat) (f : File) (m : FM A) : GM (A * File) :=
  fun s =>
    match m f (outside s) with
    | FOk a f' w' => Ok (a, f') (store i f' (set_outside w' s))
    | FRaise e f' w' => Raise e (store i f' (set_outside w' s))
    end.

(** A call of the logger *)
Definition logging (m : world -> raising world) : GM unit :=
  fun s =>
    match m (outside s) with
    | inl e => Raise e s
    | inr w' => Ok tt (set_outside w' s)
    end.

(** [for x in l: body(x)] *)
Fixpoint gfor {A : Type} (l : list A) (body : A -> GM unit) : GM unit :=
  match l with
  | [] => gret tt
  | x :: l' => gbind (body x) (fun _ => gfor l' body)
  end.

Local Open Scope gm_scope.

Definition safe_rmtree (directory_path : pystr) : GM unit :=
  state_do (fun s =>
    if exists_path directory_path (outside s)
    then set_outside (rmtree directory_path (outside s)) s else s).

(** [_run_process] on the 7z command: [True], or [None] when the exit
    status is not zero or the time is out.  Whatever 7z has written by
    then, [written], is in the scratch directory. *)
Definition _run_process (o : extractor_outcome) (written : list pystr) : GM (option bool) :=
  match o with
  | CannotRun e => graise e
  | ExitZero =>
      state_do (fun s => set_outside (set_fs (fs (outside s) ++ written) (outside s)) s) ;;
      gret (Some true)
  | CalledProcessError | TimeoutExpired =>
      state_do (fun s => set_outside (set_fs (fs (outside s) ++ written) (outside s)) s) ;;
      gret None
  end.

Section Groomer.

Variable mdb : MimeDB.

Section Walk.

Variable g : KittenGroomerFileCheck.

(** The recursive call [self.process_dir(tempdir_path, file.dst_path)] *)
Variable recurse : pystr -> pystr -> list node -> GM unit.

Definition process_archive_with (i : nat) (file : File) (o : extractor_outcome)
    (unpacked : list node) : GM unit :=
  state_do (fun s => set_depth (recursive_archive_depth s + 1) s) ;;
  depth <- state_get recursive_archive_depth ;;
  (if (depth >=? max_recursive_depth g)%Z then
     on_file i file (self_do (make_dangerous (VStr (py "Archive bomb")))) ;; gret tt
   else
     r <- on_file i file make_tempdir ;;
     let (tempdir_path, file) := r in
     _run_process o (flat_map (paths_of tempdir_path) unpacked) ;;
     r <- on_file i file write_log ;;
     let file := snd r in
     recurse tempdir_path (dst_path file) unpacked ;;
     safe_rmtree tempdir_path) ;;
  state_do (fun s => set_depth (recursive_archive_depth s - 1) s).

Definition process_file_with (i : nat) (file : File) (o : extractor_outcome)
    (unpacked : list node) : GM unit :=
  r <- on_file i file (check mdb) ;;
  let file := snd r in
  file <- (if should_copy file then
             r <- on_file i file
                    (fbind (safe_copy None None) (fun _ =>
                     fbind (self_do (set_property (py "copied") (VBool true))) (fun _ =>
                     write_log))) ;;
             gret (snd r)
           else gret file) ;;
  (if is_recursive file then process_archive_with i file o unpacked else gret tt) ;;
  safe_rmtree (tempdir_path file).

Definition process_dir_with (src_dir dst_dir : pystr) (ls : list node) : GM unit :=
  gfor (list_files_dirs src_dir ls) (fun e =>
    match e with
    | EDir srcpath => logging (add_dir (groomer_logger g) srcpath)
    | EFile srcpath v o unpacked =>
        let dstpath := OsPath.join dst_dir (OsPath.basename srcpath) in
        match File_init srcpath dstpath (groomer_logger g) v with
        | inl e => graise e
        | inr file =>
            i <- (fun s => let (i, s') := allocate file s in Ok i s') ;;
            process_file_with i file o unpacked
        end
    end).

End Walk.

(** [process_dir]: the fuel counts the nested expansions still allowed
    to the model; [process_dir_enough_fuel] shows that the bound on the
    recursion depth makes [max_recursive_depth] units enough. *)
Fixpoint process_dir (g : KittenGroomerFileCheck) (fuel : nat)
    (src_dir dst_dir : pystr) (ls : list node) : GM unit :=
  process_dir_with g
    (match fuel with
     | O => fun _ _ _ _ => OutOfFuel
     | S fuel' => process_dir g fuel'
     end)
    src_dir dst_dir ls.

Definition recursion (g : KittenGroomerFileCheck) (fuel : nat)
  : pystr -> pystr -> list node -> GM unit :=
  match fuel with
  | O => fun _ _ _ _ => OutOfFuel
  | S fuel' => process_dir g fuel'
  end.

Definition process_archive (g : KittenGroomerFileCheck) (fuel : nat) :=
  process_archive_with g (recursion g fuel).

Definition process_file (g : KittenGroomerFileCheck) (fuel : nat) :=
  process_file_with g (recursion g fuel).

(** [run], on the tree found under [src_root_path] *)
Definition run (g : KittenGroomerFileCheck) (fuel : nat) (tree : list node) : GM unit :=
  process_dir g fuel (src_root_path g) (dst_root_path g) tree.

End Groomer.

(* ================================================================== *)
(** ** Sequences of calls on the safety category *)
(* ================================================================== *)

Definition category (f : File) : pyval := p_safety_category (_file_props f).

Definition descriptions (f : File) : list pyval := p_description_string (_file_props f).

(** The order in which the categories replace one another *)
Definition rank (c : pyval) : nat :=
  if pyval_eqb c (VStr (py "dangerous")) then 3
  else if pyval_eqb c (VStr (py "binary")) then 2
  else if pyval_eqb c (VStr (py "unknown")) then 1
  else 0.

Inductive safety_call :=
| call_make_dangerous (reason_string : pyval)
| call_make_unknown
| call_make_binary.

Definition do_call (f : File) (c : safety_call) : File :=
  match c with
  | call_make_dangerous reason_string => make_dangerous reason_string f
  | call_make_unknown => make_unknown f
  | call_make_binary => make_binary f
  end.

Definition do_calls (calls : list safety_call) (f : File) : File :=
  fold_left do_call calls f.

(* ================================================================== *)
(** ** Sample files and tables *)
(* ================================================================== *)

Module Sample.

(** A fragment of the tables of [mimetypes] *)
Definition table : list (pystr * pystr) :=
  [ (py ".txt", py "text/plain");
    (py ".zip", py "application/zip");
    (py ".odt", py "application/vnd.oasis.opendocument.text");
    (py ".doc", py "application/msword");
    (py ".jpg", py "image/jpeg") ].

Definition mimedb : MimeDB :=
  {| guess_type := fun path => dict_get (lower (snd (OsPath.splitext path))) table;
     types_map_keys := map fst table;
     guess_all_extensions :=
       fun mt => map fst (filter (fun '(_, m) => str_eqb m mt) table) |}.

Definition no_ole : OleFileIO := {| parsing_issues := false; ole_streams := [] |}.

(** A file of 10 bytes libmagic reports as [mt], which no parser opens *)
Definition sniffed (mt : string) : verdicts :=
  {| v_size := 10;
     v_symlink := None;
     v_magic := MagicMime (py mt);
     v_sha256 := py "9f86d081884c7d659a2feaa0c55ad015a3bf4f1b2b0b822cd15d6c15b0f00a08";
     v_isOleFile := false;
     v_OleFileIO := None;
     v_OleID := {| oid_encrypted := false; oid_macros := false;
                   oid_ole := no_ole; oid_indicators := [] |};
     v_ooxml := None;
     v_zip_infolist := None;
     v_pdfid := {| pdf_encrypt := 0; pdf_js := 0; pdf_javascript := 0; pdf_aa := 0;
                   pdf_openaction := 0; pdf_richmedia := 0; pdf_launch := 0 |};
     v_exif_first := inr [];
     v_exif_retry := inr [];
     v_png_info := inr [];
     v_reencode := None;
     v_reencoded_sha256 := py "2c26b46b68ffc68ff99b453c1d30413413422d706483bfa0f98a5e886266e7ae";
     v_copy := None |}.

Definition the_logger : GroomerLogger :=
  {| _src_root_path := py "/media/src"; _dst_root_path := py "/media/dst" |}.

Definition groomer (max_depth : Z) : KittenGroomerFileCheck :=
  {| src_root_path := py "/media/src"; dst_root_path := py "/media/dst";
     max_recursive_depth := max_depth; groomer_logger := the_logger |}.

(** The state [KittenGroomerFileCheck.__init__] leaves: both roots exist,
    the log has the line of the root directory. *)
Definition initial : state :=
  {| outside := {| fs := [py "/media/src"; py "/media/dst"; py "/media/dst/logs"];
                   copies := [];
                   log := [py "src/"] |};
     heap := [];
     cur_file := None;
     recursive_archive_depth := 0 |}.

Definition text_file (name : string) : node :=
  Regular (py name) (sniffed "text/plain") ExitZero [].

Definition zip_file (name : string) (o : extractor_outcome) (unpacked : list node) : node :=
  Regular (py name) (sniffed "application/zip") o unpacked.

(** A zip holding a zip holding a text file *)
Definition nested_zip : list node :=
  [ zip_file "outer.zip" ExitZero [ zip_file "inner.zip" ExitZero [ text_file "readme.txt" ] ] ].

(** An open-document file that is not a zip, next to a text file *)
Definition broken_odt : list node :=
  [ Regular (py "agenda.odt") (sniffed "application/vnd.oasis.opendocument.text") ExitZero [];
    text_file "notes.txt" ].

(** An empty file whose extension no table knows *)
Definition empty_file : list node :=
  [ Regular (py "lock.pid") (sniffed "inode/x-empty") ExitZero [] ].

(** A file object as [process_dir] builds it for [name] under the roots *)
Definition file_of (name : string) (mt : string) : pyexn + File :=
  File_init (OsPath.join (py "/media/src") (py name))
            (OsPath.join (py "/media/dst") (py name)) the_logger (sniffed mt).

Definition or_blank (r : pyexn + File) : File :=
  match r with
  | inr f => f
  | inl _ =>
      {| src_path := []; dst_path := []; filename := [];
         _file_props := initial_props [] [] 0;
         extension := None; mimetype := None; should_copy := true;
         main_type := None; sub_type := None; is_recursive := false;
         logger := the_logger; tempdir_path := [];
         metadata_file_path := None; seen := sniffed "" |}
  end.

End Sample.

(* ================================================================== *)
(** ** The vocabulary of the properties *)
(* ================================================================== *)

(** The attributes no category setter touches *)
Record same_file (f f' : File) : Prop := {
  same_src_path : src_path f' = src_path f;
  same_filename : filename f' = filename f;
  same_p_filename : p_filename (_file_props f') = p_filename (_file_props f);
  same_p_extension : p_extension (_file_props f') = p_extension (_file_props f);
  same_extension : extension f' = extension f;
  same_mimetype : mimetype f' = mimetype f;
  same_main_type : main_type f' = main_type f;
  same_sub_type : sub_type f' = sub_type f;
  same_should_copy : should_copy f' = should_copy f;
  same_is_recursive : is_recursive f' = is_recursive f;
  same_tempdir_path : tempdir_path f' = tempdir_path f;
  same_seen : seen f' = seen f;
  same_errors : p_errors (_file_props f') = p_errors (_file_props f)
}.

Definition split_of (mimetype : option pystr) : pyexn + (option pystr * option pystr) :=
  match mimetype with
  | Some (c :: mt) => _split_subtypes (c :: mt)
  | _ => inr (None, None)
  end.

(** [f'] is [f] with more reasons: still dangerous, same destination *)
Definition remarked (f f' : File) : Prop :=
  same_file f f' /\ is_dangerous f' = true /\ dst_path f' = dst_path f
  /\ incl (descriptions f) (descriptions f').

(** The file [check] would return, whether it returns or raises *)
Definition checked (mdb : MimeDB) (f : File) (w : world) : File :=
  match check mdb f w with
  | FOk _ f' _ | FRaise _ f' _ => f'
  end.

(** [triple P m Q E]: from a state in [P], [m] does not run out of fuel;
    it returns [a] in a state in [Q a], or raises in a state in [E]. *)
Definition triple {A : Type} (P : state -> Prop) (m : GM A)
    (Q : A -> state -> Prop) (E : state -> Prop) : Prop :=
  forall s, P s ->
    match m s with
    | Ok a s' => Q a s'
    | Raise _ s' => E s'
    | OutOfFuel => False
    end.

(** The objects below [n] that existed in [s] are the same in [s'], and
    no object has disappeared. *)
Definition untouched (n : nat) (s s' : state) : Prop :=
  (forall j, j < n -> j < List.length (heap s) ->
             nth_error (heap s') j = nth_error (heap s) j)
  /\ List.length (heap s) <= List.length (heap s').

(** What a call of [process_dir] leaves of the heap it found *)
Definition frame (s s' : state) : Prop := untouched (List.length (heap s)) s s'.

(** The counter is [k], and the objects below [n] are those of [s0]. *)
Definition at_depth (k : Z) (n : nat) (s0 s : state) : Prop :=
  recursive_archive_depth s = k /\ untouched n s0 s.

(** What is asked of a call of [process_dir] made with the counter at [k] *)
Definition walks_at (k : Z) (m : GM unit) : Prop :=
  forall s, recursive_archive_depth s = k ->
    match m s with
    | Ok _ s' => recursive_archive_depth s' = k /\ frame s s'
    | Raise _ s' => frame s s'
    | OutOfFuel => False
    end.

(** The counter is [k]. *)
Definition level (k : Z) (s : state) : Prop := recursive_archive_depth s = k.

(** The counter is [k] or more. *)
Definition above (k : Z) (s : state) : Prop := (k <= recursive_archive_depth s)%Z.

(** What is asked of a call of [process_dir] made with the counter at
    [k], as to the counter: it is [k] again when the call returns and is
    not below [k] when the call raises. *)
Definition counts_at (k : Z) (m : GM unit) : Prop :=
  triple (level k) m (fun _ => level k) (above k).

(** The fuel that is enough with the counter at [d] *)
Definition enough_fuel (g : KittenGroomerFileCheck) (fuel : nat) (d : Z) : Prop :=
  (max_recursive_depth g - d - 1 <= Z.of_nat fuel)%Z.

(** The counter is [k] and the object at [i] is [f]. *)
Definition kept (k : Z) (i : nat) (f : File) (s : state) : Prop :=
  recursive_archive_depth s = k /\ nth_error (heap s) i = Some f.

Definition is_file_entry (e : entry) : bool :=
  match e with
  | EDir _ => false
  | EFile _ _ _ _ => true
  end.

Definition count_files (l : list entry) : nat := List.length (filter is_file_entry l).

(** [n] objects, the counter at [d] *)
Definition sized (n : nat) (k : Z) (s : state) : Prop :=
  List.length (heap s) = n /\ recursive_archive_depth s = k.

(** What a run decided about a file: its name, category and reasons *)
Definition verdict_of (f : File) : pystr * pyval * list pyval :=
  (filename f, category f, descriptions f).

(** A legacy office file that olefile cannot parse, before a text file *)
Definition broken_doc : list node :=
  [ Regular (py "budget.doc") (Sample.sniffed "application/msword") ExitZero [];
    Sample.text_file "notes.txt" ].

(** An empty file, a file of a main type the program does not know, and
    a directory with a text file *)
Definition mixed_tree : list node :=
  [ Regular (py "lock.pid") (Sample.sniffed "inode/x-empty") ExitZero [];
    Regular (py "caffeine.pdb") (Sample.sniffed "chemical/x-pdb") ExitZero [];
    Directory (py "Docs") [ Sample.text_file "notes.txt" ] ].

(** A zip holding an open-document file that is not a zip and a text
    file *)
Definition zipped_odt : list node :=
  [ Sample.zip_file "papers.zip" ExitZero Sample.broken_odt ].

(* ================================================================== *)
(** ** More of [kittengroomer/helpers.py] *)
(* ================================================================== *)

(** What [get_property] can answer: a value, the list of descriptions,
    the dictionary of errors or the dictionary of user properties. *)
Inductive pyobj :=
| OVal (v : pyval)
| ODescriptions (l : list pyval)
| OErrors (l : list (pyexn * pystr))
| OUserDefined (d : list (pystr * pyval)).

(** [self._file_props[k]] for a key of the property API *)
Definition props_lookup (k : pystr) (p : file_props) : option pyobj :=
  let key (name : string) := str_eqb k (py name) in
  if key "filepath"%string then Some (OVal (p_filepath p))
  else if key "filename"%string then Some (OVal (p_filename p))
  else if key "file_size"%string then Some (OVal (p_file_size p))
  else if key "maintype"%string then Some (OVal (p_maintype p))
  else if key "subtype"%string then Some (OVal (p_subtype p))
  else if key "extension"%string then Some (OVal (p_extension p))
  else if key "safety_category"%string then Some (OVal (p_safety_category p))
  else if key "symlink"%string then Some (OVal (p_symlink p))
  else if key "copied"%string then Some (OVal (p_copied p))
  else if key "description_string"%string then Some (ODescriptions (p_description_string p))
  else if key "errors"%string then Some (OErrors (p_errors p))
  else if key "user_defined"%string then Some (OUserDefined (p_user_defined p))
  else None.

Definition get_property (prop_string : pystr) (f : File) : pyobj :=
  match props_lookup prop_string (_file_props f) with
  | Some o => o
  | None =>
      match dict_get prop_string (p_user_defined (_file_props f)) with
      | Some v => OVal v
      | None => OVal VNone
      end
  end.

(** The last component of a destination path carries the marks
    [make_dangerous] puts around a name. *)
Definition marked_dangerous (path : pystr) : bool :=
  let name := OsPath.basename path in
  (startswith name (py "DANGEROUS_") && endswith name (py "_DANGEROUS"))%bool.

(** The shapes of a head [os.path.split] answers: empty, all separators,
    or ending with something else than a separator *)
Definition tidy_head (h : pystr) : Prop :=
  h = [] \/ (h <> [] /\ forallb (N.eqb OsPath.sep) h = true)
  \/ exists h' x, h = h' ++ [x] /\ x <> OsPath.sep.


(* ================================================================== *)
(** ** More of [bin/filecheck.py] *)
(* ================================================================== *)

(** The directories and regular files below [root_dir_path] in the order
    of [os.listdir], before any sorting: what [list_files_dirs] has to
    list. *)
Fixpoint walk (root_dir_path : pystr) (n : node) : list entry :=
  let full_path := OsPath.join root_dir_path (node_name n) in
  match n with
  | Directory _ children => EDir full_path :: flat_map (walk full_path) children
  | Regular _ v o unpacked => [EFile full_path v o unpacked]
  | Special _ => []
  end.

(** The regular files of a tree *)
Fixpoint regular_files (n : node) : nat :=
  match n with
  | Directory _ children => list_sum (map regular_files children)
  | Regular _ _ _ _ => 1
  | Special _ => 0
  end.

(** [ftriple P m Q E]: from an object and a world in [P], the method [m]
    returns [a] with an object and a world in [Q a], or raises [e] with
    an object and a world in [E e]. *)
Definition ftriple {A : Type} (P : File -> world -> Prop) (m : FM A)
    (Q : A -> File -> world -> Prop) (E : pyexn -> File -> world -> Prop) : Prop :=
  forall f w, P f w ->
    match m f w with
    | FOk a f' w' => Q a f' w'
    | FRaise e f' w' => E e f' w'
    end.

(** A file [check] has not flagged *)
Definition unflagged (P : File -> world -> Prop) : File -> world -> Prop :=
  fun f w => P f w /\ is_dangerous f = false.

Definition is_string (v : pyval) : Prop := exists s, v = VStr s.

(** What the steps of [check] do to an object at most: the name, the
    extension, the mimetype and its halves, the logger, the scratch
    directory and the properties set at construction stay; descriptions,
    all strings, and errors are added after the ones there. *)
Record only_adds (f f' : File) : Prop := {
  adds_filename : filename f' = filename f;
  adds_extension : extension f' = extension f;
  adds_mimetype : mimetype f' = mimetype f;
  adds_main_type : main_type f' = main_type f;
  adds_sub_type : sub_type f' = sub_type f;
  adds_logger : logger f' = logger f;
  adds_tempdir_path : tempdir_path f' = tempdir_path f;
  adds_p_filepath : p_filepath (_file_props f') = p_filepath (_file_props f);
  adds_p_filename : p_filename (_file_props f') = p_filename (_file_props f);
  adds_p_file_size : p_file_size (_file_props f') = p_file_size (_file_props f);
  adds_p_maintype : p_maintype (_file_props f') = p_maintype (_file_props f);
  adds_p_subtype : p_subtype (_file_props f') = p_subtype (_file_props f);
  adds_p_symlink : p_symlink (_file_props f') = p_symlink (_file_props f);
  adds_p_copied : p_copied (_file_props f') = p_copied (_file_props f);
  adds_descriptions :
    exists l, descriptions f' = descriptions f ++ l /\ Forall is_string l;
  adds_errors :
    exists l, p_errors (_file_props f') = p_errors (_file_props f) ++ l
}.

(** The world a method leaves, whether it returns or raises *)
Definition world_after {A : Type} (r : fres A) : world :=
  match r with
  | FOk _ _ w | FRaise _ _ w => w
  end.

(** [w'] has the log and the copies of [w] and every path of [w]. *)
Definition only_new_paths (w w' : world) : Prop :=
  log w' = log w /\ copies w' = copies w /\ incl (fs w) (fs w').

(** The reasons for which [_check_dangerous] flags a file *)
Definition reasons_at_once (f : File) : list pystr :=
  (if has_mimetype f then [] else [py "File has no mimetype"])
  ++ (if has_extension f then [] else [py "File has no extension"])
  ++ (if opt_mem (extension f) Config.malicious_exts
      then [py "Extension identifies file as potentially dangerous"] else []).

(** The method [check] looks up for the main type of a file:
    [self.mime_processing_options.get(self.main_type, self.unknown)] *)
Definition method_for (f : File) : type_method :=
  match opt_dict_get (main_type f) mime_processing_options with
  | Some method => method
  | None => t_unknown
  end.

(** [c] is the copy made for the object [f], which is no archive and,
    when it is dangerous, has the marks in its destination name. *)
Definition copy_of (f : File) (c : pystr * pystr) : Prop :=
  c = (src_path f, dst_path f) /\ should_copy f = true /\ is_recursive f = false
  /\ (is_dangerous f = true -> marked_dangerous (dst_path f) = true).

(** The copies of [s'] that [s] did not have are those of objects of
    [s'] with an index from [lo] to [hi - 1]. *)
Definition copies_between (lo hi : nat) (s s' : state) : Prop :=
  forall c, In c (copies (outside s')) ->
    In c (copies (outside s))
    \/ exists j f, lo <= j < hi /\ nth_error (heap s') j = Some f /\ copy_of f c.

(** [s'] has the copies of [s] and as many objects. *)
Definition same_copies (s s' : state) : Prop :=
  copies (outside s') = copies (outside s)
  /\ List.length (heap s') = List.length (heap s).

(** What is asked of a call of [process_dir] made with the counter at
    [k], as to the copies *)
Definition walks_copying (k : Z) (m : GM unit) : Prop :=
  forall s, recursive_archive_depth s = k ->
    match m s with
    | Ok _ s' =>
        recursive_archive_depth s' = k /\ frame s s'
        /\ copies_between (List.length (heap s)) (List.length (heap s')) s s'
    | Raise _ s' =>
        frame s s'
        /\ copies_between (List.length (heap s)) (List.length (heap s')) s s'
    | OutOfFuel => False
    end.

(** What holds of the file once [create_metadata_file] has returned [p],
    when [K] holds of it with a sidecar file and [R] without *)
Definition ready (K R : File -> world -> Prop) (p : pyval) : File -> world -> Prop :=
  match p with
  | VStr _ => K
  | _ => R
  end.



(* ================================================================== *)
(** * Properties *)
(* ================================================================== *)

(** ** Strings *)

Lemma str_eqb_eq (a b : pystr) : str_eqb a b = true <-> a = b.
Proof.
  revert b; induction a as [|x a IH]; intros [|y b]; simpl; split; intro H;
    try reflexivity; try discriminate.
  - apply andb_true_iff in H as [Hx Hr].
    apply N.eqb_eq in Hx. apply IH in Hr. now subst.
  - injection H as -> ->. rewrite N.eqb_refl. simpl. now apply IH.
Qed.

Lemma str_eqb_refl (a : pystr) : str_eqb a a = true.
Proof. now apply str_eqb_eq. Qed.

Lemma pyval_eqb_str (c : pyval) (s : pystr) :
  pyval_eqb c (VStr s) = true <-> c = VStr s.
Proof.
  destruct c; simpl; split; intro H; try discriminate.
  - apply str_eqb_eq in H. now subst.
  - injection H as ->. apply str_eqb_refl.
Qed.

Lemma pyval_eqb_str_l (c : pyval) (s : pystr) :
  pyval_eqb (VStr s) c = true -> c = VStr s.
Proof.
  destruct c; simpl; intro H; try discriminate.
  apply str_eqb_eq in H. now subst.
Qed.

Lemma contains_cons_char (c x : N) (s : pystr) :
  contains (x :: s) [c] = (N.eqb c x || contains s [c])%bool.
Proof. simpl. destruct s; now destruct (N.eqb c x). Qed.

Lemma replace_char_removes (c : N) (s : pystr) :
  contains (replace_char c [] s) [c] = false.
Proof.
  induction s as [|x s IH]; [reflexivity|].
  unfold replace_char in *. simpl.
  destruct (N.eqb x c) eqn:E; simpl app; [exact IH|].
  change (contains (x :: flat_map (fun x0 => if N.eqb x0 c then [] else [x0]) s) [c] = false).
  rewrite contains_cons_char, IH, N.eqb_sym, E. reflexivity.
Qed.

(** ** The property dictionary *)

Lemma with_props_same (f : File) : with_props (_file_props f) f = f.
Proof. now destruct f. Qed.

Lemma category_set_description (v : pyval) (f : File) :
  category (set_property (py "description_string") v f) = category f.
Proof.
  unfold category, set_property, props_set. simpl.
  now destruct (existsb _ _).
Qed.

Lemma category_set_category (v : pyval) (f : File) :
  category (set_property (py "safety_category") v f) = v.
Proof. reflexivity. Qed.

Lemma category_with_dst_path (d : pystr) (f : File) :
  category (with_dst_path d f) = category f.
Proof. reflexivity. Qed.

Lemma is_dangerous_category (f : File) :
  is_dangerous f = true <-> category f = VStr (py "dangerous").
Proof. apply pyval_eqb_str. Qed.

(** ** The three category setters *)

Lemma make_dangerous_category (r : pyval) (f : File) :
  category (make_dangerous r f) = VStr (py "dangerous").
Proof.
  unfold make_dangerous. destruct (is_dangerous f) eqn:E.
  - rewrite category_set_description. now apply is_dangerous_category.
  - destruct (OsPath.split _). rewrite category_with_dst_path.
    now rewrite category_set_description.
Qed.

Lemma make_unknown_category (f : File) :
  category (make_unknown f) =
  if (is_dangerous f || is_binary f)%bool then category f else VStr (py "unknown").
Proof.
  unfold make_unknown. destruct (is_dangerous f || is_binary f)%bool; [reflexivity|].
  now destruct (OsPath.split _).
Qed.

Lemma make_binary_category (f : File) :
  category (make_binary f) =
  if is_dangerous f then category f else VStr (py "binary").
Proof.
  unfold make_binary. destruct (is_dangerous f); [reflexivity|].
  now destruct (OsPath.split _).
Qed.

Lemma rank_dangerous (c : pyval) : c = VStr (py "dangerous") -> rank c = 3.
Proof. now intros ->. Qed.

Lemma rank_le_3 (c : pyval) : rank c <= 3.
Proof.
  unfold rank.
  destruct (pyval_eqb c _); [lia|]. destruct (pyval_eqb c _); [lia|].
  destruct (pyval_eqb c _); lia.
Qed.

Lemma rank_category (f : File) :
  rank (category f) =
  if is_dangerous f then 3 else if is_binary f then 2 else if is_unknown f then 1 else 0.
Proof. reflexivity. Qed.

Lemma do_call_step (f : File) (c : safety_call) :
  category (do_call f c) = category f \/ rank (category f) < rank (category (do_call f c)).
Proof.
  destruct c as [r| |]; simpl.
  - rewrite make_dangerous_category.
    destruct (is_dangerous f) eqn:E.
    + left. symmetry. now apply is_dangerous_category.
    + right. rewrite rank_category, E.
      change (rank (VStr (py "dangerous"))) with 3.
      destruct (is_binary f); [lia|]. destruct (is_unknown f); lia.
  - rewrite make_unknown_category.
    destruct (is_dangerous f) eqn:E; [now left|].
    destruct (is_binary f) eqn:E'; [now left|]. simpl.
    destruct (is_unknown f) eqn:E''.
    + left. symmetry. now apply pyval_eqb_str.
    + right. rewrite rank_category, E, E', E''.
      change (rank (VStr (py "unknown"))) with 1. lia.
  - rewrite make_binary_category.
    destruct (is_dangerous f) eqn:E; [now left|].
    destruct (is_binary f) eqn:E'.
    + left. symmetry. now apply pyval_eqb_str.
    + right. rewrite rank_category, E, E'.
      change (rank (VStr (py "binary"))) with 2.
      destruct (is_unknown f); lia.
Qed.

(** C2 (as amended).  Whatever the file and whatever the sequence of
    [make_dangerous], [make_unknown] and [make_binary] calls, the safety
    category either is the one the file had or stands strictly higher in
    the order unset < unknown < binary < dangerous: a dangerous file stays
    dangerous, [make_unknown] never replaces binary, and the one move
    between unknown and binary is from unknown up to binary. *)
Theorem safety_category_only_rises (f : File) (calls : list safety_call) :
  (category (do_calls calls f) = category f
   \/ rank (category f) < rank (category (do_calls calls f)))
  /\ (is_dangerous f = true -> is_dangerous (do_calls calls f) = true)
  /\ (is_binary f = true -> is_unknown (do_calls calls f) = false).
Proof.
  assert (step : category (do_calls calls f) = category f
                 \/ rank (category f) < rank (category (do_calls calls f))).
  { revert f. induction calls as [|c calls IH]; intro f; [now left|].
    unfold do_calls in *. simpl.
    destruct (IH (do_call f c)) as [H|H], (do_call_step f c) as [H'|H'].
    - left. congruence.
    - right. rewrite H. exact H'.
    - right. rewrite <- H'. exact H.
    - right. lia. }
  split; [exact step|]. split.
  - intro D. apply is_dangerous_category in D. apply is_dangerous_category.
    destruct step as [H|H]; [congruence|].
    rewrite (rank_dangerous D) in H.
    pose proof (rank_le_3 (category (do_calls calls f))). lia.
  - intro B. apply pyval_eqb_str in B.
    destruct (is_unknown (do_calls calls f)) eqn:U; [|reflexivity].
    apply pyval_eqb_str in U. fold (category (do_calls calls f)) in U.
    fold (category f) in B.
    destruct step as [H|H]; rewrite U, B in H; vm_compute in H; [discriminate|lia].
Qed.

(** The hypotheses of [safety_category_only_rises] hold of a file marked
    binary and then handed to all three setters. *)
Lemma safety_category_only_rises_witness :
  let f := make_binary (Sample.or_blank (Sample.file_of "dump.bin" "application/octet-stream")) in
  is_binary f = true
  /\ is_unknown (do_calls [call_make_unknown; call_make_binary; call_make_unknown] f) = false.
Proof.
  split; [vm_compute; reflexivity|].
  apply (safety_category_only_rises _ _). vm_compute; reflexivity.
Defined.

(** C2 (as stated) fails: a file marked unknown and then handed to
    [make_binary] ends up binary, so binary does overwrite unknown. *)
Lemma binary_overwrites_unknown :
  let f := Sample.or_blank (Sample.file_of "blob.xyz" "application/x-thing") in
  is_unknown (do_calls [call_make_unknown] f) = true
  /\ is_binary (do_calls [call_make_unknown; call_make_binary] f) = true
  /\ is_unknown (do_calls [call_make_unknown; call_make_binary] f) = false.
Proof. vm_compute. repeat split. Qed.

(** ** What [make_dangerous] keeps and what it changes *)

Lemma descriptions_set_description (v : pyval) (f : File) :
  descriptions (set_property (py "description_string") v f) =
  if existsb (pyval_eqb v) (descriptions f) then descriptions f else descriptions f ++ [v].
Proof.
  unfold descriptions, set_property, props_set. simpl.
  now destruct (existsb _ _).
Qed.

Lemma make_dangerous_descriptions (r : pyval) (f : File) :
  descriptions (make_dangerous r f) =
  if existsb (pyval_eqb r) (descriptions f) then descriptions f else descriptions f ++ [r].
Proof.
  unfold make_dangerous. destruct (is_dangerous f).
  - apply descriptions_set_description.
  - destruct (OsPath.split _).
    change (descriptions (with_dst_path ?d ?x)) with (descriptions x).
    now rewrite descriptions_set_description.
Qed.

Lemma make_dangerous_is_dangerous (r : pyval) (f : File) :
  is_dangerous (make_dangerous r f) = true.
Proof. apply is_dangerous_category, make_dangerous_category. Qed.

Lemma make_dangerous_head (r : pyval) (f : File) :
  descriptions f <> [] ->
  hd_error (descriptions (make_dangerous r f)) = hd_error (descriptions f).
Proof.
  intro H. rewrite make_dangerous_descriptions.
  destruct (existsb _ _); [reflexivity|].
  destruct (descriptions f); [contradiction|reflexivity].
Qed.

Lemma make_dangerous_nonempty (r : pyval) (f : File) :
  descriptions (make_dangerous r f) <> [].
Proof.
  rewrite make_dangerous_descriptions.
  destruct (existsb _ _) eqn:E.
  - destruct (descriptions f); [discriminate|discriminate].
  - destruct (descriptions f); discriminate.
Qed.

Lemma same_file_refl (f : File) : same_file f f.
Proof. now split. Qed.

Lemma same_file_trans (f1 f2 f3 : File) :
  same_file f1 f2 -> same_file f2 f3 -> same_file f1 f3.
Proof. intros [] []. split; congruence. Qed.

Lemma same_file_set_description (v : pyval) (f : File) :
  same_file f (set_property (py "description_string") v f).
Proof.
  unfold set_property, props_set. simpl.
  destruct (existsb _ _); now split.
Qed.

Lemma same_file_make_dangerous (r : pyval) (f : File) :
  same_file f (make_dangerous r f).
Proof.
  unfold make_dangerous. destruct (is_dangerous f).
  - apply same_file_set_description.
  - destruct (OsPath.split _).
    unfold set_property, props_set. simpl.
    destruct (existsb _ _); now split.
Qed.

Lemma make_dangerous_again_dst_path (r : pyval) (f : File) :
  is_dangerous f = true -> dst_path (make_dangerous r f) = dst_path f.
Proof. intro H. unfold make_dangerous. now rewrite H. Qed.

Lemma same_file_has_mimetype (f f' : File) :
  same_file f f' -> has_mimetype f' = has_mimetype f.
Proof.
  intro H. unfold has_mimetype.
  now rewrite (same_main_type H), (same_sub_type H).
Qed.

Lemma same_file_has_extension (f f' : File) :
  same_file f f' -> has_extension f' = has_extension f.
Proof. intro H. unfold has_extension. now rewrite (same_extension H). Qed.

(** ** The constructor *)

Lemma File_init_fields (src dst : pystr) (lg : GroomerLogger) (v : verdicts) (f : File) :
  File_init src dst lg v = inr f ->
  src_path f = src /\ dst_path f = dst /\ filename f = OsPath.basename src
  /\ extension f = _determine_extension src
  /\ mimetype f = fst (_determine_mimetype v (initial_props [] [] 0))
  /\ split_of (mimetype f) = inr (main_type f, sub_type f)
  /\ should_copy f = true /\ is_recursive f = false /\ logger f = lg
  /\ tempdir_path f = dst ++ py "_temp" /\ seen f = v
  /\ category f = VNone /\ descriptions f = []
  /\ p_filename (_file_props f) = VStr (OsPath.basename src)
  /\ p_extension (_file_props f) = opt_val (_determine_extension src).
Proof.
  unfold File_init.
  set (p0 := props_set _ _ _).
  assert (M : fst (_determine_mimetype v p0)
              = fst (_determine_mimetype v (initial_props [] [] 0))).
  { unfold _determine_mimetype. destruct (v_symlink v); [reflexivity|].
    now destruct (v_magic v). }
  assert (P : let p := snd (_determine_mimetype v p0) in
              p_safety_category p = VNone /\ p_description_string p = []
              /\ p_filename p = VStr (OsPath.basename src)
              /\ p_extension p = opt_val (_determine_extension src)).
  { unfold _determine_mimetype. destruct (v_symlink v); [now repeat split|].
    destruct (v_magic v); now repeat split. }
  destruct (_determine_mimetype v p0) as [mt p]. simpl in M, P.
  fold (split_of mt).
  destruct (split_of mt) as [e|[mn sb]] eqn:S; [discriminate|].
  intro H. injection H as <-. simpl. unfold category, descriptions. simpl.
  destruct P as (P1 & P2 & P3 & P4).
  repeat split; try assumption;
    destruct (truthy mn), (truthy sb); assumption.
Qed.

(** C10.  When libmagic answers a string without [/] (such as [data])
    for a file that is not a link, the file object holds that string as
    its mimetype, [main_type] and [sub_type] are both [None],
    [has_mimetype] is false, and [_check_dangerous] marks the file
    dangerous with [File has no mimetype] as its first description. *)
Theorem no_slash_means_no_mimetype
    (src dst : pystr) (lg : GroomerLogger) (v : verdicts) (mt : pystr) :
  v_symlink v = None ->
  v_magic v = MagicMime mt ->
  contains mt (py "/") = false ->
  exists f,
    File_init src dst lg v = inr f
    /\ mimetype f = Some mt
    /\ main_type f = None /\ sub_type f = None
    /\ has_mimetype f = false
    /\ is_dangerous (_check_dangerous f) = true
    /\ hd_error (descriptions (_check_dangerous f)) = Some (VStr (py "File has no mimetype")).
Proof.
  intros L M S.
  destruct (File_init src dst lg v) as [e|f] eqn:I.
  - exfalso. revert I. unfold File_init, _determine_mimetype. rewrite L, M.
    destruct mt as [|c mt]; [discriminate|].
    unfold _split_subtypes. rewrite S. discriminate.
  - exists f. split; [reflexivity|].
    destruct (File_init_fields _ _ _ _ I)
      as (_ & _ & _ & _ & Hm & Hs & _ & _ & _ & _ & _ & Hc & Hd & _).
    unfold _determine_mimetype in Hm. rewrite L, M in Hm. simpl in Hm.
    assert (T : main_type f = None /\ sub_type f = None).
    { rewrite Hm in Hs. destruct mt as [|c mt]; simpl in Hs.
      - injection Hs as <- <-. now split.
      - unfold _split_subtypes in Hs. rewrite S in Hs. injection Hs as <- <-. now split. }
    destruct T as [T1 T2].
    assert (Hh : has_mimetype f = false) by (unfold has_mimetype; now rewrite T1).
    repeat split; try assumption.
    + unfold _check_dangerous. rewrite Hh. simpl negb. cbv iota.
      repeat match goal with
             | |- context [if ?b then _ else _] => destruct b
             end; apply make_dangerous_is_dangerous.
    + unfold _check_dangerous. rewrite Hh. simpl negb. cbv iota.
      assert (H1 : hd_error (descriptions (make_dangerous (VStr (py "File has no mimetype")) f))
                   = Some (VStr (py "File has no mimetype"))).
      { rewrite make_dangerous_descriptions, Hd. reflexivity. }
      repeat match goal with
             | |- context [if ?b then _ else _] => destruct b
             end;
        repeat (rewrite make_dangerous_head by apply make_dangerous_nonempty);
        exact H1.
Qed.

(** The hypotheses of [no_slash_means_no_mimetype] hold of a file for
    which libmagic answers [data]. *)
Lemma no_slash_means_no_mimetype_witness :
  exists f,
    File_init (py "/media/src/core.dump") (py "/media/dst/core.dump")
              Sample.the_logger (Sample.sniffed "data") = inr f
    /\ mimetype f = Some (py "data")
    /\ main_type f = None /\ sub_type f = None
    /\ has_mimetype f = false
    /\ is_dangerous (_check_dangerous f) = true
    /\ hd_error (descriptions (_check_dangerous f)) = Some (VStr (py "File has no mimetype")).
Proof.
  apply (@no_slash_means_no_mimetype _ _ _ (Sample.sniffed "data") (py "data"));
    reflexivity.
Defined.

(** ** The checks on a file that is already dangerous *)

Lemma remarked_refl (f : File) : is_dangerous f = true -> remarked f f.
Proof. intro H. repeat split; auto using incl_refl. Qed.

Lemma remarked_trans (f1 f2 f3 : File) :
  remarked f1 f2 -> remarked f2 f3 -> remarked f1 f3.
Proof.
  intros (S1 & D1 & P1 & I1) (S2 & D2 & P2 & I2).
  repeat split; try congruence; try (destruct S1, S2; congruence).
  eapply incl_tran; eassumption.
Qed.

Lemma remarked_make_dangerous (r : pyval) (f : File) :
  is_dangerous f = true -> remarked f (make_dangerous r f).
Proof.
  intro H. split; [apply same_file_make_dangerous|].
  split; [apply make_dangerous_is_dangerous|].
  split; [now apply make_dangerous_again_dst_path|].
  rewrite make_dangerous_descriptions.
  destruct (existsb _ _); [apply incl_refl|apply incl_appl, incl_refl].
Qed.

Lemma make_dangerous_records (r : pystr) (f : File) :
  In (VStr r) (descriptions (make_dangerous (VStr r) f)).
Proof.
  rewrite make_dangerous_descriptions.
  destruct (existsb _ _) eqn:E.
  - apply existsb_exists in E as (x & Hx & Heq).
    apply pyval_eqb_str_l in Heq. now subst.
  - apply in_or_app. right. now left.
Qed.

Lemma same_file_check_dangerous (f : File) : same_file f (_check_dangerous f).
Proof.
  unfold _check_dangerous.
  repeat match goal with
         | |- context [if ?b then _ else _] => destruct b
         end;
    repeat (eapply same_file_trans; [|apply same_file_make_dangerous]);
    apply same_file_refl.
Qed.

Lemma remarked_check_extension (mdb : MimeDB) (f : File) :
  is_dangerous f = true -> remarked f (_check_extension mdb f).
Proof.
  intro H. unfold _check_extension.
  destruct (_ && _)%bool; [now apply remarked_make_dangerous|now apply remarked_refl].
Qed.

Lemma remarked_check_mimetype (mdb : MimeDB) (f : File) (w : world) :
  is_dangerous f = true ->
  mimetype f <> None ->
  exists f', _check_mimetype mdb f w = FOk tt f' w /\ remarked f f'.
Proof.
  intros H M. unfold _check_mimetype, fbind, self_get.
  destruct (mimetype f) as [mt|] eqn:E; [|contradiction]. unfold opt_dict_get.
  destruct (dict_get mt Config.aliases);
    (match goal with
     | |- context [guess_all_extensions mdb ?x] => destruct (guess_all_extensions mdb x)
     end;
     [eexists; split; [reflexivity|now apply remarked_refl]|]);
    unfold self_do;
    (eexists; split; [reflexivity|]);
    (destruct (_ && _)%bool;
     [now apply remarked_make_dangerous|now apply remarked_refl]).
Qed.

Lemma File_init_has_mimetype (src dst : pystr) (lg : GroomerLogger) (v : verdicts) (f : File) :
  File_init src dst lg v = inr f -> has_mimetype f = true -> mimetype f <> None.
Proof.
  intros I H.
  destruct (File_init_fields _ _ _ _ I) as (_ & _ & _ & _ & _ & Hs & _).
  intro N. rewrite N in Hs. simpl in Hs. injection Hs as Hm _.
  unfold has_mimetype in H. rewrite <- Hm in H. discriminate.
Qed.

Lemma contains_nonempty (s : pystr) (c : N) : contains s [c] = true -> s <> [].
Proof. intros H ->. discriminate. Qed.

Lemma check_filename_override (f : File) (w : world) :
  contains (filename f) [right_to_left_override] = true ->
  _check_filename f w =
  FOk tt (let f := make_dangerous (VStr (py "Filename contains dangerous character")) f in
          with_dst_path (replace_char right_to_left_override [] (dst_path f)) f) w.
Proof.
  intro R. unfold _check_filename, fbind, self_get.
  destruct (filename f) eqn:F; [discriminate|]. now rewrite R.
Qed.

(** C6.  For every file object whose filename contains U+202E, [check]
    returns with the file marked dangerous (the reason being recorded),
    the destination path free of U+202E, and the filename, also the one
    kept for the log, as it was: it still contains the character. *)
Theorem right_to_left_override_is_stripped
    (mdb : MimeDB) (src dst : pystr) (lg : GroomerLogger) (v : verdicts)
    (f : File) (w : world) :
  File_init src dst lg v = inr f ->
  contains (filename f) [right_to_left_override] = true ->
  exists f',
    check mdb f w = FOk tt f' w
    /\ is_dangerous f' = true
    /\ In (VStr (py "Filename contains dangerous character")) (descriptions f')
    /\ contains (dst_path f') [right_to_left_override] = false
    /\ filename f' = filename f
    /\ p_filename (_file_props f') = VStr (filename f)
    /\ contains (filename f') [right_to_left_override] = true.
Proof.
  intros I R.
  pose proof (same_file_check_dangerous f) as S1.
  set (f1 := _check_dangerous f) in *.
  set (f2 := make_dangerous (VStr (py "Filename contains dangerous character")) f1).
  set (f3 := with_dst_path (replace_char right_to_left_override [] (dst_path f2)) f2).
  assert (S2 : same_file f f2).
  { eapply same_file_trans; [exact S1|apply same_file_make_dangerous]. }
  assert (S3 : same_file f f3) by (destruct S2; now split).
  assert (D3 : is_dangerous f3 = true) by apply make_dangerous_is_dangerous.
  assert (C3 : check mdb f w =
               ((he <- self_get has_extension ;;
                 (if he then self_do (_check_extension mdb) else fret tt) ;;
                 hm <- self_get has_mimetype ;;
                 (if hm then _check_mimetype mdb else fret tt) ;;
                 dangerous <- self_get is_dangerous ;;
                 if negb dangerous then
                   mt <- self_get main_type ;;
                   match opt_dict_get mt mime_processing_options with
                   | Some method => call_type_method method
                   | None => call_type_method t_unknown
                   end
                 else fret tt)%fm f3 w)).
  { unfold check at 1. unfold fbind at 1. unfold self_do at 1.
    unfold fbind at 1. fold f1.
    rewrite check_filename_override by now rewrite (same_filename S1).
    reflexivity. }
  rewrite C3. clear C3.
  unfold fbind at 1. unfold self_get at 1.
  set (f4 := if has_extension f3 then _check_extension mdb f3 else f3).
  assert (R4 : remarked f3 f4).
  { unfold f4. destruct (has_extension f3);
      [now apply remarked_check_extension|now apply remarked_refl]. }
  assert (E4 : ((if has_extension f3 then self_do (_check_extension mdb) else fret tt)%fm f3 w)
               = FOk tt f4 w).
  { unfold f4. now destruct (has_extension f3). }
  unfold fbind at 1. rewrite E4.
  unfold fbind at 1. unfold self_get at 1.
  assert (S4 : same_file f f4) by (eapply same_file_trans; [exact S3|apply R4]).
  assert (E5 : exists f5, ((if has_mimetype f4 then _check_mimetype mdb else fret tt)%fm f4 w)
                          = FOk tt f5 w /\ remarked f4 f5).
  { destruct (has_mimetype f4) eqn:H.
    - apply remarked_check_mimetype; [apply R4|].
      rewrite (same_mimetype S4). eapply File_init_has_mimetype; [exact I|].
      now rewrite <- (same_file_has_mimetype S4).
    - eexists. split; [reflexivity|]. apply remarked_refl, R4. }
  destruct E5 as (f5 & E5 & R5).
  unfold fbind at 1. rewrite E5.
  unfold fbind at 1. unfold self_get at 1.
  assert (R35 : remarked f3 f5) by (eapply remarked_trans; eassumption).
  destruct R35 as (S5 & D5 & P5 & I5).
  rewrite D5. simpl. exists f5.
  split; [reflexivity|]. split; [exact D5|].
  pose proof (same_file_trans S3 S5) as S.
  split.
  { apply I5. change (descriptions f3) with (descriptions f2).
    apply make_dangerous_records. }
  split.
  { rewrite P5. apply replace_char_removes. }
  split; [apply (same_filename S)|].
  split.
  { rewrite (same_p_filename S).
    destruct (File_init_fields _ _ _ _ I) as (_ & _ & Hf & _ & _ & _ & _ & _ & _ & _ & _ & _ & _ & Hp & _).
    now rewrite Hp, Hf. }
  now rewrite (same_filename S).
Qed.

(** The hypotheses of [right_to_left_override_is_stripped] hold of a
    file named [cv], U+202E, [fdp.exe]. *)
Lemma right_to_left_override_is_stripped_witness :
  let name := py "cv" ++ [right_to_left_override] ++ py "fdp.exe" in
  let src := OsPath.join (py "/media/src") name in
  let dst := OsPath.join (py "/media/dst") name in
  let v := Sample.sniffed "application/x-dosexec" in
  let f := Sample.or_blank (File_init src dst Sample.the_logger v) in
  File_init src dst Sample.the_logger v = inr f
  /\ contains (filename f) [right_to_left_override] = true
  /\ exists f',
       check Sample.mimedb f (outside Sample.initial) = FOk tt f' (outside Sample.initial)
       /\ is_dangerous f' = true
       /\ In (VStr (py "Filename contains dangerous character")) (descriptions f')
       /\ contains (dst_path f') [right_to_left_override] = false
       /\ filename f' = filename f
       /\ p_filename (_file_props f') = VStr (filename f)
       /\ contains (filename f') [right_to_left_override] = true.
Proof.
  intros name src dst v f.
  split; [vm_compute; reflexivity|]. split; [vm_compute; reflexivity|].
  apply (@right_to_left_override_is_stripped Sample.mimedb src dst Sample.the_logger v);
    vm_compute; reflexivity.
Defined.

(** ** A plain text file *)

Lemma str_mem_In (x : pystr) (l : list pystr) : In x l -> str_mem x l = true.
Proof.
  intro H. apply existsb_exists. exists x. split; [exact H|apply str_eqb_refl].
Qed.

Lemma determine_extension_basename (src e : pystr) :
  _determine_extension src = Some e -> OsPath.basename src <> [].
Proof.
  unfold _determine_extension, OsPath.splitext.
  destruct (OsPath.basename src); [discriminate|discriminate].
Qed.

Lemma check_filename_plain (f : File) (w : world) :
  filename f <> [] ->
  contains (filename f) [right_to_left_override] = false ->
  _check_filename f w = FOk tt f w.
Proof.
  intros N R. unfold _check_filename, fbind, self_get.
  destruct (filename f) eqn:F; [contradiction|]. now rewrite R.
Qed.

(** C7 (as amended).  Take a file whose extension is [.txt], whose
    mimetype is [text/plain], for which the tables of [mimetypes] agree
    ([.txt] is guessed as [text/plain] and is one of the extensions of
    [text/plain]), whose name has no U+202E and whose destination path
    ends in [.txt] as written (lower case).  Then [check] returns with
    the safety category unset, the destination path and the extension
    unchanged, the source path unchanged and the file still to be copied;
    and when [shutil.copy] succeeds, [safe_copy] copies that source to
    that destination and records no error. *)
Theorem plain_text_round_trip
    (mdb : MimeDB) (src dst : pystr) (lg : GroomerLogger) (v : verdicts)
    (f : File) (w : world) :
  File_init src dst lg v = inr f ->
  extension f = Some (py ".txt") ->
  mimetype f = Some (py "text/plain") ->
  guess_type mdb src = Some (py "text/plain") ->
  In (py ".txt") (guess_all_extensions mdb (py "text/plain")) ->
  contains (filename f) [right_to_left_override] = false ->
  endswith dst (py ".txt") = true ->
  fst (OsPath.split dst) <> [] ->
  exists f',
    check mdb f w = FOk tt f' w
    /\ category f' = VNone
    /\ dst_path f' = dst
    /\ extension f' = Some (py ".txt")
    /\ p_extension (_file_props f') = VStr (py ".txt")
    /\ src_path f' = src
    /\ should_copy f' = true
    /\ (v_copy v = None ->
        exists w', safe_copy None None f' w = FOk tt f' w'
                   /\ copies w' = copies w ++ [(src, dst)]).
Proof.
  intros I E M G A R T D.
  destruct (File_init_fields _ _ _ _ I)
    as (Hsrc & Hdst & Hname & Hext & _ & Hsplit & Hcopy & _ & _ & _ & Hseen & Hcat & _ & _ & Hpext).
  rewrite M in Hsplit.
  change (split_of (Some (py "text/plain")))
    with (@inr pyexn _ (Some (py "text"), Some (py "plain"))) in Hsplit.
  injection Hsplit as Hmain Hsub.
  symmetry in Hmain, Hsub.
  assert (Hm : has_mimetype f = true) by (unfold has_mimetype; now rewrite Hmain, Hsub).
  assert (He : has_extension f = true) by (unfold has_extension; now rewrite E).
  assert (Hd : is_dangerous f = false) by (unfold is_dangerous; fold (category f); now rewrite Hcat).
  assert (S1 : _check_dangerous f = f).
  { unfold _check_dangerous. rewrite Hm. simpl negb. cbv iota zeta.
    rewrite He. simpl negb. cbv iota zeta. rewrite E. reflexivity. }
  assert (S2 : _check_filename f w = FOk tt f w).
  { apply check_filename_plain; [|exact R].
    rewrite Hname. eapply determine_extension_basename. rewrite <- Hext. exact E. }
  assert (S3 : _check_extension mdb f = f).
  { unfold _check_extension. rewrite E, Hsrc, G, M. simpl opt_dict_get.
    change (dict_get (py ".txt") Config.override_ext) with (@None pystr).
    change (dict_get (py "text/plain") Config.aliases) with (@None pystr).
    cbv iota. unfold opt_str_eqb. rewrite str_eqb_refl.
    now rewrite andb_false_r. }
  assert (S4 : _check_mimetype mdb f w = FOk tt f w).
  { unfold _check_mimetype, fbind, self_get. rewrite M.
    change (opt_dict_get (Some (py "text/plain")) Config.aliases) with (@None pystr).
    cbv iota beta.
    destruct (guess_all_extensions mdb (py "text/plain")) as [|x l] eqn:X; [destruct A|].
    unfold self_do. rewrite He, E. unfold opt_mem.
    rewrite (str_mem_In _ _ A). reflexivity. }
  set (f' := add_description (py "Plain text file") f).
  assert (S5 : text f w = FOk tt f' w).
  { unfold text, fbind, self_get. rewrite Hsub.
    change (existsb (fun mt => contains (py "plain") mt) Config.mimes_rtf) with false.
    change (existsb (fun mt => contains (py "plain") mt) Config.mimes_ooxml) with false.
    cbv iota. unfold self_do, fbind. fold f'.
    assert (Hd' : dst_path f' = dst) by exact Hdst.
    assert (Hp' : p_extension (_file_props f') = VStr (py ".txt")).
    { etransitivity;
        [exact (same_p_extension (same_file_set_description (VStr (py "Plain text file")) f))|].
      now rewrite Hpext, <- Hext, E. }
    unfold force_ext. change (_check_leading_dot (py ".txt")) with (py ".txt").
    rewrite Hd', T. change (negb true) with false. cbv iota zeta.
    rewrite Hp'. reflexivity. }
  assert (C : check mdb f w = FOk tt f' w).
  { unfold check. unfold fbind at 1. unfold self_do at 1. rewrite S1.
    unfold fbind at 1. rewrite S2.
    unfold fbind at 1. unfold self_get at 1. rewrite He.
    unfold fbind at 1. unfold self_do at 1. rewrite S3.
    unfold fbind at 1. unfold self_get at 1. rewrite Hm.
    unfold fbind at 1. rewrite S4.
    unfold fbind at 1. unfold self_get at 1. rewrite Hd.
    change (negb false) with true. cbv iota.
    unfold fbind at 1. unfold self_get at 1. rewrite Hmain.
    change (opt_dict_get (Some (py "text")) mime_processing_options) with (Some t_text).
    exact S5. }
  exists f'. split; [exact C|].
  split; [exact (eq_trans (category_set_description _ f) Hcat)|].
  split; [exact Hdst|]. split; [exact E|].
  split.
  { etransitivity;
      [exact (same_p_extension (same_file_set_description (VStr (py "Plain text file")) f))|].
    now rewrite Hpext, <- Hext, E. }
  split; [exact Hsrc|]. split; [exact Hcopy|].
  intro V.
  unfold safe_copy, fbind, self_get, ftry.
  change (src_path f') with (src_path f). change (dst_path f') with (dst_path f).
  rewrite Hsrc, Hdst. unfold fret.
  destruct (OsPath.split dst) as [dir name] eqn:Sp. simpl in D.
  unfold makedirs_if_absent, fbind, world_get.
  destruct (exists_path dir w) eqn:X.
  - unfold fret, shutil_copy, fbind, self_get.
    change (seen f') with (seen f). rewrite Hseen, V. unfold world_do.
    eexists. split; reflexivity.
  - unfold os_makedirs, makedirs. destruct dir as [|c dir]; [contradiction|].
    unfold shutil_copy, fbind, self_get.
    change (seen f') with (seen f). rewrite Hseen, V. unfold world_do.
    eexists. split; reflexivity.
Qed.

(** The hypotheses of [plain_text_round_trip] hold of [notes.txt]. *)
Lemma plain_text_round_trip_witness :
  let src := py "/media/src/notes.txt" in
  let dst := py "/media/dst/notes.txt" in
  let v := Sample.sniffed "text/plain" in
  let f := Sample.or_blank (File_init src dst Sample.the_logger v) in
  let w := outside Sample.initial in
  exists f',
    check Sample.mimedb f w = FOk tt f' w
    /\ category f' = VNone
    /\ dst_path f' = dst
    /\ extension f' = Some (py ".txt")
    /\ p_extension (_file_props f') = VStr (py ".txt")
    /\ src_path f' = src
    /\ should_copy f' = true
    /\ (v_copy v = None ->
        exists w', safe_copy None None f' w = FOk tt f' w'
                   /\ copies w' = copies w ++ [(src, dst)]).
Proof.
  intros src dst v f w.
  apply (@plain_text_round_trip Sample.mimedb src dst Sample.the_logger v f w);
    try (vm_compute; reflexivity).
  - vm_compute. left. reflexivity.
  - vm_compute. discriminate.
Defined.

(** C7 (as stated) fails on two files with extension [.txt] and mimetype
    [text/plain]: one whose name contains U+202E, which [check] marks
    dangerous and renames, and one spelled [LISEZ.TXT], whose
    destination path gets [.txt] appended. *)
Lemma plain_text_not_always_untouched :
  let w := outside Sample.initial in
  let name := py "inv" ++ [right_to_left_override] ++ py "oice.txt" in
  let f := Sample.or_blank
             (File_init (OsPath.join (py "/media/src") name)
                        (OsPath.join (py "/media/dst") name)
                        Sample.the_logger (Sample.sniffed "text/plain")) in
  let f2 := Sample.or_blank (Sample.file_of "LISEZ.TXT" "text/plain") in
  (extension f = Some (py ".txt") /\ mimetype f = Some (py "text/plain")
   /\ check Sample.mimedb f w = FOk tt (checked Sample.mimedb f w) w
   /\ category (checked Sample.mimedb f w) = VStr (py "dangerous")
   /\ dst_path (checked Sample.mimedb f w) <> dst_path f)
  /\ (extension f2 = Some (py ".txt") /\ mimetype f2 = Some (py "text/plain")
      /\ check Sample.mimedb f2 w = FOk tt (checked Sample.mimedb f2 w) w
      /\ dst_path f2 = py "/media/dst/LISEZ.TXT"
      /\ dst_path (checked Sample.mimedb f2 w) = py "/media/dst/LISEZ.TXT.txt").
Proof.
  vm_compute. repeat split; discriminate.
Qed.

(** ** The metadata sidecar *)

(** C8 (as amended).  [create_metadata_file] records an error and
    answers [False] exactly when something exists at the source path
    followed by the sidecar extension; otherwise (the destination path
    having a directory part) it records nothing, remembers and answers
    the destination path followed by the extension, and leaves the
    copies and the log alone. *)
Theorem create_metadata_file_checks_source (f : File) (w : world) (ext : pystr) :
  let ext' := _check_leading_dot ext in
  (exists_path (src_path f ++ ext') w = true ->
   exists message,
     create_metadata_file ext f w
     = FOk (VBool false) (add_error (KittenGroomerError message) [] f) w)
  /\ (exists_path (src_path f ++ ext') w = false ->
      fst (OsPath.split (dst_path f)) <> [] ->
      exists w',
        create_metadata_file ext f w
        = FOk (VStr (dst_path f ++ ext')) (with_metadata_file_path (dst_path f ++ ext') f) w'
        /\ copies w' = copies w /\ log w' = log w).
Proof.
  intro ext'. split.
  - intro X. unfold create_metadata_file, fbind, self_get, world_get.
    fold ext'. rewrite X. unfold self_do, fret. eexists. reflexivity.
  - intros X D. unfold create_metadata_file, fbind, self_get, world_get.
    fold ext'. rewrite X.
    destruct (OsPath.split (dst_path f)) as [dir name]. simpl in D.
    unfold makedirs_if_absent, fbind, world_get.
    destruct (exists_path dir w).
    + unfold fret, self_do. eexists. repeat split.
    + unfold os_makedirs, makedirs. destruct dir; [contradiction|].
      unfold self_do, fret. eexists. repeat split.
Qed.

(** The hypotheses of [create_metadata_file_checks_source] hold of a
    photo, first with and then without a file beside it in the source. *)
Lemma create_metadata_file_checks_source_witness :
  let f := Sample.or_blank (Sample.file_of "photo.jpg" "image/jpeg") in
  let w := outside Sample.initial in
  let w1 := write_file (py "/media/src/photo.jpg.metadata.txt") w in
  (exists message,
     create_metadata_file (py ".metadata.txt") f w1
     = FOk (VBool false) (add_error (KittenGroomerError message) [] f) w1)
  /\ (exists w',
        create_metadata_file (py ".metadata.txt") f w
        = FOk (VStr (py "/media/dst/photo.jpg.metadata.txt"))
              (with_metadata_file_path (py "/media/dst/photo.jpg.metadata.txt") f) w'
        /\ copies w' = copies w /\ log w' = log w).
Proof.
  intros f w w1. split.
  - apply (create_metadata_file_checks_source f w1 (py ".metadata.txt")).
    vm_compute; reflexivity.
  - apply (create_metadata_file_checks_source f w (py ".metadata.txt")).
    + vm_compute; reflexivity.
    + vm_compute. discriminate.
Defined.

(** C8 (as stated) fails in both directions: with a file already at the
    path of the sidecar in the destination and none beside the source,
    no error is recorded and the path is answered; with a file beside
    the source and nothing at the path of the sidecar, the call records
    an error and answers [False]. *)
Lemma sidecar_path_is_not_the_one_checked :
  let f := Sample.or_blank (Sample.file_of "photo.jpg" "image/jpeg") in
  let sidecar := py "/media/dst/photo.jpg.metadata.txt" in
  let w := outside Sample.initial in
  let taken := write_file sidecar w in
  let beside := write_file (py "/media/src/photo.jpg.metadata.txt") w in
  (exists_path sidecar taken = true
   /\ create_metadata_file (py ".metadata.txt") f taken
      = FOk (VStr sidecar) (with_metadata_file_path sidecar f) taken)
  /\ (exists_path sidecar beside = false
      /\ exists e, create_metadata_file (py ".metadata.txt") f beside
                   = FOk (VBool false) (add_error e [] f) beside).
Proof.
  vm_compute. repeat split. eexists. reflexivity.
Qed.

(* ================================================================== *)
(** ** Reasoning on the groomer: triples and frames *)
(* ================================================================== *)

Lemma triple_bind {A B : Type} (P : state -> Prop) (m : GM A) (Q : A -> state -> Prop)
    (k : A -> GM B) (Q' : B -> state -> Prop) (E : state -> Prop) :
  triple P m Q E -> (forall a, triple (Q a) (k a) Q' E) -> triple P (gbind m k) Q' E.
Proof.
  intros Hm Hk s Ps. unfold gbind. specialize (Hm s Ps).
  destruct (m s) as [a s'| |]; [|exact Hm|exact Hm].
  exact (Hk a s' Hm).
Qed.

Lemma triple_weaken {A : Type} (P P' : state -> Prop) (m : GM A)
    (Q Q' : A -> state -> Prop) (E E' : state -> Prop) :
  triple P m Q E ->
  (forall s, P' s -> P s) -> (forall a s, Q a s -> Q' a s) -> (forall s, E s -> E' s) ->
  triple P' m Q' E'.
Proof.
  intros H HP HQ HE s Ps. specialize (H s (HP s Ps)).
  destruct (m s); auto.
Qed.

Lemma triple_ret {A : Type} (P : state -> Prop) (a : A) (E : state -> Prop) :
  triple P (gret a) (fun _ s => P s) E.
Proof. intros s Ps. exact Ps. Qed.

Lemma triple_raise {A : Type} (P : state -> Prop) (e : pyexn) (Q : A -> state -> Prop) :
  triple P (graise e) Q P.
Proof. intros s Ps. exact Ps. Qed.

Lemma triple_state_do (P Q : state -> Prop) (g : state -> state) (E : state -> Prop) :
  (forall s, P s -> Q (g s)) -> triple P (state_do g) (fun _ s => Q s) E.
Proof. intros H s Ps. exact (H s Ps). Qed.

Lemma triple_state_get {A : Type} (P : state -> Prop) (g : state -> A) (E : state -> Prop) :
  triple P (state_get g) (fun a s => P s /\ a = g s) E.
Proof. intros s Ps. now split. Qed.

(** A method call leaves every property that a change of the object at
    [i] and of the world cannot break. *)
Lemma triple_on_file {A : Type} (P : state -> Prop) (i : nat) (f : File) (m : FM A) :
  (forall s f' w', P s -> P (store i f' (set_outside w' s))) ->
  triple P (on_file i f m) (fun _ s => P s) P.
Proof.
  intros H s Ps. unfold on_file.
  destruct (m f (outside s)); now apply H.
Qed.

Lemma triple_logging (P : state -> Prop) (m : world -> raising world) :
  (forall s w', P s -> P (set_outside w' s)) ->
  triple P (logging m) (fun _ s => P s) P.
Proof.
  intros H s Ps. unfold logging.
  destruct (m (outside s)); [exact Ps|now apply H].
Qed.

Lemma triple_gfor {A : Type} (I : state -> Prop) (l : list A) (body : A -> GM unit)
    (E : state -> Prop) :
  (forall x, In x l -> triple I (body x) (fun _ s => I s) E) ->
  triple I (gfor l body) (fun _ s => I s) E.
Proof.
  induction l as [|x l IH]; intro H; simpl.
  - apply triple_ret.
  - eapply triple_bind; [apply H; now left|].
    intros []. apply IH. intros y Hy. apply H. now right.
Qed.

Lemma length_list_update {A : Type} (i : nat) (x : A) (l : list A) :
  List.length (list_update i x l) = List.length l.
Proof.
  revert i; induction l as [|y l IH]; intros [|i]; simpl; auto.
Qed.

Lemma nth_error_list_update_other {A : Type} (i j : nat) (x : A) (l : list A) :
  i <> j -> nth_error (list_update i x l) j = nth_error l j.
Proof.
  revert i j; induction l as [|y l IH]; intros [|i] [|j] H; simpl; auto.
  contradiction.
Qed.

Lemma nth_error_list_update_same {A : Type} (i : nat) (x : A) (l : list A) :
  i < List.length l -> nth_error (list_update i x l) i = Some x.
Proof.
  revert i; induction l as [|y l IH]; intros [|i] H; simpl in *; try lia; auto.
  apply IH. lia.
Qed.

Lemma untouched_refl (n : nat) (s : state) : untouched n s s.
Proof. split; auto. Qed.

Lemma untouched_trans (n m : nat) (s1 s2 s3 : state) :
  untouched n s1 s2 -> untouched m s2 s3 -> n <= m -> untouched n s1 s3.
Proof.
  intros [H1 L1] [H2 L2] Hnm. split; [|lia].
  intros j Hj Hl. rewrite H2 by lia. now apply H1.
Qed.

Lemma untouched_frame (n : nat) (s1 s2 s3 : state) :
  untouched n s1 s2 -> frame s2 s3 -> untouched n s1 s3.
Proof.
  intros [H1 L1] [H2 L2]. split; [|lia].
  intros j Hj Hl. rewrite H2 by lia. now apply H1.
Qed.

Lemma untouched_store (n i : nat) (s0 s : state) (f : File) (w : world) :
  n <= i -> untouched n s0 s -> untouched n s0 (store i f (set_outside w s)).
Proof.
  intros Hni [H L]. split; simpl.
  - intros j Hj Hl. rewrite nth_error_list_update_other by lia. now apply H.
  - now rewrite length_list_update.
Qed.

Lemma untouched_set_outside (n : nat) (s0 s : state) (w : world) :
  untouched n s0 s -> untouched n s0 (set_outside w s).
Proof. intros [H L]. now split. Qed.

Lemma untouched_set_depth (n : nat) (s0 s : state) (d : Z) :
  untouched n s0 s -> untouched n s0 (set_depth d s).
Proof. intros [H L]. now split. Qed.

Lemma untouched_allocate (n : nat) (s0 s : state) (f : File) :
  untouched n s0 s -> untouched n s0 (snd (allocate f s)).
Proof.
  intros [H L]. split; simpl.
  - intros j Hj Hl. rewrite nth_error_app1 by lia. now apply H.
  - rewrite length_app. simpl. lia.
Qed.

(* ================================================================== *)
(** ** The walk: depth counter, heap and fuel *)
(* ================================================================== *)

Lemma on_file_at {A : Type} (k : Z) (n i : nat) (s0 : state) (f : File) (m : FM A) :
  n <= i ->
  triple (at_depth k n s0) (on_file i f m) (fun _ => at_depth k n s0) (untouched n s0).
Proof.
  intros H s [D U]. unfold on_file.
  destruct (m f (outside s)).
  - split; [exact D|now apply untouched_store].
  - now apply untouched_store.
Qed.

Lemma logging_at (k : Z) (n : nat) (s0 : state) (m : world -> raising world) :
  triple (at_depth k n s0) (logging m) (fun _ => at_depth k n s0) (untouched n s0).
Proof.
  intros s [D U]. unfold logging.
  destruct (m (outside s)); [exact U|].
  split; [exact D|now apply untouched_set_outside].
Qed.

Lemma safe_rmtree_at (k : Z) (n : nat) (s0 : state) (p : pystr) :
  triple (at_depth k n s0) (safe_rmtree p) (fun _ => at_depth k n s0) (untouched n s0).
Proof.
  apply triple_state_do. intros s [D U].
  destruct (exists_path p (outside s)); [|now split].
  split; [exact D|now apply untouched_set_outside].
Qed.

Lemma run_process_at (k : Z) (n : nat) (s0 : state) (o : extractor_outcome)
    (written : list pystr) :
  triple (at_depth k n s0) (_run_process o written) (fun _ => at_depth k n s0) (untouched n s0).
Proof.
  intros s [D U]. destruct o; simpl; try exact U;
    (split; [exact D|now apply untouched_set_outside]).
Qed.

Section WalkProperties.

Variable mdb : MimeDB.
Variable g : KittenGroomerFileCheck.
Variable recurse : pystr -> pystr -> list node -> GM unit.
Variable d : Z.

(** The nested calls behave, at the depth where they can be made. *)
Hypothesis recurse_walks :
  (d + 1 < max_recursive_depth g)%Z ->
  forall src dst ls, walks_at (d + 1) (recurse src dst ls).

Lemma recurse_at (n : nat) (s0 : state) (src dst : pystr) (ls : list node) :
  (d + 1 < max_recursive_depth g)%Z ->
  triple (at_depth (d + 1) n s0) (recurse src dst ls)
         (fun _ => at_depth (d + 1) n s0) (untouched n s0).
Proof.
  intros H s [D U]. pose proof (recurse_walks H src dst ls s D) as W.
  destruct (recurse src dst ls s) as [[] s'|e s'|]; [|now apply (untouched_frame U)|exact W].
  destruct W as [D' F]. split; [exact D'|now apply (untouched_frame U)].
Qed.

Lemma expansion_at (n i : nat) (s0 : state) (f : File) (o : extractor_outcome)
    (unpacked : list node) :
  n <= i ->
  (d + 1 < max_recursive_depth g)%Z ->
  triple (at_depth (d + 1) n s0)
         (r <- on_file i f make_tempdir ;;
          (let (tempdir_path, file) := r in
           _run_process o (flat_map (paths_of tempdir_path) unpacked) ;;
           r0 <- on_file i file write_log ;;
           (let file0 := snd r0 in
            recurse tempdir_path (dst_path file0) unpacked ;;
            safe_rmtree tempdir_path)))%gm
         (fun _ => at_depth (d + 1) n s0) (untouched n s0).
Proof.
  intros Hni Hlt.
  eapply triple_bind; [apply on_file_at; exact Hni|].
  intros [tempdir_path file].
  eapply triple_bind; [apply run_process_at|]. intros ran.
  eapply triple_bind; [apply on_file_at; exact Hni|]. intros r0.
  eapply triple_bind with (Q := fun _ => at_depth (d + 1) n s0);
    [|intros u; apply safe_rmtree_at].
  now apply recurse_at.
Qed.

Lemma process_archive_at (n i : nat) (s0 : state) (f : File) (o : extractor_outcome)
    (unpacked : list node) :
  n <= i ->
  triple (at_depth d n s0) (process_archive_with g recurse i f o unpacked)
         (fun _ => at_depth d n s0) (untouched n s0).
Proof.
  intro Hni. unfold process_archive_with.
  eapply triple_bind.
  { apply (@triple_state_do (at_depth d n s0) (at_depth (d + 1) n s0)).
    intros s [D U]. split; [simpl; lia|now apply untouched_set_depth]. }
  intros []. eapply triple_bind; [apply triple_state_get|].
  intros depth. eapply triple_bind with (Q := fun _ => at_depth (d + 1) n s0).
  - intros s [P E].
    destruct (depth >=? max_recursive_depth g)%Z eqn:G.
    + pose proof (@on_file_at unit (d + 1) n i s0 f
                    (self_do (make_dangerous (VStr (py "Archive bomb")))) Hni s P) as T.
      unfold gbind.
      destruct (on_file i f _ s); [exact T|exact T|exact T].
    + apply expansion_at; [exact Hni| |exact P].
      destruct P as [D _]. rewrite E, D in G. lia.
  - intros []. apply triple_state_do. intros s [D U].
    split; [simpl; lia|now apply untouched_set_depth].
Qed.

Lemma process_file_at (n i : nat) (s0 : state) (f : File) (o : extractor_outcome)
    (unpacked : list node) :
  n <= i ->
  triple (at_depth d n s0) (process_file_with mdb g recurse i f o unpacked)
         (fun _ => at_depth d n s0) (untouched n s0).
Proof.
  intro Hni. unfold process_file_with.
  eapply triple_bind; [apply on_file_at; exact Hni|]. intros r.
  eapply triple_bind with (Q := fun _ => at_depth d n s0).
  - destruct (should_copy (snd r)); [|apply triple_ret].
    eapply triple_bind; [apply on_file_at; exact Hni|]. intros r'. apply triple_ret.
  - intros file. eapply triple_bind with (Q := fun _ => at_depth d n s0);
      [|intros u; apply safe_rmtree_at].
    destruct (is_recursive file); [now apply process_archive_at|apply triple_ret].
Qed.

Lemma process_dir_at (s0 : state) (src_dir dst_dir : pystr) (ls : list node) :
  triple (at_depth d (List.length (heap s0)) s0)
         (process_dir_with mdb g recurse src_dir dst_dir ls)
         (fun _ => at_depth d (List.length (heap s0)) s0)
         (untouched (List.length (heap s0)) s0).
Proof.
  unfold process_dir_with. apply triple_gfor. intros [srcpath|srcpath v o unpacked] _.
  - apply logging_at.
  - destruct (File_init _ _ _ _) as [e|file].
    + intros s [D U]. exact U.
    + intros s [D U]. unfold gbind.
      pose proof (@process_file_at (List.length (heap s0)) (List.length (heap s)) s0
                    file o unpacked (proj2 U) (snd (allocate file s))) as T.
      apply T. split; [exact D|now apply untouched_allocate].
Qed.

Lemma process_dir_walks (src_dir dst_dir : pystr) (ls : list node) :
  walks_at d (process_dir_with mdb g recurse src_dir dst_dir ls).
Proof.
  intros s D.
  pose proof (@process_dir_at s src_dir dst_dir ls s (conj D (untouched_refl _ s))) as T.
  destruct (process_dir_with _ _ _ _ _ _ s) as [[] s'|e s'|]; [|exact T|exact T].
  exact T.
Qed.

End WalkProperties.

Lemma process_dir_unfold (mdb : MimeDB) (g : KittenGroomerFileCheck) (fuel : nat) :
  process_dir mdb g fuel = process_dir_with mdb g (recursion mdb g fuel).
Proof. now destruct fuel. Qed.

Lemma recursion_walks (mdb : MimeDB) (g : KittenGroomerFileCheck) (fuel : nat) :
  forall d, enough_fuel g fuel d ->
    (d + 1 < max_recursive_depth g)%Z ->
    forall src dst ls, walks_at (d + 1) (recursion mdb g fuel src dst ls).
Proof.
  unfold enough_fuel.
  induction fuel as [|fuel IH]; intros d Hf Hlt src dst ls; [lia|].
  simpl recursion. rewrite process_dir_unfold.
  apply process_dir_walks. intro Hlt'. apply IH; [lia|exact Hlt'].
Qed.

(** [process_dir] with enough fuel never runs out of it, restores the
    counter and leaves the objects it found as they were. *)
Lemma process_dir_enough_fuel (mdb : MimeDB) (g : KittenGroomerFileCheck) (fuel : nat)
    (src_dir dst_dir : pystr) (ls : list node) (s : state) :
  enough_fuel g fuel (recursive_archive_depth s) ->
  match process_dir mdb g fuel src_dir dst_dir ls s with
  | Ok _ s' => recursive_archive_depth s' = recursive_archive_depth s /\ frame s s'
  | Raise _ s' => frame s s'
  | OutOfFuel => False
  end.
Proof.
  intro Hf. rewrite process_dir_unfold.
  apply (@process_dir_walks mdb g (recursion mdb g fuel) (recursive_archive_depth s));
    [|reflexivity].
  intro Hlt. now apply recursion_walks.
Qed.

Lemma process_archive_enough_fuel (mdb : MimeDB) (g : KittenGroomerFileCheck) (fuel : nat)
    (i : nat) (f : File) (o : extractor_outcome) (unpacked : list node) (s : state) :
  enough_fuel g fuel (recursive_archive_depth s) ->
  match process_archive mdb g fuel i f o unpacked s with
  | Ok _ s' => recursive_archive_depth s' = recursive_archive_depth s /\ untouched i s s'
  | Raise _ s' => untouched i s s'
  | OutOfFuel => False
  end.
Proof.
  intro Hf.
  pose proof (@process_archive_at g (recursion mdb g fuel) (recursive_archive_depth s)
                (fun Hlt => recursion_walks mdb Hf Hlt) i i s f o unpacked (le_n i) s
                (conj eq_refl (untouched_refl i s))) as T.
  exact T.
Qed.

(** ** The counter, also when a call raises *)

Lemma on_file_level {A : Type} (k k0 : Z) (i : nat) (f : File) (m : FM A) :
  (k0 <= k)%Z ->
  triple (level k) (on_file i f m) (fun _ => level k) (above k0).
Proof.
  intros H s D. unfold on_file, level, above in *.
  destruct (m f (outside s)); simpl; lia.
Qed.

Lemma logging_level (k k0 : Z) (m : world -> raising world) :
  (k0 <= k)%Z ->
  triple (level k) (logging m) (fun _ => level k) (above k0).
Proof.
  intros H s D. unfold logging, level, above in *.
  destruct (m (outside s)); simpl; lia.
Qed.

Lemma safe_rmtree_level (k : Z) (p : pystr) (E : state -> Prop) :
  triple (level k) (safe_rmtree p) (fun _ => level k) E.
Proof.
  apply triple_state_do. intros s D. now destruct (exists_path p (outside s)).
Qed.

Lemma run_process_level (k k0 : Z) (o : extractor_outcome) (written : list pystr) :
  (k0 <= k)%Z ->
  triple (level k) (_run_process o written) (fun _ => level k) (above k0).
Proof.
  intros H s D. unfold level, above in *. destruct o; simpl; lia.
Qed.

Section WalkCounter.

Variable mdb : MimeDB.
Variable g : KittenGroomerFileCheck.
Variable recurse : pystr -> pystr -> list node -> GM unit.
Variable d : Z.

(** The nested calls count, at the depth where they can be made. *)
Hypothesis recurse_counts :
  (d + 1 < max_recursive_depth g)%Z ->
  forall src dst ls, counts_at (d + 1) (recurse src dst ls).

Lemma expansion_level (i : nat) (f : File) (o : extractor_outcome) (unpacked : list node) :
  (d + 1 < max_recursive_depth g)%Z ->
  triple (level (d + 1))
         (r <- on_file i f make_tempdir ;;
          (let (tempdir_path, file) := r in
           _run_process o (flat_map (paths_of tempdir_path) unpacked) ;;
           r0 <- on_file i file write_log ;;
           (let file0 := snd r0 in
            recurse tempdir_path (dst_path file0) unpacked ;;
            safe_rmtree tempdir_path)))%gm
         (fun _ => level (d + 1)) (above (d + 1)).
Proof.
  intro Hlt.
  eapply triple_bind; [apply on_file_level; lia|].
  intros [tempdir_path file].
  eapply triple_bind; [apply run_process_level; lia|]. intros ran.
  eapply triple_bind; [apply on_file_level; lia|]. intros r0.
  eapply triple_bind with (Q := fun _ => level (d + 1));
    [|intros u; apply safe_rmtree_level].
  now apply recurse_counts.
Qed.

(** A call of [process_archive] that raises has incremented the counter
    and has not come to the decrement. *)
Lemma process_archive_level (i : nat) (f : File) (o : extractor_outcome)
    (unpacked : list node) :
  triple (level d) (process_archive_with g recurse i f o unpacked)
         (fun _ => level d) (above (d + 1)).
Proof.
  unfold process_archive_with.
  eapply triple_bind.
  { apply (@triple_state_do (level d) (level (d + 1))).
    intros s D. unfold level in *. simpl. lia. }
  intros []. eapply triple_bind; [apply triple_state_get|].
  intros depth. eapply triple_bind with (Q := fun _ => level (d + 1)).
  - intros s [P E].
    destruct (depth >=? max_recursive_depth g)%Z eqn:G.
    + pose proof (@on_file_level unit (d + 1) (d + 1) i f
                    (self_do (make_dangerous (VStr (py "Archive bomb"))))
                    (Z.le_refl _) s P) as T.
      unfold gbind.
      destruct (on_file i f _ s); [exact T|exact T|exact T].
    + apply expansion_level; [|exact P].
      unfold level in P. rewrite E, P in G. lia.
  - intros []. apply triple_state_do. intros s D. unfold level in *. simpl. lia.
Qed.

Lemma process_file_level (i : nat) (f : File) (o : extractor_outcome)
    (unpacked : list node) :
  triple (level d) (process_file_with mdb g recurse i f o unpacked)
         (fun _ => level d) (above d).
Proof.
  unfold process_file_with.
  eapply triple_bind; [apply on_file_level; lia|]. intros r.
  eapply triple_bind with (Q := fun _ => level d).
  - destruct (should_copy (snd r)); [|apply triple_ret].
    eapply triple_bind; [apply on_file_level; lia|]. intros r'. apply triple_ret.
  - intros file. eapply triple_bind with (Q := fun _ => level d);
      [|intros u; apply safe_rmtree_level].
    destruct (is_recursive file); [|apply triple_ret].
    eapply triple_weaken; [apply process_archive_level|auto|auto|].
    intros s H. unfold above in *. lia.
Qed.

Lemma process_dir_counts (src_dir dst_dir : pystr) (ls : list node) :
  counts_at d (process_dir_with mdb g recurse src_dir dst_dir ls).
Proof.
  unfold counts_at, process_dir_with.
  apply triple_gfor. intros [srcpath|srcpath v o unpacked] _.
  - apply logging_level. lia.
  - destruct (File_init _ _ _ _) as [e|file].
    + intros s D. unfold level, above in *. simpl. lia.
    + intros s D. unfold gbind.
      apply (@process_file_level (List.length (heap s)) file o unpacked
               (snd (allocate file s))).
      exact D.
Qed.

End WalkCounter.

Lemma recursion_counts (mdb : MimeDB) (g : KittenGroomerFileCheck) (fuel : nat) :
  forall d, enough_fuel g fuel d ->
    (d + 1 < max_recursive_depth g)%Z ->
    forall src dst ls, counts_at (d + 1) (recursion mdb g fuel src dst ls).
Proof.
  unfold enough_fuel.
  induction fuel as [|fuel IH]; intros d Hf Hlt src dst ls; [lia|].
  simpl recursion. rewrite process_dir_unfold.
  apply process_dir_counts. intro Hlt'. apply IH; [lia|exact Hlt'].
Qed.

(** C9 (as amended).  With the fuel the depth bound calls for, a call
    of [process_archive] does not run out of fuel.  When it returns (the
    archive flagged as a bomb or expanded), [recursive_archive_depth] has
    the value it had before the call; when an exception cuts it short,
    the counter is higher than it was before the call: the decrement is
    not in a [finally] clause.  A call of [process_dir] that returns
    restores the counter as well, and one that raises leaves it where it
    was or higher; so a run started with the counter at 0 that returns
    leaves it at 0. *)
Theorem recursion_depth_is_restored
    (mdb : MimeDB) (g : KittenGroomerFileCheck) (fuel : nat) (s : state) :
  (max_recursive_depth g - recursive_archive_depth s - 1 <= Z.of_nat fuel)%Z ->
  (forall i f o unpacked,
     match process_archive mdb g fuel i f o unpacked s with
     | Ok _ s' => recursive_archive_depth s' = recursive_archive_depth s
     | Raise _ s' => (recursive_archive_depth s < recursive_archive_depth s')%Z
     | OutOfFuel => False
     end)
  /\ (forall src_dir dst_dir ls,
        match process_dir mdb g fuel src_dir dst_dir ls s with
        | Ok _ s' => recursive_archive_depth s' = recursive_archive_depth s
        | Raise _ s' => (recursive_archive_depth s <= recursive_archive_depth s')%Z
        | OutOfFuel => False
        end)
  /\ (recursive_archive_depth s = 0%Z ->
      forall tree,
        match run mdb g fuel tree s with
        | Ok _ s' => recursive_archive_depth s' = 0%Z
        | Raise _ s' => (0 <= recursive_archive_depth s')%Z
        | OutOfFuel => False
        end).
Proof.
  intro Hf.
  assert (A : forall i f o unpacked,
            triple (level (recursive_archive_depth s))
                   (process_archive mdb g fuel i f o unpacked)
                   (fun _ => level (recursive_archive_depth s))
                   (above (recursive_archive_depth s + 1))).
  { intros i f o unpacked. apply process_archive_level.
    intro Hlt. now apply recursion_counts. }
  assert (D : forall src_dir dst_dir ls,
            counts_at (recursive_archive_depth s) (process_dir mdb g fuel src_dir dst_dir ls)).
  { intros src_dir dst_dir ls. rewrite process_dir_unfold. apply process_dir_counts.
    intro Hlt. now apply recursion_counts. }
  split; [|split].
  - intros i f o unpacked. specialize (A i f o unpacked s eq_refl).
    destruct (process_archive _ _ _ _ _ _ _ _) as [[] s'|e s'|]; [exact A| |exact A].
    unfold above in A. lia.
  - intros src_dir dst_dir ls. specialize (D src_dir dst_dir ls s eq_refl).
    destruct (process_dir _ _ _ _ _ _ _) as [[] s'|e s'|]; exact D.
  - intros Z0 tree. unfold run.
    specialize (D (src_root_path g) (dst_root_path g) tree s eq_refl).
    destruct (process_dir _ _ _ _ _ _ _) as [[] s'|e s'|]; [| |exact D].
    + unfold level in D. now rewrite D.
    + unfold above in D. now rewrite Z0 in D.
Qed.

(** The hypothesis of [recursion_depth_is_restored] holds of a run with
    [max_recursive_depth] 3 on a zip in a zip, which returns with the
    counter at 0. *)
Lemma recursion_depth_is_restored_witness :
  (max_recursive_depth (Sample.groomer 3)
   - recursive_archive_depth Sample.initial - 1 <= Z.of_nat 2)%Z
  /\ exists s',
       run Sample.mimedb (Sample.groomer 3) 2 Sample.nested_zip Sample.initial = Ok tt s'
       /\ recursive_archive_depth s' = 0%Z.
Proof.
  assert (H : (max_recursive_depth (Sample.groomer 3)
               - recursive_archive_depth Sample.initial - 1 <= Z.of_nat 2)%Z)
    by (vm_compute; discriminate).
  split; [exact H|].
  pose proof (proj2 (proj2 (@recursion_depth_is_restored Sample.mimedb (Sample.groomer 3) 2
                              Sample.initial H)) eq_refl Sample.nested_zip) as T.
  destruct (run Sample.mimedb (Sample.groomer 3) 2 Sample.nested_zip Sample.initial)
    as [[] s'|e s'|] eqn:E.
  - exists s'. split; [reflexivity|exact T].
  - exfalso. vm_compute in E. discriminate.
  - destruct T.
Defined.

(** C9 (as stated) fails: there is no [try]/[finally] in
    [process_archive].  A zip met with the counter at 0 that holds an
    open-document file the zip reader rejects is expanded; [check] on
    that file raises, the exception leaves [process_archive] before the
    decrement and before the scratch directory is removed, and the run
    ends with the counter at 1. *)
Lemma exception_leaves_the_counter_raised :
  let f := checked Sample.mimedb
             (Sample.or_blank (Sample.file_of "papers.zip" "application/zip"))
             (outside Sample.initial) in
  let s := snd (allocate f Sample.initial) in
  recursive_archive_depth s = 0%Z
  /\ (exists s',
        process_archive Sample.mimedb (Sample.groomer 2) 2 0 f ExitZero Sample.broken_odt s
        = Raise UnboundLocalError s'
        /\ recursive_archive_depth s' = 1%Z
        /\ exists_path (tempdir_path f) (outside s') = true)
  /\ (exists s',
        run Sample.mimedb (Sample.groomer 2) 2 zipped_odt Sample.initial
        = Raise UnboundLocalError s'
        /\ recursive_archive_depth s' = 1%Z
        /\ exists_path (py "/media/dst/papers.zip_temp") (outside s') = true).
Proof.
  split; [reflexivity|].
  split; (eexists; split; [vm_compute; reflexivity|]; vm_compute; split; reflexivity).
Qed.

(* ================================================================== *)
(** ** The archive extractor *)
(* ================================================================== *)

Lemma make_tempdir_self (f : File) (w : world) :
  match make_tempdir f w with
  | FOk p f' _ => f' = f /\ p = tempdir_path f
  | FRaise _ f' _ => f' = f
  end.
Proof.
  unfold make_tempdir, makedirs_if_absent, fbind, self_get, world_get, fret. cbv beta.
  destruct (exists_path (tempdir_path f) w); [now split|].
  unfold os_makedirs. destruct (makedirs (tempdir_path f) w); [reflexivity|now split].
Qed.

Lemma write_log_self (f : File) (w : world) :
  match write_log f w with
  | FOk _ f' _ | FRaise _ f' _ => f' = f
  end.
Proof. unfold write_log. now destruct (add_file _ _ _ _ _ _). Qed.




Lemma kept_length (k : Z) (i : nat) (f : File) (s : state) :
  kept k i f s -> i < List.length (heap s).
Proof. intros [_ H]. apply nth_error_Some. congruence. Qed.

(** A method that leaves [self] alone leaves the object at [i] alone. *)
Lemma on_file_keeps {A : Type} (k : Z) (i : nat) (f : File) (m : FM A) :
  (forall w, match m f w with FOk _ f' _ | FRaise _ f' _ => f' = f end) ->
  triple (fun s => recursive_archive_depth s = k /\ i < List.length (heap s))
         (on_file i f m)
         (fun r s' => snd r = f /\ kept k i f s')
         (fun s' => nth_error (heap s') i = Some f).
Proof.
  intros H s [D L]. unfold on_file. specialize (H (outside s)).
  destruct (m f (outside s)) as [a f' w'|e f' w']; rewrite H; simpl.
  - split; [reflexivity|]. split; [exact D|]. now apply nth_error_list_update_same.
  - now apply nth_error_list_update_same.
Qed.

Section ArchiveProperties.

Variable mdb : MimeDB.
Variable g : KittenGroomerFileCheck.
Variable recurse : pystr -> pystr -> list node -> GM unit.
Variable d : Z.

Hypothesis nested_calls_allowed : (d + 1 < max_recursive_depth g)%Z.

Hypothesis recurse_walks : forall src dst ls, walks_at (d + 1) (recurse src dst ls).

Lemma expansion_keeps (i : nat) (f : File) (o : extractor_outcome) (unpacked : list node) :
  triple (fun s => recursive_archive_depth s = (d + 1)%Z /\ i < List.length (heap s))
         (r <- on_file i f make_tempdir ;;
          (let (tempdir_path, file) := r in
           _run_process o (flat_map (paths_of tempdir_path) unpacked) ;;
           r0 <- on_file i file write_log ;;
           (let file0 := snd r0 in
            recurse tempdir_path (dst_path file0) unpacked ;;
            safe_rmtree tempdir_path)))%gm
         (fun _ => kept (d + 1) i f)
         (fun s => nth_error (heap s) i = Some f).
Proof.
  eapply triple_bind.
  { apply on_file_keeps. intro w. pose proof (make_tempdir_self f w) as H.
    destruct (make_tempdir f w); [apply H|exact H]. }
  intros [tempdir_path file]. simpl.
  eapply triple_bind with (Q := fun _ s => file = f /\ kept (d + 1) i f s).
  { intros s [-> [D N]]. destruct o; simpl; try exact N; now repeat split. }
  intros ran.
  eapply triple_bind with (Q := fun r s => file = f /\ snd r = f /\ kept (d + 1) i f s).
  { intros s [-> K].
    pose proof (@on_file_keeps unit (d + 1) i f write_log (write_log_self f) s
                  (conj (proj1 K) (kept_length K))) as T.
    destruct (on_file i f write_log s); [|exact T|exact T]. now split. }
  intros r0.
  eapply triple_bind with (Q := fun _ => kept (d + 1) i f).
  - intros s (-> & E & K).
    pose proof (recurse_walks tempdir_path (dst_path (snd r0)) unpacked s (proj1 K)) as W.
    destruct (recurse _ _ _ s) as [[] s'|e s'|]; [|destruct W as [W _]|exact W].
    + destruct W as [D [W _]]. split; [exact D|].
      rewrite W; [apply K|apply (kept_length K)|apply (kept_length K)].
    + rewrite W; [apply K|apply (kept_length K)|apply (kept_length K)].
  - intros u. apply triple_state_do. intros s [D N].
    destruct (exists_path _ _); now split.
Qed.

Lemma process_archive_keeps (i : nat) (f : File) (o : extractor_outcome)
    (unpacked : list node) :
  triple (fun s => recursive_archive_depth s = d /\ i < List.length (heap s))
         (process_archive_with g recurse i f o unpacked)
         (fun _ => kept d i f)
         (fun s => nth_error (heap s) i = Some f).
Proof.
  unfold process_archive_with.
  eapply triple_bind.
  { apply (@triple_state_do _
             (fun s => recursive_archive_depth s = (d + 1)%Z /\ i < List.length (heap s))).
    intros s [D L]. split; [simpl; lia|exact L]. }
  intros []. eapply triple_bind; [apply triple_state_get|].
  intros depth. eapply triple_bind with (Q := fun _ => kept (d + 1) i f).
  - intros s [P E].
    destruct (depth >=? max_recursive_depth g)%Z eqn:G.
    + exfalso. destruct P as [D _]. rewrite E, D in G. lia.
    + now apply expansion_keeps.
  - intros []. apply triple_state_do. intros s [D N]. split; [simpl; lia|exact N].
Qed.

End ArchiveProperties.





(* ================================================================== *)
(** ** The depth bound *)
(* ================================================================== *)

(** At or beyond the bound, [process_archive] flags the archive and
    touches nothing else: no scratch directory, no log line, no call of
    [process_dir]. *)
Lemma process_archive_flags_bomb (g : KittenGroomerFileCheck)
    (recurse : pystr -> pystr -> list node -> GM unit)
    (i : nat) (f : File) (o : extractor_outcome) (unpacked : list node) (s : state) :
  (max_recursive_depth g <= recursive_archive_depth s + 1)%Z ->
  exists s',
    process_archive_with g recurse i f o unpacked s = Ok tt s'
    /\ heap s' = list_update i (make_dangerous (VStr (py "Archive bomb")) f) (heap s)
    /\ outside s' = outside s
    /\ cur_file s' = cur_file s
    /\ recursive_archive_depth s' = recursive_archive_depth s.
Proof.
  intro H. unfold process_archive_with, gbind, state_do, state_get.
  cbn [recursive_archive_depth set_depth].
  assert (G : (recursive_archive_depth s + 1 >=? max_recursive_depth g)%Z = true) by lia.
  rewrite G. eexists. split; [reflexivity|]. cbn. repeat split. lia.
Qed.

Section AtTheBound.

Variable mdb : MimeDB.
Variable g : KittenGroomerFileCheck.
Variable recurse : pystr -> pystr -> list node -> GM unit.
Variable d : Z.

Hypothesis at_the_bound : (max_recursive_depth g <= d + 1)%Z.

Lemma on_file_sized {A : Type} (n : nat) (k : Z) (i : nat) (f : File) (m : FM A) :
  triple (sized n k) (on_file i f m) (fun _ => sized n k) (fun _ => True).
Proof.
  intros s [L D]. unfold on_file.
  destruct (m f (outside s)); [|exact I].
  split; [|exact D]. simpl. now rewrite length_list_update.
Qed.

Lemma process_archive_sized (n : nat) (i : nat) (f : File) (o : extractor_outcome)
    (unpacked : list node) :
  triple (sized n d) (process_archive_with g recurse i f o unpacked)
         (fun _ => sized n d) (fun _ => True).
Proof.
  intros s [L D].
  destruct (@process_archive_flags_bomb g recurse i f o unpacked s) as (s' & E & H & _ & _ & D').
  { rewrite D. exact at_the_bound. }
  rewrite E. split; [|congruence].
  rewrite H. now rewrite length_list_update.
Qed.

Lemma process_file_sized (n : nat) (i : nat) (f : File) (o : extractor_outcome)
    (unpacked : list node) :
  triple (sized n d) (process_file_with mdb g recurse i f o unpacked)
         (fun _ => sized n d) (fun _ => True).
Proof.
  unfold process_file_with.
  eapply triple_bind; [apply on_file_sized|]. intros r.
  eapply triple_bind with (Q := fun _ => sized n d).
  - destruct (should_copy (snd r)); [|apply triple_ret].
    eapply triple_bind; [apply on_file_sized|]. intros r'. apply triple_ret.
  - intros file. eapply triple_bind with (Q := fun _ => sized n d).
    + destruct (is_recursive file); [apply process_archive_sized|apply triple_ret].
    + intros u. apply triple_state_do. intros s [L D].
      destruct (exists_path _ _); now split.
Qed.

(** At the bound every file of the queue gets one object and no more. *)
Lemma process_dir_sized (src_dir dst_dir : pystr) (ls : list node) (s : state) :
  recursive_archive_depth s = d ->
  match process_dir_with mdb g recurse src_dir dst_dir ls s with
  | Ok _ s' =>
      sized (List.length (heap s) + count_files (list_files_dirs src_dir ls)) d s'
  | Raise _ _ => True
  | OutOfFuel => False
  end.
Proof.
  unfold process_dir_with.
  set (body := fun e : entry => _).
  generalize (list_files_dirs src_dir ls) as q.
  intros q. revert s. induction q as [|e q IH]; intros s D.
  - simpl. split; [unfold count_files; simpl; lia|exact D].
  - cbn [gfor]. unfold gbind at 1.
    assert (B : match body e s with
                | Ok _ s1 =>
                    sized (List.length (heap s) + (if is_file_entry e then 1 else 0)) d s1
                | Raise _ _ => True
                | OutOfFuel => False
                end).
    { unfold body. destruct e as [srcpath|srcpath v o unpacked]; simpl.
      - unfold logging. destruct (add_dir _ _ _); [exact I|].
        split; [simpl; lia|exact D].
      - destruct (File_init _ _ _ _) as [e|file]; [exact I|].
        unfold gbind. simpl.
        apply (@process_file_sized (List.length (heap s) + 1)).
        split; [simpl; rewrite length_app; reflexivity|exact D]. }
    destruct (body e s) as [[] s1|e1 s1|]; [|exact I|exact B].
    destruct B as [L1 D1]. specialize (IH s1 D1).
    destruct (gfor q body s1) as [[] s'|e' s'|]; [|exact I|exact IH].
    destruct IH as [L' D']. split; [|exact D'].
    rewrite L', L1. unfold count_files. simpl.
    destruct (is_file_entry e); simpl; lia.
Qed.

End AtTheBound.

Lemma on_file_make_tempdir_sized (n : nat) (k : Z) (i : nat) (f : File) :
  triple (sized n k) (on_file i f make_tempdir)
         (fun r s => r = (tempdir_path f, f) /\ sized n k s) (fun _ => True).
Proof.
  intros s [L D]. unfold on_file. pose proof (make_tempdir_self f (outside s)) as H.
  destruct (make_tempdir f (outside s)) as [p f' w'|e f' w']; [|exact I].
  destruct H as [-> ->]. split; [reflexivity|].
  split; [|exact D]. simpl. now rewrite length_list_update.
Qed.

(** With the bound at 2 and the counter at 0, the nested call is made
    and gives one object to each file of the scratch directory. *)
Lemma process_archive_expands_sized (mdb : MimeDB) (g : KittenGroomerFileCheck) (fuel : nat)
    (i : nat) (f : File) (o : extractor_outcome) (unpacked : list node) (s : state) :
  max_recursive_depth g = 2%Z ->
  recursive_archive_depth s = 0%Z ->
  1 <= fuel ->
  match process_archive mdb g fuel i f o unpacked s with
  | Ok _ s' =>
      List.length (heap s')
      = List.length (heap s) + count_files (list_files_dirs (tempdir_path f) unpacked)
  | Raise _ _ => True
  | OutOfFuel => False
  end.
Proof.
  intros M D F. destruct fuel as [|k]; [lia|].
  set (n := List.length (heap s)).
  set (c := count_files (list_files_dirs (tempdir_path f) unpacked)).
  assert (T : triple (sized n 0) (process_archive mdb g (S k) i f o unpacked)
                     (fun _ => sized (n + c) 0) (fun _ => True)).
  { unfold process_archive, process_archive_with.
    eapply triple_bind.
    { apply (@triple_state_do _ (sized n 1)).
      intros s0 [L0 D0]. split; [exact L0|simpl; lia]. }
    intros []. eapply triple_bind; [apply triple_state_get|].
    intros depth. eapply triple_bind with (Q := fun _ => sized (n + c) 1).
    - intros s0 [P E].
      assert (G : (depth >=? max_recursive_depth g)%Z = false).
      { destruct P as [_ D0]. rewrite E, D0, M. reflexivity. }
      rewrite G. revert s0 P E.
      assert (X : triple (sized n 1)
                    (r <- on_file i f make_tempdir ;;
                     (let (tempdir_path, file) := r in
                      _run_process o (flat_map (paths_of tempdir_path) unpacked) ;;
                      r0 <- on_file i file write_log ;;
                      (let file0 := snd r0 in
                       recursion mdb g (S k) tempdir_path (dst_path file0) unpacked ;;
                       safe_rmtree tempdir_path)))%gm
                    (fun _ => sized (n + c) 1) (fun _ => True)).
      { eapply triple_bind; [apply on_file_make_tempdir_sized|].
        intros [scratch file].
        eapply triple_bind with (Q := fun _ s0 => (scratch, file) = (tempdir_path f, f)
                                                  /\ sized n 1 s0).
        { intros s0 [E [L0 D0]]. destruct o; simpl; try exact I; now repeat split. }
        intros ran.
        eapply triple_bind with (Q := fun _ s0 => (scratch, file) = (tempdir_path f, f)
                                                  /\ sized n 1 s0).
        { intros s0 [E P]. pose proof (@on_file_sized unit n 1 i file write_log s0 P) as T.
          destruct (on_file i file write_log s0); [now split|exact I|exact T]. }
        intros r0.
        eapply triple_bind with (Q := fun _ => sized (n + c) 1).
        - intros s0 [E [L0 D0]]. injection E as -> ->.
          simpl recursion. rewrite process_dir_unfold.
          pose proof (@process_dir_sized mdb g (recursion mdb g k) 1
                        ltac:(rewrite M; lia) (tempdir_path f)
                        (dst_path (snd r0)) unpacked s0 D0) as T.
          rewrite L0 in T. exact T.
        - intros u. apply triple_state_do. intros s0 [L0 D0].
          destruct (exists_path _ _); now split. }
      intros s0 P E. exact (X s0 P).
    - intros []. apply triple_state_do. intros s0 [L0 D0]. split; [exact L0|simpl; lia]. }
  specialize (T s (conj eq_refl D)).
  destruct (process_archive _ _ _ _ _ _ _ _) as [[] s'|e s'|]; [apply T|exact I|exact T].
Qed.

(** C1 (as amended).  With [max_recursive_depth] at 2: an archive met
    once the counter has left 0 is marked dangerous with [Archive bomb]
    and is not expanded (nothing else changes: no scratch directory, no
    log line, no new object); an archive met with the counter at 0 is
    expanded, keeps the verdict [check] gave it, and each file found in
    its scratch directory gets a [File] object of its own and goes
    through [process_file]; for a zip holding a zip holding a text file,
    the outer zip is logged as [Archive] and expanded, the inner zip is
    marked dangerous with [Archive bomb] and not expanded, and the text
    file is never reached, so nothing is copied. *)
Theorem archive_depth_bound
    (mdb : MimeDB) (g : KittenGroomerFileCheck) (fuel : nat) (i : nat) (f : File)
    (o : extractor_outcome) (unpacked : list node) (s : state) :
  max_recursive_depth g = 2%Z ->
  ((1 <= recursive_archive_depth s)%Z ->
   exists s',
     process_archive mdb g fuel i f o unpacked s = Ok tt s'
     /\ heap s' = list_update i (make_dangerous (VStr (py "Archive bomb")) f) (heap s)
     /\ outside s' = outside s
     /\ recursive_archive_depth s' = recursive_archive_depth s)
  /\ (recursive_archive_depth s = 0%Z -> 1 <= fuel -> i < List.length (heap s) ->
      match process_archive mdb g fuel i f o unpacked s with
      | Ok _ s' =>
          nth_error (heap s') i = Some f
          /\ List.length (heap s')
             = List.length (heap s) + count_files (list_files_dirs (tempdir_path f) unpacked)
          /\ recursive_archive_depth s' = 0%Z
      | Raise _ s' => nth_error (heap s') i = Some f
      | OutOfFuel => False
      end)
  /\ (exists s',
        run Sample.mimedb (Sample.groomer 2) 2 Sample.nested_zip Sample.initial = Ok tt s'
        /\ map verdict_of (heap s')
           = [ (py "outer.zip", VNone, [VStr (py "Archive")]);
               (py "inner.zip", VStr (py "dangerous"),
                [VStr (py "Archive"); VStr (py "Archive bomb")]) ]
        /\ log (outside s')
           = [ py "src/";
               py "   +- outer.zip (9f86d0): 10B, application/zip. Normal: Archive" ]
        /\ copies (outside s') = []).
Proof.
  intro M. split; [|split].
  - intro D.
    destruct (@process_archive_flags_bomb g (recursion mdb g fuel) i f o unpacked s)
      as (s' & E & H & O & _ & D'); [lia|].
    exists s'. repeat split; assumption.
  - intros D F L.
    assert (Hf : enough_fuel g fuel (recursive_archive_depth s)).
    { unfold enough_fuel. lia. }
    assert (Hlt : (recursive_archive_depth s + 1 < max_recursive_depth g)%Z) by lia.
    pose proof (@process_archive_keeps g (recursion mdb g fuel) (recursive_archive_depth s)
                  Hlt (recursion_walks mdb Hf Hlt) i f o unpacked s (conj eq_refl L)) as K.
    pose proof (@process_archive_expands_sized mdb g fuel i f o unpacked s M D F) as C.
    unfold process_archive in *.
    destruct (process_archive_with _ _ _ _ _ _ s) as [[] s'|e s'|]; [|exact K|exact K].
    destruct K as [D' N]. repeat split; [exact N|exact C|congruence].
  - eexists. split; [vm_compute; reflexivity|]. vm_compute. repeat split.
Qed.

(** The hypothesis of [archive_depth_bound] holds of the sample groomer
    with the bound at 2; the inner zip of the sample tree, met with the
    counter at 1, is flagged. *)
Lemma archive_depth_bound_witness :
  let g := Sample.groomer 2 in
  let f := checked Sample.mimedb
             (Sample.or_blank (Sample.file_of "inner.zip" "application/zip"))
             (outside Sample.initial) in
  let s := set_depth 1 (snd (allocate f Sample.initial)) in
  max_recursive_depth g = 2%Z
  /\ (1 <= recursive_archive_depth s)%Z
  /\ exists s',
       process_archive Sample.mimedb g 2 0 f ExitZero [Sample.text_file "readme.txt"] s
       = Ok tt s'
       /\ heap s' = list_update 0 (make_dangerous (VStr (py "Archive bomb")) f) (heap s)
       /\ outside s' = outside s
       /\ recursive_archive_depth s' = recursive_archive_depth s.
Proof.
  intros g f s.
  assert (M : max_recursive_depth g = 2%Z) by reflexivity.
  assert (D : (1 <= recursive_archive_depth s)%Z) by (vm_compute; discriminate).
  split; [exact M|]. split; [exact D|].
  exact (proj1 (@archive_depth_bound Sample.mimedb g 2 0 f ExitZero
                  [Sample.text_file "readme.txt"] s M) D).
Defined.

(** C1 (as stated) fails on its own scenario: with the bound at 2, the
    run over a zip holding a zip holding a text file ends with the inner
    zip marked dangerous ([Archive bomb]), with one [Archive] line in
    the log instead of two, with no object for the text file and with
    nothing copied. *)
Lemma zip_in_zip_is_flagged :
  exists s',
    run Sample.mimedb (Sample.groomer 2) 2 Sample.nested_zip Sample.initial = Ok tt s'
    /\ (exists inner,
          nth_error (heap s') 1 = Some inner
          /\ filename inner = py "inner.zip"
          /\ is_dangerous inner = true
          /\ In (VStr (py "Archive bomb")) (descriptions inner))
    /\ List.length (heap s') = 2
    /\ List.length (filter (fun line => contains line (py "Archive")) (log (outside s'))) = 1
    /\ copies (outside s') = [].
Proof.
  eexists. split; [vm_compute; reflexivity|].
  split.
  - eexists. split; [vm_compute; reflexivity|].
    vm_compute. repeat split. right. left. reflexivity.
  - vm_compute. repeat split.
Qed.

(* ================================================================== *)
(** ** Parse failures and the audit log *)
(* ================================================================== *)

Lemma libreoffice_parse_failure_raises (f : File) (w : world) :
  v_zip_infolist (seen f) = None ->
  _libreoffice f w
  = FRaise UnboundLocalError (make_dangerous (VStr (py "Invalid libreoffice file")) f) w.
Proof. intro H. unfold _libreoffice, fbind, self_get. now rewrite H. Qed.

Lemma winoffice_parse_failure_raises (f : File) (w : world) :
  v_isOleFile (seen f) = false ->
  v_OleFileIO (seen f) = None ->
  _winoffice f w
  = FRaise UnboundLocalError (make_dangerous (VStr (py "Unparsable WinOffice file")) f) w.
Proof. intros H1 H2. unfold _winoffice, fbind, self_get. now rewrite H1, H2. Qed.

(** C3: what the code does instead.  An open-document file that is not
    a zip, and a legacy office file olefile cannot parse, are marked
    dangerous, and then [UnboundLocalError] leaves [check], the file
    loop and the run: the text file that comes next in the queue is
    never processed, nothing is logged and nothing is copied. *)
Theorem parse_failure_ends_the_walk :
  (exists s',
     run Sample.mimedb (Sample.groomer 2) 2 Sample.broken_odt Sample.initial
     = Raise UnboundLocalError s'
     /\ map verdict_of (heap s')
        = [ (py "agenda.odt", VStr (py "dangerous"), [VStr (py "Invalid libreoffice file")]) ]
     /\ log (outside s') = log (outside Sample.initial)
     /\ copies (outside s') = [])
  /\ (exists s',
        run Sample.mimedb (Sample.groomer 2) 2 broken_doc Sample.initial
        = Raise UnboundLocalError s'
        /\ map verdict_of (heap s')
           = [ (py "budget.doc", VStr (py "dangerous"), [VStr (py "Unparsable WinOffice file")]) ]
        /\ log (outside s') = log (outside Sample.initial)
        /\ copies (outside s') = []).
Proof.
  split; (eexists; split; [vm_compute; reflexivity|]; vm_compute; repeat split).
Qed.

(** C4: what the code does instead.  Of the four entries of
    [mixed_tree] the run writes two lines, for the directory and for
    the text file; the empty file and the file of unknown main type,
    which are not copied, get their reasons recorded and no line.  In
    the run over the zip in a zip, the inner zip, flagged as a bomb,
    gets no line either. *)
Theorem entries_without_a_log_line :
  (exists s',
     run Sample.mimedb (Sample.groomer 2) 2 mixed_tree Sample.initial = Ok tt s'
     /\ List.length (list_files_dirs (py "/media/src") mixed_tree) = 4
     /\ map verdict_of (heap s')
        = [ (py "caffeine.pdb", VNone, [VStr (py "Unknown mimetype")]);
            (py "notes.txt", VNone, [VStr (py "Plain text file")]);
            (py "lock.pid", VNone, [VStr (py "File is an inode (empty file)")]) ]
     /\ log (outside s')
        = log (outside Sample.initial)
          ++ [ py "   +- Docs/";
               py "   |  +- notes.txt (9f86d0): 10B, text/plain. Normal: Plain text file" ])
  /\ (exists s',
        run Sample.mimedb (Sample.groomer 2) 2 Sample.nested_zip Sample.initial = Ok tt s'
        /\ List.length (heap s') = 2
        /\ log (outside s')
           = log (outside Sample.initial)
             ++ [ py "   +- outer.zip (9f86d0): 10B, application/zip. Normal: Archive" ]).
Proof.
  split; (eexists; split; [vm_compute; reflexivity|]; vm_compute; repeat split).
Qed.

(* ================================================================== *)
(** * More properties *)
(* ================================================================== *)

(** ** Cutting and joining paths *)

Lemma break_last_none (c : N) (s : pystr) :
  break_last c s = None <-> ~ In c s.
Proof.
  induction s as [|x s IH]; simpl; [tauto|].
  destruct (break_last c s) as [[a b]|].
  - split; [discriminate|]. intro H. exfalso.
    assert (N : ~ In c s) by tauto. apply IH in N. discriminate.
  - destruct (N.eqb x c) eqn:E.
    + apply N.eqb_eq in E. split; [discriminate|]. intro H. exfalso. apply H. now left.
    + apply N.eqb_neq in E. split; [|reflexivity].
      intros _ [H|H]; [congruence|]. now apply (proj1 IH).
Qed.

Lemma break_last_some (c : N) (s a b : pystr) :
  break_last c s = Some (a, b) -> s = a ++ c :: b /\ ~ In c b.
Proof.
  revert a; induction s as [|x s IH]; intros a; simpl; [discriminate|].
  destruct (break_last c s) as [[a' b']|] eqn:E.
  - intro H. injection H as <- <-. destruct (IH a' eq_refl) as [-> N]. now split.
  - destruct (N.eqb x c) eqn:X; [|discriminate].
    intro H. injection H as <- <-. apply N.eqb_eq in X. subst.
    split; [reflexivity|]. now apply break_last_none.
Qed.

Lemma break_last_app (c : N) (a b : pystr) :
  ~ In c b -> break_last c (a ++ c :: b) = Some (a, b).
Proof.
  intro N. induction a as [|x a IH]; simpl.
  - apply break_last_none in N. now rewrite N, N.eqb_refl.
  - now rewrite IH.
Qed.

Lemma basename_no_sep (p : pystr) : ~ In OsPath.sep (OsPath.basename p).
Proof.
  unfold OsPath.basename.
  destruct (break_last OsPath.sep p) as [[a b]|] eqn:E.
  - now apply break_last_some in E.
  - now apply break_last_none.
Qed.

Lemma split_snd_basename (p : pystr) : snd (OsPath.split p) = OsPath.basename p.
Proof.
  unfold OsPath.split, OsPath.basename.
  destruct (break_last OsPath.sep p) as [[a b]|]; [|reflexivity].
  now destruct (forallb _ _).
Qed.

Lemma startswith_app (d t : pystr) : startswith (d ++ t) d = true.
Proof.
  induction d as [|x d IH]; simpl; [now destruct t|]. now rewrite N.eqb_refl.
Qed.

Lemma endswith_app (t d : pystr) : endswith (t ++ d) d = true.
Proof. unfold endswith. rewrite rev_app_distr. apply startswith_app. Qed.

Lemma endswith_sep (h : pystr) :
  endswith h [OsPath.sep] = true <-> exists h', h = h' ++ [OsPath.sep].
Proof.
  unfold endswith. simpl rev. split.
  - intro H. destruct (rev h) as [|x r] eqn:E; [discriminate|].
    cbn [startswith] in H. apply andb_true_iff in H as [H _].
    apply N.eqb_eq in H. subst x.
    exists (rev r). rewrite <- (rev_involutive h), E. reflexivity.
  - intros [h' ->]. rewrite rev_app_distr. cbn [rev app startswith].
    rewrite N.eqb_refl. now destruct (rev h').
Qed.

(** The last component of [os.path.join(a, x)] is [x], for a name [x]
    without separator. *)
Lemma basename_join (a x : pystr) :
  ~ In OsPath.sep x -> OsPath.basename (OsPath.join a x) = x.
Proof.
  intro N. unfold OsPath.join.
  assert (S : startswith x [OsPath.sep] = false).
  { destruct x as [|c x]; [reflexivity|]. cbn [startswith].
    destruct (N.eqb OsPath.sep c) eqn:E; [|reflexivity].
    apply N.eqb_eq in E. exfalso. apply N. now left. }
  rewrite S. unfold OsPath.basename.
  destruct a as [|c a].
  - apply break_last_none in N. now rewrite N.
  - destruct (endswith (c :: a) [OsPath.sep]) eqn:E.
    + apply endswith_sep in E as [h' ->]. rewrite <- app_assoc. simpl.
      now rewrite break_last_app.
    + now rewrite break_last_app.
Qed.

Lemma rstrip_char_last (c x : N) (h : pystr) :
  x <> c -> rstrip_char c (h ++ [x] ++ [c]) = h ++ [x].
Proof.
  intro H. unfold rstrip_char. rewrite !rev_app_distr. simpl.
  rewrite N.eqb_refl. apply N.eqb_neq in H. rewrite H.
  simpl. now rewrite rev_involutive.
Qed.

Lemma rstrip_char_tidy (c : N) (s : pystr) :
  forallb (N.eqb c) s = false ->
  exists h' x, rstrip_char c s = h' ++ [x] /\ x <> c.
Proof.
  intro H. unfold rstrip_char.
  assert (R : forallb (N.eqb c) (rev s) = false).
  { destruct (forallb (N.eqb c) (rev s)) eqn:E; [|reflexivity].
    rewrite forallb_forall in E.
    assert (forallb (N.eqb c) s = true); [|congruence].
    apply forallb_forall. intros y Hy. apply E. now apply -> in_rev. }
  clear H. induction (rev s) as [|y r IH]; [discriminate|].
  cbn [forallb] in R. cbn -[N.eqb].
  destruct (N.eqb y c) eqn:E.
  - apply N.eqb_eq in E. subst y. rewrite N.eqb_refl in R. apply IH. exact R.
  - exists (rev r), y. split; [reflexivity|]. now apply N.eqb_neq in E.
Qed.

Lemma split_head_tidy (p : pystr) : tidy_head (fst (OsPath.split p)).
Proof.
  unfold OsPath.split.
  destruct (break_last OsPath.sep p) as [[a b]|]; [|now left].
  destruct (forallb (N.eqb OsPath.sep) (a ++ [OsPath.sep])) eqn:E; simpl.
  - right. left. split; [now destruct a|exact E].
  - right. right. now apply rstrip_char_tidy.
Qed.

(** [os.path.split] undoes [os.path.join] of a tidy head and a name
    without separator. *)
Lemma split_join (h x : pystr) :
  tidy_head h -> ~ In OsPath.sep x -> OsPath.split (OsPath.join h x) = (h, x).
Proof.
  intros T N. unfold OsPath.join.
  assert (S : startswith x [OsPath.sep] = false).
  { destruct x as [|c x]; [reflexivity|]. cbn [startswith].
    destruct (N.eqb OsPath.sep c) eqn:E; [|reflexivity].
    apply N.eqb_eq in E. exfalso. apply N. now left. }
  rewrite S. unfold OsPath.split.
  destruct T as [->|[[H A]|(h' & y & -> & Y)]].
  - apply break_last_none in N. now rewrite N.
  - destruct h as [|c h]; [contradiction|].
    assert (E : endswith (c :: h) [OsPath.sep] = true).
    { apply endswith_sep. destruct (@exists_last _ (c :: h) H) as (h' & z & Ez).
      exists h'. rewrite Ez in A |- *. rewrite forallb_app in A.
      apply andb_true_iff in A as [_ A].
      cbn [forallb] in A. rewrite andb_true_r in A. apply N.eqb_eq in A. now subst. }
    rewrite E. apply endswith_sep in E as [h' E]. rewrite E in *.
    rewrite <- app_assoc. simpl. rewrite break_last_app by exact N.
    now rewrite A.
  - assert (E : endswith (h' ++ [y]) [OsPath.sep] = false).
    { destruct (endswith (h' ++ [y]) [OsPath.sep]) eqn:E; [|reflexivity].
      apply endswith_sep in E as [h'' E]. apply app_inj_tail in E as [_ E]. congruence. }
    rewrite E. destruct (h' ++ [y]) as [|c r] eqn:R; [now destruct h'|].
    rewrite <- R. rewrite break_last_app by exact N.
    assert (F : forallb (N.eqb OsPath.sep) ((h' ++ [y]) ++ [OsPath.sep]) = false).
    { assert (Hy : N.eqb OsPath.sep y = false) by (apply N.eqb_neq; congruence).
      rewrite !forallb_app. cbn [forallb]. rewrite Hy.
      now destruct (forallb _ h'). }
    rewrite F. rewrite <- app_assoc. now rewrite rstrip_char_last.
Qed.

(** ** The names the category setters give *)

Lemma no_sep_check (l : pystr) :
  forallb (fun x => negb (N.eqb x OsPath.sep)) l = true -> ~ In OsPath.sep l.
Proof.
  intros H I. rewrite forallb_forall in H. specialize (H _ I).
  now rewrite N.eqb_refl in H.
Qed.

Lemma no_sep_app (a b : pystr) :
  ~ In OsPath.sep a -> ~ In OsPath.sep b -> ~ In OsPath.sep (a ++ b).
Proof. intros A B I. apply in_app_or in I. tauto. Qed.

Lemma split_parts (p : pystr) :
  tidy_head (fst (OsPath.split p)) /\ ~ In OsPath.sep (snd (OsPath.split p)).
Proof.
  split; [apply split_head_tidy|]. rewrite split_snd_basename. apply basename_no_sep.
Qed.

Lemma make_unknown_dangerous (f : File) : is_dangerous f = true -> make_unknown f = f.
Proof. intro H. unfold make_unknown. now rewrite H. Qed.

Lemma make_binary_dangerous (f : File) : is_dangerous f = true -> make_binary f = f.
Proof. intro H. unfold make_binary. now rewrite H. Qed.

Lemma make_dangerous_dst_path (r : pyval) (f : File) :
  is_dangerous f = false ->
  dst_path (make_dangerous r f)
  = OsPath.join (fst (OsPath.split (dst_path f)))
                (py "DANGEROUS_" ++ snd (OsPath.split (dst_path f)) ++ py "_DANGEROUS").
Proof.
  intro D. unfold make_dangerous. rewrite D. cbv zeta.
  cbn [dst_path set_property with_props].
  now destruct (OsPath.split (dst_path f)).
Qed.

Lemma make_binary_dst_path (f : File) :
  is_dangerous f = false ->
  dst_path (make_binary f)
  = OsPath.join (fst (OsPath.split (dst_path f)))
                (snd (OsPath.split (dst_path f)) ++ py ".bin").
Proof.
  intro D. unfold make_binary. rewrite D. cbv zeta.
  cbn [dst_path set_property with_props].
  now destruct (OsPath.split (dst_path f)).
Qed.

Lemma make_unknown_dst_path (f : File) :
  is_dangerous f = false -> is_binary f = false ->
  dst_path (make_unknown f)
  = OsPath.join (fst (OsPath.split (dst_path f)))
                (py "UNKNOWN_" ++ snd (OsPath.split (dst_path f))).
Proof.
  intros D B. unfold make_unknown. rewrite D, B. cbv zeta. cbn [orb].
  cbn [dst_path set_property with_props].
  now destruct (OsPath.split (dst_path f)).
Qed.

(** X1.  The destination names.  [make_dangerous] on a file not yet
    dangerous keeps the directory of the destination path and turns its
    last component [name] into [DANGEROUS_name_DANGEROUS];
    [make_binary] turns it into [name.bin] and [make_unknown], when it
    applies, into [UNKNOWN_name]. *)
Theorem renaming_convention (f : File) (reason : pyval) :
  is_dangerous f = false ->
  let dir := fst (OsPath.split (dst_path f)) in
  let name := OsPath.basename (dst_path f) in
  OsPath.split (dst_path (make_dangerous reason f))
  = (dir, py "DANGEROUS_" ++ name ++ py "_DANGEROUS")
  /\ OsPath.split (dst_path (make_binary f)) = (dir, name ++ py ".bin")
  /\ (is_binary f = false ->
      OsPath.split (dst_path (make_unknown f)) = (dir, py "UNKNOWN_" ++ name)).
Proof.
  intros D dir name. subst dir name. rewrite <- split_snd_basename.
  destruct (split_parts (dst_path f)) as [T N].
  split; [|split].
  - rewrite make_dangerous_dst_path by exact D. apply split_join; [exact T|].
    apply no_sep_app; [now apply no_sep_check|].
    apply no_sep_app; [exact N|now apply no_sep_check].
  - rewrite make_binary_dst_path by exact D. apply split_join; [exact T|].
    apply no_sep_app; [exact N|now apply no_sep_check].
  - intros B. rewrite make_unknown_dst_path by assumption.
    apply split_join; [exact T|].
    apply no_sep_app; [now apply no_sep_check|exact N].
Qed.

(** The hypothesis of [renaming_convention] holds of a fresh file. *)
Lemma renaming_convention_witness :
  let f := Sample.or_blank (Sample.file_of "setup.exe" "application/x-dosexec") in
  is_dangerous f = false
  /\ OsPath.split (dst_path (make_dangerous (VStr (py "Executable file")) f))
     = (py "/media/dst", py "DANGEROUS_setup.exe_DANGEROUS").
Proof.
  intro f. assert (D : is_dangerous f = false) by reflexivity.
  split; [exact D|].
  exact (proj1 (@renaming_convention f (VStr (py "Executable file")) D)).
Defined.

(** X2.  Dangerous is final.  Whatever calls of the three setters
    follow, a dangerous file keeps its destination path (the marks are
    put once), stays dangerous, keeps every attribute the setters do not
    own, and only gains reasons. *)
Theorem dangerous_is_final (f : File) (calls : list safety_call) :
  is_dangerous f = true ->
  dst_path (do_calls calls f) = dst_path f
  /\ is_dangerous (do_calls calls f) = true
  /\ same_file f (do_calls calls f)
  /\ incl (descriptions f) (descriptions (do_calls calls f)).
Proof.
  intro D.
  assert (R : remarked f (do_calls calls f)).
  { revert f D. induction calls as [|c calls IH]; intros f D; [now apply remarked_refl|].
    unfold do_calls. simpl. fold (do_calls calls (do_call f c)).
    assert (S : remarked f (do_call f c)).
    { destruct c; simpl.
      - now apply remarked_make_dangerous.
      - rewrite make_unknown_dangerous by exact D. now apply remarked_refl.
      - rewrite make_binary_dangerous by exact D. now apply remarked_refl. }
    eapply remarked_trans; [exact S|]. apply IH. apply S. }
  destruct R as (S & D' & P & I). auto.
Qed.

(** The hypothesis of [dangerous_is_final] holds of a file marked once. *)
Lemma dangerous_is_final_witness :
  let f := make_dangerous (VStr (py "Executable file"))
             (Sample.or_blank (Sample.file_of "setup.exe" "application/x-dosexec")) in
  is_dangerous f = true
  /\ dst_path (do_calls [call_make_binary; call_make_dangerous VNone; call_make_unknown] f)
     = dst_path f.
Proof.
  intro f. assert (D : is_dangerous f = true) by reflexivity.
  split; [exact D|].
  exact (proj1 (@dangerous_is_final f _ D)).
Defined.

(** ** [force_ext] *)

Lemma endswith_nil (s : pystr) : endswith s [] = true.
Proof. unfold endswith. simpl. now destruct (rev s). Qed.

Lemma check_leading_dot_dotted (ext : pystr) :
  ext <> [] -> startswith (_check_leading_dot ext) (py ".") = true.
Proof.
  intro H. unfold _check_leading_dot. destruct ext as [|c ext]; [contradiction|].
  destruct (startswith (c :: ext) (py ".")) eqn:E; [exact E|reflexivity].
Qed.

Lemma check_leading_dot_idempotent (ext : pystr) :
  _check_leading_dot (_check_leading_dot ext) = _check_leading_dot ext.
Proof.
  unfold _check_leading_dot at 2. destruct ext as [|c ext]; [reflexivity|].
  destruct (startswith (c :: ext) (py ".")) eqn:E; simpl negb; cbv iota.
  - reflexivity.
  - unfold _check_leading_dot at 2. rewrite E. reflexivity.
Qed.

(** X3.  [force_ext].  After the call the destination path ends with
    the extension (given its leading dot), which was appended only if
    missing; the property [extension] holds it, while the attribute
    [extension], the category and the source path are as before; and a
    second call changes nothing. *)
Theorem force_ext_appends_once (ext : pystr) (f : File) :
  let e := _check_leading_dot ext in
  let f' := force_ext ext f in
  endswith (dst_path f') e = true
  /\ (dst_path f' = dst_path f \/ dst_path f' = dst_path f ++ e)
  /\ p_extension (_file_props f') = VStr e
  /\ extension f' = extension f
  /\ category f' = category f
  /\ src_path f' = src_path f
  /\ force_ext ext f' = f'.
Proof.
  intros e f'.
  assert (P : endswith (dst_path f') e = true
              /\ (dst_path f' = dst_path f \/ dst_path f' = dst_path f ++ e)
              /\ p_extension (_file_props f') = VStr e
              /\ extension f' = extension f /\ category f' = category f
              /\ src_path f' = src_path f).
  { subst f'. unfold force_ext. fold e.
    destruct (endswith (dst_path f) e) eqn:E; simpl negb; cbv iota zeta.
    - destruct (pyval_eqb (p_extension (_file_props f)) (VStr e)) eqn:X; simpl negb; cbv iota.
      + apply pyval_eqb_str in X. repeat split; auto.
      + repeat split; auto.
    - change (p_extension (_file_props (with_dst_path ?d ?x))) with (p_extension (_file_props x)).
      destruct (pyval_eqb (p_extension (_file_props f)) (VStr e)) eqn:X; simpl negb; cbv iota.
      + apply pyval_eqb_str in X. repeat split; auto; apply endswith_app.
      + repeat split; auto; apply endswith_app. }
  destruct P as (P1 & P2 & P3 & P4 & P5 & P6).
  repeat split; try assumption.
  unfold force_ext at 1. fold e. rewrite P1. simpl negb. cbv iota zeta.
  rewrite P3. unfold pyval_eqb. now rewrite str_eqb_refl.
Qed.

(** ** The property dictionary: [set_property] and [get_property] *)

Lemma str_eqb_neq (a b : pystr) : a <> b -> str_eqb a b = false.
Proof.
  intro H. destruct (str_eqb a b) eqn:E; [|reflexivity].
  apply str_eqb_eq in E. contradiction.
Qed.

Lemma str_eqb_sym (a b : pystr) : str_eqb a b = str_eqb b a.
Proof.
  destruct (str_eqb a b) eqn:E.
  - apply str_eqb_eq in E. subst. symmetry. apply str_eqb_refl.
  - destruct (str_eqb b a) eqn:E'; [|reflexivity].
    apply str_eqb_eq in E'. subst. now rewrite str_eqb_refl in E.
Qed.

Lemma dict_get_set_same {V : Type} (k : pystr) (v : V) (d : list (pystr * V)) :
  dict_get k (dict_set k v d) = Some v.
Proof.
  induction d as [|[k' v'] d IH]; simpl.
  - now rewrite str_eqb_refl.
  - destruct (str_eqb k k') eqn:E; simpl; [now rewrite str_eqb_refl|now rewrite E].
Qed.

Lemma dict_get_set_other {V : Type} (k k' : pystr) (v : V) (d : list (pystr * V)) :
  k' <> k -> dict_get k' (dict_set k v d) = dict_get k' d.
Proof.
  intro H. induction d as [|[k0 v0] d IH]; simpl.
  - now rewrite (str_eqb_neq H).
  - destruct (str_eqb k k0) eqn:E; simpl.
    + apply str_eqb_eq in E. subst k0. now rewrite (str_eqb_neq H).
    + now rewrite IH.
Qed.

(** The keys of the property API are those [props_lookup] knows. *)
Lemma props_lookup_keys (k : pystr) (p : file_props) :
  props_lookup k p = None <-> str_mem k file_props_keys = false.
Proof.
  unfold props_lookup, str_mem, file_props_keys. cbn [existsb].
  repeat (match goal with
          | |- context [if str_eqb k ?x then _ else _] =>
              destruct (str_eqb k x);
              [cbn [orb]; split; intro X; discriminate X|cbn [orb]]
          end).
  split; intro; reflexivity.
Qed.

Lemma props_lookup_user_defined (k : pystr) (d : list (pystr * pyval)) (p : file_props) :
  props_lookup k p = None -> props_lookup k (with_user_defined d p) = None.
Proof. intro H. apply props_lookup_keys. now apply props_lookup_keys in H. Qed.

Lemma props_lookup_assign_same (k : pystr) (v : pyval) (p : file_props) :
  k <> py "description_string" -> k <> py "errors" -> k <> py "user_defined" ->
  str_mem k file_props_keys = true ->
  props_lookup k (assign_prop k v p) = Some (OVal v).
Proof.
  intros H1 H2 H3 M.
  pose proof (str_eqb_neq H1) as E1. pose proof (str_eqb_neq H2) as E2.
  pose proof (str_eqb_neq H3) as E3.
  unfold str_mem, file_props_keys in M. cbn [existsb] in M.
  rewrite E1, E2, E3 in M.
  unfold props_lookup, assign_prop. cbv zeta. cbn [p_filepath p_filename
    p_file_size p_maintype p_subtype p_extension p_safety_category p_symlink p_copied].
  rewrite E1, E2, E3.
  repeat (match goal with
          | |- context [if str_eqb k ?x then Some _ else _] =>
              destruct (str_eqb k x) eqn:E; [reflexivity|rewrite ?E in M; clear E]
          end).
  discriminate M.
Qed.

Lemma props_lookup_assign_other (k k' : pystr) (v : pyval) (p : file_props) :
  k' <> k -> props_lookup k' (assign_prop k v p) = props_lookup k' p.
Proof.
  intro H. unfold props_lookup, assign_prop. cbv zeta. cbn [p_filepath p_filename
    p_file_size p_maintype p_subtype p_extension p_safety_category p_symlink p_copied
    p_description_string p_errors p_user_defined].
  repeat (match goal with
          | |- context [if str_eqb k' ?x then Some _ else _] =>
              destruct (str_eqb k' x) eqn:E;
              [apply str_eqb_eq in E; subst k'; rewrite (str_eqb_neq (not_eq_sym H));
               reflexivity|clear E]
          end).
  reflexivity.
Qed.

Lemma props_lookup_with_user_defined (k : pystr) (d : list (pystr * pyval)) (p : file_props) :
  k <> py "user_defined" -> props_lookup k (with_user_defined d p) = props_lookup k p.
Proof.
  intro H. unfold props_lookup. cbv zeta. rewrite (str_eqb_neq H). reflexivity.
Qed.

(** X4.  [set_property] then [get_property].  For every key but
    [description_string] and the two keys that hold dictionaries, what
    was set is what is read, whether the key belongs to the property API
    or goes to the user-defined properties; reading another key (the
    dictionary of user-defined properties apart) is not affected; and a
    key that was never set reads as [None]. *)
Theorem property_round_trip (k : pystr) (v : pyval) (f : File) :
  k <> py "description_string" -> k <> py "errors" -> k <> py "user_defined" ->
  get_property k (set_property k v f) = OVal v
  /\ (forall k', k' <> k -> k' <> py "user_defined" ->
        get_property k' (set_property k v f) = get_property k' f)
  /\ (str_mem k file_props_keys = false ->
      dict_get k (p_user_defined (_file_props f)) = None ->
      get_property k f = OVal VNone).
Proof.
  intros H1 H2 H3.
  unfold get_property, set_property, props_set. cbn [_file_props with_props].
  rewrite (str_eqb_neq H1).
  destruct (str_mem k file_props_keys) eqn:M.
  - split; [|split].
    + now rewrite props_lookup_assign_same.
    + intros k' H U. now rewrite props_lookup_assign_other.
    + discriminate.
  - assert (L : forall d p, props_lookup k (with_user_defined d p) = None).
    { intros d p. now apply props_lookup_keys. }
    split; [|split].
    + rewrite L. cbn [p_user_defined with_user_defined]. now rewrite dict_get_set_same.
    + intros k' H U. rewrite props_lookup_with_user_defined by exact U.
      cbn [p_user_defined with_user_defined].
      now rewrite dict_get_set_other.
    + intros _ G.
      assert (N : props_lookup k (_file_props f) = None) by now apply props_lookup_keys.
      now rewrite N, G.
Qed.

(** The hypotheses of [property_round_trip] hold of the key [metadata],
    which the image handlers set. *)
Lemma property_round_trip_witness :
  let f := Sample.or_blank (Sample.file_of "photo.jpg" "image/jpeg") in
  get_property (py "metadata") f = OVal VNone
  /\ get_property (py "metadata") (set_property (py "metadata") (VStr (py "exif")) f)
     = OVal (VStr (py "exif"))
  /\ get_property (py "copied") (set_property (py "copied") (VBool true) f)
     = OVal (VBool true).
Proof.
  intro f.
  assert (N : forall a b : string, py a <> py b -> py a <> py b) by auto.
  split; [|split].
  - apply (@property_round_trip (py "metadata") VNone f);
      try (vm_compute; discriminate); reflexivity.
  - apply (@property_round_trip (py "metadata") (VStr (py "exif")) f);
      vm_compute; discriminate.
  - apply (@property_round_trip (py "copied") (VBool true) f);
      vm_compute; discriminate.
Defined.

(** ** Descriptions *)

Lemma pyval_eqb_refl (v : pyval) : pyval_eqb v v = true.
Proof.
  destruct v; simpl; auto using Bool.eqb_reflx, Z.eqb_refl, str_eqb_refl.
Qed.

(** X5.  Descriptions are kept without duplicates: a description (or a
    reason given to [make_dangerous]) already present is not added again,
    a list without duplicates stays so, and what was there stays in the
    same order at the front. *)
Theorem descriptions_have_no_duplicates (f : File) (d : pystr) (reason : pyval) :
  NoDup (descriptions f) ->
  NoDup (descriptions (add_description d f))
  /\ NoDup (descriptions (make_dangerous reason f))
  /\ add_description d (add_description d f) = add_description d f
  /\ (exists l, descriptions (add_description d f) = descriptions f ++ l)
  /\ (exists l, descriptions (make_dangerous reason f) = descriptions f ++ l)
  /\ In (VStr d) (descriptions (add_description d f)).
Proof.
  intro N.
  assert (A : forall v g, NoDup (descriptions g) ->
              NoDup (if existsb (pyval_eqb v) (descriptions g)
                     then descriptions g else descriptions g ++ [v])).
  { intros v g Ng. destruct (existsb _ _) eqn:E; [exact Ng|].
    apply NoDup_app; [exact Ng|repeat constructor; intros []|].
    intros x Hx [<-|[]].
    assert (existsb (pyval_eqb v) (descriptions g) = true); [|congruence].
    apply existsb_exists. exists v. split; [exact Hx|apply pyval_eqb_refl]. }
  assert (B : forall v g, exists l,
              (if existsb (pyval_eqb v) (descriptions g)
               then descriptions g else descriptions g ++ [v]) = descriptions g ++ l).
  { intros v g. destruct (existsb _ _); [exists []; now rewrite app_nil_r|now exists [v]]. }
  unfold add_description.
  rewrite make_dangerous_descriptions, !descriptions_set_description.
  split; [now apply A|]. split; [now apply A|].
  split.
  { unfold set_property at 1. unfold props_set at 1. cbn [str_eqb].
    change (str_eqb (py "description_string") (py "description_string")) with true. cbv iota.
    fold (descriptions (set_property (py "description_string") (VStr d) f)).
    rewrite descriptions_set_description.
    assert (X : existsb (pyval_eqb (VStr d))
                  (if existsb (pyval_eqb (VStr d)) (descriptions f)
                   then descriptions f else descriptions f ++ [VStr d]) = true).
    { destruct (existsb _ (descriptions f)) eqn:E; [exact E|].
      rewrite existsb_app. simpl. rewrite str_eqb_refl. now rewrite orb_true_r. }
    rewrite X. apply with_props_same. }
  split; [apply B|]. split; [apply B|].
  destruct (existsb _ _) eqn:E.
  - apply existsb_exists in E as (x & Hx & Heq). apply pyval_eqb_str_l in Heq. now subst.
  - apply in_or_app. right. now left.
Qed.

(** The hypothesis of [descriptions_have_no_duplicates] holds of a file
    that already has the description to be added. *)
Lemma descriptions_have_no_duplicates_witness :
  let f := add_description (py "Archive")
             (Sample.or_blank (Sample.file_of "a.zip" "application/zip")) in
  NoDup (descriptions f)
  /\ descriptions (add_description (py "Archive") f) = [VStr (py "Archive")]
  /\ NoDup (descriptions (make_dangerous (VStr (py "Archive bomb")) f)).
Proof.
  intro f.
  assert (N : NoDup (descriptions f)) by (repeat constructor; intros []).
  split; [exact N|]. split; [reflexivity|].
  exact (proj1 (proj2 (@descriptions_have_no_duplicates f (py "Archive")
                         (VStr (py "Archive bomb")) N))).
Defined.

(** ** The extension of a file *)








(** ** The two halves of a mimetype *)

Lemma split_on_nonempty (c : N) (s : pystr) : split_on c s <> [].
Proof. induction s as [|x s IH]; simpl; [discriminate|].
  destruct (N.eqb x c); [discriminate|]. now destruct (split_on c s).
Qed.

Lemma split_on_join (c : N) (s : pystr) : join_with [c] (split_on c s) = s.
Proof.
  induction s as [|x s IH]; [reflexivity|]. simpl split_on.
  pose proof (split_on_nonempty c s) as NE.
  destruct (N.eqb x c) eqn:E.
  - apply N.eqb_eq in E. subst x.
    destruct (split_on c s) as [|h t]; [contradiction|].
    simpl in *. now rewrite IH.
  - destruct (split_on c s) as [|h t]; [contradiction|].
    destruct t; simpl in *; now rewrite <- IH.
Qed.

Lemma split_on_parts (c : N) (s : pystr) : Forall (fun part => ~ In c part) (split_on c s).
Proof.
  induction s as [|x s IH]; simpl; [repeat constructor; intros []|].
  destruct (N.eqb x c) eqn:E.
  - constructor; [intros []|exact IH].
  - destruct (split_on c s) as [|h t]; [repeat constructor; intros [H|[]]|].
    + apply N.eqb_neq in E. congruence.
    + inversion IH as [|? ? Hh Ht]; subst. constructor; [|exact Ht].
      intros [H|H]; [apply N.eqb_neq in E; congruence|contradiction].
Qed.

Lemma split_on_length (c : N) (s : pystr) :
  List.length (split_on c s) = S (count_char c s).
Proof.
  unfold count_char. induction s as [|x s IH]; [reflexivity|]. simpl.
  rewrite (N.eqb_sym c x). destruct (N.eqb x c) eqn:E; simpl; [now rewrite IH|].
  pose proof (split_on_nonempty c s) as NE.
  destruct (split_on c s); [contradiction|exact IH].
Qed.

Lemma contains_char (c : N) (s : pystr) : contains s [c] = true <-> In c s.
Proof.
  induction s as [|x s IH]; [simpl; split; [discriminate|tauto]|].
  rewrite contains_cons_char. rewrite orb_true_iff, IH, N.eqb_eq. simpl.
  split; intros [H|H]; auto.
Qed.

Lemma count_char_none (c : N) (s : pystr) : ~ In c s -> count_char c s = 0.
Proof.
  unfold count_char. induction s as [|x s IH]; [reflexivity|]. intro H. simpl.
  destruct (N.eqb c x) eqn:E.
  - apply N.eqb_eq in E. subst. exfalso. apply H. now left.
  - apply IH. intro I. apply H. now right.
Qed.

(** What [_split_subtypes] answers, by the number of separators *)
Lemma split_subtypes_cases (m : pystr) :
  match _split_subtypes m with
  | inl e => e = ValueError /\ 2 <= count_char OsPath.sep m
  | inr (Some a, Some b) =>
      m = a ++ py "/" ++ b /\ ~ In OsPath.sep a /\ ~ In OsPath.sep b
      /\ count_char OsPath.sep m = 1
  | inr (None, None) => count_char OsPath.sep m = 0
  | inr _ => False
  end.
Proof.
  unfold _split_subtypes.
  pose proof (split_on_join OsPath.sep m) as J.
  pose proof (split_on_parts OsPath.sep m) as P.
  pose proof (split_on_length OsPath.sep m) as L.
  destruct (contains m (py "/")) eqn:C.
  - apply (contains_char OsPath.sep m) in C.
    destruct (split_on OsPath.sep m) as [|a [|b [|c t]]]; simpl in L.
    + discriminate.
    + exfalso. simpl in J. subst a. apply Forall_cons_iff in P as [Pa _]. auto.
    + apply Forall_cons_iff in P as [Pa P]. apply Forall_cons_iff in P as [Pb _].
      simpl in J. repeat split; auto; lia.
    + split; [reflexivity|lia].
  - apply count_char_none. intro I. apply (contains_char OsPath.sep m) in I.
    change [OsPath.sep] with (py "/") in I. congruence.
Qed.

Lemma truthy_some (o : option pystr) :
  truthy o = true -> exists a, o = Some a /\ a <> [].
Proof.
  destruct o as [[|c a]|]; try discriminate. intros _. now exists (c :: a).
Qed.

(** X7.  The two halves of a mimetype.  Building a [File] fails, with
    [ValueError], exactly when the sniffed mimetype has two separators or
    more.  When the object is built and [has_mimetype] holds, the
    mimetype is [main_type/sub_type], both halves are non-empty and free
    of separators, and they are the [maintype] and [subtype]
    properties. *)
Theorem mimetype_halves (src dst : pystr) (lg : GroomerLogger) (v : verdicts) :
  let sniffed := fst (_determine_mimetype v (initial_props [] [] 0)) in
  ((exists e, File_init src dst lg v = inl e)
   <-> exists m, sniffed = Some m /\ 2 <= count_char OsPath.sep m)
  /\ (forall e, File_init src dst lg v = inl e -> e = ValueError)
  /\ (forall f, File_init src dst lg v = inr f -> has_mimetype f = true ->
      exists a b,
        mimetype f = Some (a ++ py "/" ++ b) /\ a <> [] /\ b <> []
        /\ ~ In OsPath.sep a /\ ~ In OsPath.sep b
        /\ main_type f = Some a /\ sub_type f = Some b
        /\ p_maintype (_file_props f) = VStr a
        /\ p_subtype (_file_props f) = VStr b).
Proof.
  intro sniffed. unfold File_init.
  set (p0 := props_set _ _ _).
  assert (M : fst (_determine_mimetype v p0) = sniffed).
  { unfold sniffed, _determine_mimetype. destruct (v_symlink v); [reflexivity|].
    now destruct (v_magic v). }
  destruct (_determine_mimetype v p0) as [mt p]. simpl in M. subst mt.
  fold (split_of sniffed).
  assert (S : match split_of sniffed with
              | inl e => e = ValueError
                         /\ exists m, sniffed = Some m /\ 2 <= count_char OsPath.sep m
              | inr (Some a, Some b) =>
                  sniffed = Some (a ++ py "/" ++ b)
                  /\ ~ In OsPath.sep a /\ ~ In OsPath.sep b
              | inr _ => forall m, sniffed = Some m -> count_char OsPath.sep m = 0
              end).
  { destruct sniffed as [[|c m]|]; simpl.
    - intros m E. injection E as <-. reflexivity.
    - pose proof (split_subtypes_cases (c :: m)) as K.
      destruct (_split_subtypes (c :: m)) as [e|[[a|] [b|]]]; try contradiction.
      + destruct K as [-> K]. split; [reflexivity|]. now exists (c :: m).
      + destruct K as (E & Na & Nb & _). rewrite E. now repeat split.
      + intros m' E. now injection E as <-.
    - discriminate. }
  destruct (split_of sniffed) as [e|[mn sb]].
  - destruct S as [-> S]. split; [|split].
    + split; [intros _; exact S|intros _; now exists ValueError].
    + intros e E. now injection E as <-.
    + discriminate.
  - split; [|split].
    + split; [intros [e E]; discriminate E|].
      intros (m & E & K). exfalso.
      destruct mn as [a|]; [destruct sb as [b|]|].
      * destruct S as (S & Na & Nb). rewrite E in S. injection S as ->.
        assert (C : count_char OsPath.sep (a ++ py "/" ++ b) = 1).
        { unfold count_char. rewrite !filter_app, !length_app.
          fold (count_char OsPath.sep a). fold (count_char OsPath.sep b).
          rewrite (@count_char_none _ a Na), (@count_char_none _ b Nb). reflexivity. }
        change (py "/" ++ b) with (47%N :: b) in C. lia.
      * specialize (S _ E). lia.
      * specialize (S _ E). lia.
    + discriminate.
    + intros f E. injection E as <-. unfold has_mimetype. cbn [main_type sub_type].
      destruct (truthy mn) eqn:Tm; [|discriminate].
      destruct (truthy sb) eqn:Ts; [|discriminate]. intros _.
      destruct (truthy_some _ Tm) as (a & -> & Ha).
      destruct (truthy_some _ Ts) as (b & -> & Hb).
      destruct S as (S & Na & Nb).
      exists a, b. cbn [mimetype main_type sub_type _file_props].
      repeat split; auto.
Qed.

(** The hypotheses of [mimetype_halves] hold of a text file. *)
Lemma mimetype_halves_witness :
  exists f a b,
    File_init (py "/media/src/notes.txt") (py "/media/dst/notes.txt")
              Sample.the_logger (Sample.sniffed "text/plain") = inr f
    /\ has_mimetype f = true
    /\ mimetype f = Some (a ++ py "/" ++ b)
    /\ p_maintype (_file_props f) = VStr a
    /\ p_subtype (_file_props f) = VStr b.
Proof.
  destruct (File_init (py "/media/src/notes.txt") (py "/media/dst/notes.txt")
              Sample.the_logger (Sample.sniffed "text/plain")) as [e|f] eqn:I;
    [discriminate I|].
  assert (H : has_mimetype f = true) by (injection I as <-; reflexivity).
  destruct (proj2 (proj2 (mimetype_halves (py "/media/src/notes.txt")
                            (py "/media/dst/notes.txt") Sample.the_logger
                            (Sample.sniffed "text/plain"))) f I H)
    as (a & b & E & _ & _ & _ & _ & _ & _ & Pa & Pb).
  exists f, a, b. now repeat split.
Defined.

(** ** The queue of [list_files_dirs] *)

Lemma insert_by_key_permutation {A : Type} (x : pystr * A) (l : list (pystr * A)) :
  Permutation (insert_by_key x l) (x :: l).
Proof.
  induction l as [|y l IH]; simpl; [apply Permutation_refl|].
  destruct (str_leb (fst x) (fst y)); [apply Permutation_refl|].
  eapply perm_trans; [apply perm_skip, IH|apply perm_swap].
Qed.

Lemma sorted_by_key_permutation {A : Type} (l : list (pystr * A)) :
  Permutation (sorted_by_key l) l.
Proof.
  unfold sorted_by_key. induction l as [|x l IH]; simpl; [apply perm_nil|].
  eapply perm_trans; [apply insert_by_key_permutation|now apply perm_skip].
Qed.

(** Induction on a tree, with the property at hand for every child of a
    directory *)
Lemma node_induction (P : node -> Prop) :
  (forall name children, Forall P children -> P (Directory name children)) ->
  (forall name v o unpacked, P (Regular name v o unpacked)) ->
  (forall name, P (Special name)) ->
  forall n, P n.
Proof.
  intros Hd Hr Hs.
  fix IH 1. intros [name children|name v o unpacked|name].
  - apply Hd. induction children as [|c children IHc]; constructor; [apply IH|exact IHc].
  - apply Hr.
  - apply Hs.
Qed.

Lemma sorted_queues_permutation (key : node -> pystr) (q w : node -> list entry)
    (ls : list node) :
  Forall (fun c => Permutation (q c) (w c)) ls ->
  Permutation (List.concat (map snd (sorted_by_key (map (fun c => (key c, q c)) ls))))
              (flat_map w ls).
Proof.
  intro H. rewrite <- flat_map_concat_map.
  eapply perm_trans.
  { apply Permutation_flat_map. apply sorted_by_key_permutation. }
  induction H as [|c ls Hc _ IH]; simpl; [apply perm_nil|].
  now apply Permutation_app.
Qed.

Lemma queue_of_permutation (n : node) (root : pystr) :
  Permutation (queue_of root n) (walk root n).
Proof.
  revert root. induction n as [name children IH|name v o unpacked|name] using node_induction;
    intro root; simpl.
  - apply perm_skip. apply sorted_queues_permutation.
    eapply Forall_impl; [|exact IH]. intros c Hc. apply Hc.
  - apply Permutation_refl.
  - apply perm_nil.
Qed.

Lemma count_files_app (a b : list entry) :
  count_files (a ++ b) = count_files a + count_files b.
Proof. unfold count_files. now rewrite filter_app, length_app. Qed.

Lemma count_files_walk (n : node) (root : pystr) :
  count_files (walk root n) = regular_files n.
Proof.
  revert root. induction n as [name children IH|name v o unpacked|name] using node_induction;
    intro root; [|reflexivity|reflexivity].
  cbn [walk regular_files]. set (full := OsPath.join root _). clearbody full.
  change (count_files (EDir full :: ?l)) with (count_files l).
  induction IH as [|c children Hc _ IHc]; [reflexivity|].
  cbn [flat_map map list_sum]. now rewrite count_files_app, Hc, IHc.
Qed.

Lemma count_files_permutation (a b : list entry) :
  Permutation a b -> count_files a = count_files b.
Proof.
  unfold count_files.
  induction 1 as [|x a b _ IH|x y a|a b c _ IH1 _ IH2]; simpl.
  - reflexivity.
  - destruct (is_file_entry x); simpl; now rewrite IH.
  - now destruct (is_file_entry x), (is_file_entry y).
  - now rewrite IH1.
Qed.

(** X8.  [list_files_dirs] lists every directory and every regular file
    below the directory once, and nothing else: the sorting loses and
    repeats no entry, and what is neither a directory nor a file is
    left out.  In particular the queue has as many files as the tree
    has regular files. *)
Theorem list_files_dirs_lists_each_once (root : pystr) (ls : list node) :
  Permutation (list_files_dirs root ls) (flat_map (walk root) ls)
  /\ count_files (list_files_dirs root ls) = list_sum (map regular_files ls).
Proof.
  assert (P : Permutation (list_files_dirs root ls) (flat_map (walk root) ls)).
  { unfold list_files_dirs. apply sorted_queues_permutation.
    apply Forall_forall. intros c _. apply queue_of_permutation. }
  split; [exact P|].
  rewrite (count_files_permutation P). clear P.
  induction ls as [|c ls IH]; [reflexivity|].
  cbn [flat_map map list_sum]. now rewrite count_files_app, count_files_walk, IH.
Qed.

(** ** Copying *)

Lemma safe_copy_cases (src dst : option pystr) (f : File) (w : world) :
  let s := match src with None => src_path f | Some s => s end in
  let d := match dst with None => dst_path f | Some d => d end in
  exists f' w',
    safe_copy src dst f w = FOk tt f' w'
    /\ log w' = log w
    /\ incl (fs w) (fs w')
    /\ ((f' = f /\ copies w' = copies w ++ [(s, d)] /\ exists_path d w' = true
         /\ v_copy (seen f) = None)
        \/ (copies w' = copies w
            /\ exists e, f' = add_error e [] f
                         /\ (v_copy (seen f) = Some e
                             \/ (e = FileNotFoundError /\ fst (OsPath.split d) = [])))).
Proof.
  intros s d.
  assert (E : safe_copy src dst f w
              = ftry (let (dst_path, filename) := OsPath.split d in
                      makedirs_if_absent dst_path ;; shutil_copy s d)%fm
                     (fun e => self_do (add_error e [])) f w).
  { unfold safe_copy, s, d. now destruct src, dst. }
  rewrite E. clear E. clearbody s d.
  destruct (OsPath.split d) as [dir name] eqn:S. cbn [fst].
  unfold ftry, fbind, makedirs_if_absent, fbind, world_get, shutil_copy, fbind, self_get.
  assert (C : forall w1, incl (fs w) (fs w1) -> log w1 = log w -> copies w1 = copies w ->
              exists f' w',
                match
                  match v_copy (seen f) with
                  | Some e => @fraise unit e
                  | None => world_do (record_copy s d)
                  end f w1
                with
                | FOk a self' w'0 => FOk a self' w'0
                | FRaise e self' w'0 => self_do (add_error e []) self' w'0
                end = FOk tt f' w'
                /\ log w' = log w /\ incl (fs w) (fs w')
                /\ ((f' = f /\ copies w' = copies w ++ [(s, d)] /\ exists_path d w' = true
                     /\ v_copy (seen f) = None)
                    \/ (copies w' = copies w
                        /\ exists e, f' = add_error e [] f
                                     /\ (v_copy (seen f) = Some e
                                         \/ (e = FileNotFoundError /\ dir = []))))).
  { intros w1 I L K. destruct (v_copy (seen f)) as [e|] eqn:V.
    - exists (add_error e [] f), w1. split; [reflexivity|]. split; [exact L|].
      split; [exact I|]. right. split; [exact K|]. exists e. auto.
    - exists f, (record_copy s d w1). split; [reflexivity|]. split; [exact L|].
      split; [|left; repeat split].
      + intros x Hx. simpl. apply in_or_app. left. now apply I.
      + simpl. now rewrite K.
      + unfold exists_path. apply str_mem_In. simpl. apply in_or_app. right. now left. }
  destruct (exists_path dir w).
  - apply C; [apply incl_refl|reflexivity|reflexivity].
  - unfold os_makedirs, makedirs. destruct dir as [|c dir].
    + exists (add_error FileNotFoundError [] f), w. split; [reflexivity|].
      split; [reflexivity|]. split; [apply incl_refl|]. right. split; [reflexivity|].
      exists FileNotFoundError. auto.
    + apply C; [|reflexivity|reflexivity].
      intros x Hx. simpl. apply in_or_app. now left.
Qed.

(** X9.  [safe_copy] never raises.  Either the copy is made, and it is
    the one new entry of the copies, the object is as before and the
    destination exists; or the failure, of [os.makedirs] or of
    [shutil.copy], is one new entry of the errors of the file and no copy
    is recorded.  The log is not written and no path disappears. *)
Theorem safe_copy_never_raises (src dst : option pystr) (f : File) (w : world) :
  let s := match src with None => src_path f | Some s => s end in
  let d := match dst with None => dst_path f | Some d => d end in
  exists f' w',
    safe_copy src dst f w = FOk tt f' w'
    /\ log w' = log w
    /\ incl (fs w) (fs w')
    /\ ((f' = f /\ copies w' = copies w ++ [(s, d)] /\ exists_path d w' = true
         /\ v_copy (seen f) = None)
        \/ (copies w' = copies w
            /\ exists e, f' = add_error e [] f
                         /\ (v_copy (seen f) = Some e
                             \/ (e = FileNotFoundError /\ fst (OsPath.split d) = [])))).
Proof. exact (@safe_copy_cases src dst f w). Qed.

(** ** Reasoning on methods *)

Lemma ftriple_bind {A B : Type} (P : File -> world -> Prop) (m : FM A)
    (Q : A -> File -> world -> Prop) (k : A -> FM B)
    (R : B -> File -> world -> Prop) (E : pyexn -> File -> world -> Prop) :
  ftriple P m Q E -> (forall a, ftriple (Q a) (k a) R E) -> ftriple P (fbind m k) R E.
Proof.
  intros Hm Hk f w HP. unfold fbind. specialize (Hm f w HP).
  destruct (m f w) as [a f' w'|e f' w']; [now apply Hk|exact Hm].
Qed.

Lemma ftriple_weaken {A : Type} (P P' : File -> world -> Prop) (m : FM A)
    (Q Q' : A -> File -> world -> Prop) (E E' : pyexn -> File -> world -> Prop) :
  ftriple P' m Q' E' ->
  (forall f w, P f w -> P' f w) ->
  (forall a f w, Q' a f w -> Q a f w) ->
  (forall e f w, E' e f w -> E e f w) ->
  ftriple P m Q E.
Proof.
  intros H HP HQ HE f w Hf. specialize (H f w (HP f w Hf)).
  destruct (m f w); auto.
Qed.

Lemma ftriple_ret {A : Type} (P : File -> world -> Prop) (a : A)
    (Q : A -> File -> world -> Prop) (E : pyexn -> File -> world -> Prop) :
  (forall f w, P f w -> Q a f w) -> ftriple P (fret a) Q E.
Proof. intros H f w Hf. now apply H. Qed.

Lemma ftriple_raise {A : Type} (P : File -> world -> Prop) (e : pyexn)
    (Q : A -> File -> world -> Prop) (E : pyexn -> File -> world -> Prop) :
  (forall f w, P f w -> E e f w) -> ftriple P (@fraise A e) Q E.
Proof. intros H f w Hf. now apply H. Qed.

Lemma ftriple_self_do (P : File -> world -> Prop) (g : File -> File)
    (Q : unit -> File -> world -> Prop) (E : pyexn -> File -> world -> Prop) :
  (forall f w, P f w -> Q tt (g f) w) -> ftriple P (self_do g) Q E.
Proof. intros H f w Hf. now apply H. Qed.

Lemma ftriple_self_get {A : Type} (P : File -> world -> Prop) (g : File -> A)
    (Q : A -> File -> world -> Prop) (E : pyexn -> File -> world -> Prop) :
  (forall f w, P f w -> Q (g f) f w) -> ftriple P (self_get g) Q E.
Proof. intros H f w Hf. now apply H. Qed.

Lemma ftriple_world_get {A : Type} (P : File -> world -> Prop) (g : world -> A)
    (Q : A -> File -> world -> Prop) (E : pyexn -> File -> world -> Prop) :
  (forall f w, P f w -> Q (g w) f w) -> ftriple P (world_get g) Q E.
Proof. intros H f w Hf. now apply H. Qed.

Lemma ftriple_world_do (P : File -> world -> Prop) (g : world -> world)
    (Q : unit -> File -> world -> Prop) (E : pyexn -> File -> world -> Prop) :
  (forall f w, P f w -> Q tt f (g w)) -> ftriple P (world_do g) Q E.
Proof. intros H f w Hf. now apply H. Qed.

Lemma ftriple_try {A : Type} (P : File -> world -> Prop) (m : FM A)
    (handler : pyexn -> FM A) (Q : A -> File -> world -> Prop)
    (E' E : pyexn -> File -> world -> Prop) :
  ftriple P m Q E' -> (forall e, ftriple (E' e) (handler e) Q E) ->
  ftriple P (ftry m handler) Q E.
Proof.
  intros Hm Hh f w HP. unfold ftry. specialize (Hm f w HP).
  destruct (m f w) as [a f' w'|e f' w']; [exact Hm|now apply Hh].
Qed.

Lemma ftriple_ffor {A : Type} (P : File -> world -> Prop) (l : list A)
    (body : A -> FM unit) (E : pyexn -> File -> world -> Prop) :
  (forall x, ftriple P (body x) (fun _ => P) E) ->
  ftriple P (ffor l body) (fun _ => P) E.
Proof.
  intro H. induction l as [|x l IH]; simpl.
  - now apply ftriple_ret.
  - eapply ftriple_bind; [apply H|]. intros []. exact IH.
Qed.

Lemma ftriple_pre {A : Type} (P : File -> world -> Prop) (m : FM A)
    (Q : A -> File -> world -> Prop) (E : pyexn -> File -> world -> Prop) :
  (forall f w, P f w -> ftriple (fun f' w' => f' = f /\ w' = w) m Q E) -> ftriple P m Q E.
Proof. intros H f w Hf. now apply (H f w Hf f w). Qed.

(** ** What [check] keeps *)

Lemma is_dangerous_add_description (d : pystr) (f : File) :
  is_dangerous (add_description d f) = is_dangerous f.
Proof.
  unfold is_dangerous. fold (category (add_description d f)). fold (category f).
  unfold add_description. now rewrite category_set_description.
Qed.

Lemma seen_make_dangerous (r : pyval) (f : File) : seen (make_dangerous r f) = seen f.
Proof. apply (same_seen (same_file_make_dangerous r f)). Qed.

Section CheckInvariant.

Variable mdb : MimeDB.

(** [I0] holds when [check] starts, [I] between its checks, [K0] when the
    method for the main type is called, [K] between the steps of that
    method, [R] once the sidecar file has been refused, [I'] when [check]
    returns and [IE e] when it raises [e]. *)
Variables I0 I K0 K R I' : File -> world -> Prop.
Variable IE : pyexn -> File -> world -> Prop.

Hypothesis H_start : forall f w, I0 f w -> I (_check_dangerous f) w.
Hypothesis H_flag : forall r f w, I f w -> I (make_dangerous (VStr r) f) w.
Hypothesis H_strip : forall f w,
  is_dangerous f = true -> I f w ->
  I (with_dst_path (replace_char right_to_left_override [] (dst_path f)) f) w.
Hypothesis H_skip : forall f w, I f w -> is_dangerous f = true -> I' f w.
Hypothesis H_dispatch : forall f w, I f w -> is_dangerous f = false -> K0 f w.
Hypothesis H_begin : forall f w, K0 f w -> K f w.
Hypothesis H_final : forall f w, K f w -> I' f w.

(** The steps of a method that may be followed by others *)
Hypothesis H_danger : forall r f w, K f w -> K (make_dangerous (VStr r) f) w.
Hypothesis H_descr : forall d f w, K f w -> K (add_description d f) w.
Hypothesis H_error : forall e s f w, K f w -> K (add_error e s f) w.
Hypothesis H_meta : forall v f w, K f w -> K (set_property (py "metadata") (VStr v) f) w.
Hypothesis H_sidecar : forall p f w, K f w -> K (with_metadata_file_path p f) w.
Hypothesis H_reencoded : forall p f w, K f w -> K (with_src_path p (reencoded (seen f)) f) w.
Hypothesis H_makedirs : forall p f w w', K f w -> makedirs p w = inr w' -> K f w'.
Hypothesis H_write : forall p f w, K f w -> K f (write_file p w).

(** The sidecar file refused: [create_metadata_file] has returned [False] *)
Hypothesis H_refused : forall e s f w,
  K0 f w -> is_dangerous f = false ->
  exists_path (src_path f ++ py ".metadata.txt") w = true ->
  R (add_error e s f) w.
Hypothesis H_refused_error : forall e s f w, R f w -> R (add_error e s f) w.
Hypothesis H_refused_keeps : forall f w, R f w -> K f w.

(** The steps that come last, on a file that is not flagged *)
Hypothesis H_force : forall e f w, is_dangerous f = false -> K f w -> I' (force_ext e f) w.
Hypothesis H_discard : forall f w,
  is_dangerous f = false -> K f w -> I' (with_should_copy false f) w.
Hypothesis H_archive : forall f w,
  is_dangerous f = false -> K f w -> I' (with_is_recursive true (with_should_copy false f)) w.
Hypothesis H_binary : forall f w, is_dangerous f = false -> K f w -> I' (make_binary f) w.
Hypothesis H_unknown : forall f w, is_dangerous f = false -> K f w -> I' (make_unknown f) w.

(** The places where [check] raises *)
Hypothesis H_IndexError : forall f w, I f w -> filename f = [] -> IE IndexError f w.
Hypothesis H_AttributeError : forall f w,
  I f w -> has_mimetype f = true -> mimetype f = None -> IE AttributeError f w.
Hypothesis H_TypeError : forall f w,
  K f w -> is_dangerous f = false -> sub_type f = None -> IE TypeError f w.
Hypothesis H_UnboundLocalError : forall r f w,
  K f w -> is_dangerous f = false ->
  v_OleFileIO (seen f) = None \/ v_zip_infolist (seen f) = None ->
  IE UnboundLocalError (make_dangerous (VStr r) f) w.
Hypothesis H_OSError : forall p e f w,
  K f w -> makedirs p w = inl e ->
  (is_dangerous f = false /\ p = fst (OsPath.split (dst_path f))) \/ p = tempdir_path f ->
  IE e f w.
Hypothesis H_open : forall f w, R f w -> IE OSError f w.

Local Open Scope fm_scope.

Lemma check_filename_keeps : ftriple I _check_filename (fun _ => I) IE.
Proof.
  intros f w HI. unfold _check_filename, fbind, self_get, self_do, fret, fraise.
  destruct (filename f) as [|c name] eqn:N; [now apply H_IndexError|].
  destruct (contains _ _); [|exact HI].
  apply H_strip; [apply make_dangerous_is_dangerous|now apply H_flag].
Qed.

Lemma check_extension_keeps (f : File) (w : world) : I f w -> I (_check_extension mdb f) w.
Proof.
  intro HI. unfold _check_extension. destruct (_ && _)%bool; [now apply H_flag|exact HI].
Qed.

Lemma check_mimetype_keeps :
  ftriple (fun f w => I f w /\ has_mimetype f = true) (_check_mimetype mdb) (fun _ => I) IE.
Proof.
  intros f w [HI M]. unfold _check_mimetype, fbind, self_get, self_do, fret, fraise.
  destruct (mimetype f) as [mt|] eqn:E.
  - destruct (opt_dict_get (Some mt) Config.aliases) as [m|].
    + destruct (guess_all_extensions mdb m); [exact HI|].
      destruct (_ && _)%bool; [now apply H_flag|exact HI].
    + destruct (guess_all_extensions mdb mt); [exact HI|].
      destruct (_ && _)%bool; [now apply H_flag|exact HI].
  - change (opt_dict_get None Config.aliases) with (@None pystr). cbv iota.
    now apply H_AttributeError.
Qed.

Lemma ooxml_keeps (f : File) (w : world) : K f w -> K (_ooxml f) w.
Proof.
  intro HI. unfold _ooxml. destruct (v_ooxml (seen f)) as [doc|]; [|now apply H_danger].
  repeat match goal with
         | |- context [if ?b then make_dangerous _ _ else _] => destruct b
         end; repeat apply H_danger; exact HI.
Qed.

Lemma pdf_keeps (f : File) (w : world) : K f w -> K (_pdf f) w.
Proof.
  intro HI. unfold _pdf.
  match goal with
  | |- K (if negb (is_dangerous ?x) then _ else _) w =>
      assert (H : K x w); [|destruct (negb (is_dangerous x)); [now apply H_descr|exact H]]
  end.
  repeat match goal with
         | |- context [if ?b then make_dangerous _ _ else _] => destruct b
         end; repeat apply H_danger; exact HI.
Qed.

Lemma winoffice_indicators_keep (l : list (pystr * bool)) (f : File) (w : world) :
  K f w ->
  K (fold_left
       (fun f '(id, value) =>
          if (str_eqb id (py "ObjectPool") && value)%bool
          then add_description (py "WinOffice file containing an object pool") f
          else if (str_eqb id (py "flash") && value)%bool
          then make_dangerous (VStr (py "WinOffice file with embedded flash")) f
          else f) l f) w.
Proof.
  revert f. induction l as [|[id value] l IH]; intros f HI; [exact HI|].
  simpl. apply IH.
  destruct (_ && _)%bool; [now apply H_descr|].
  destruct (_ && _)%bool; [now apply H_danger|exact HI].
Qed.

Lemma winoffice_keeps : ftriple (unflagged K) _winoffice (fun _ => K) IE.
Proof.
  intros f w [HI S]. unfold _winoffice, fbind, self_get, self_do, fret, fraise.
  destruct (negb (v_isOleFile (seen f))).
  - destruct (v_OleFileIO (seen f)) as [ole|] eqn:O.
    + destruct (parsing_issues ole); [now apply H_descr, H_danger|].
      destruct (has_macro_stream ole); [now apply H_descr, H_danger|now apply H_descr].
    + apply H_UnboundLocalError; auto.
  - destruct (oid_encrypted _), (_ || _)%bool; cbv beta iota;
      apply H_descr, winoffice_indicators_keep; repeat apply H_danger; exact HI.
Qed.

Lemma libreoffice_names_keep (l : list pystr) (f : File) (w : world) :
  K f w ->
  K (fold_left
       (fun f name =>
          let fname := lower name in
          if (startswith fname (py "script") || startswith fname (py "basic")
              || startswith fname (py "object") || endswith fname (py ".bin"))%bool
          then make_dangerous (VStr (py "Libreoffice file containing executable code")) f
          else f) l f) w.
Proof.
  revert f. induction l as [|name l IH]; intros f HI; [exact HI|].
  simpl. apply IH. destruct (_ || _)%bool; [now apply H_danger|exact HI].
Qed.

Lemma libreoffice_keeps : ftriple (unflagged K) _libreoffice (fun _ => K) IE.
Proof.
  intros f w [HI S]. unfold _libreoffice, fbind, self_get, self_do, fret, fraise.
  destruct (v_zip_infolist (seen f)) as [infolist|] eqn:Z.
  - match goal with
    | |- K (if negb (is_dangerous ?x) then _ else _) w =>
        assert (H : K x w) by now apply libreoffice_names_keep
    end.
    destruct (negb _); [now apply H_descr|exact H].
  - apply H_UnboundLocalError; auto.
Qed.

Lemma text_keeps : ftriple (unflagged K) text (fun _ => I') IE.
Proof.
  intros f w [HI S]. unfold text, fbind, self_get, self_do, fret, fraise.
  destruct (sub_type f) as [st|] eqn:T; [|now apply H_TypeError].
  destruct (existsb _ Config.mimes_rtf).
  { apply H_force; [now rewrite is_dangerous_add_description|now apply H_descr]. }
  destruct (existsb _ Config.mimes_ooxml).
  { now apply H_final, ooxml_keeps, H_descr. }
  apply H_force; [now rewrite is_dangerous_add_description|now apply H_descr].
Qed.

Lemma call_app_method_keeps (m : app_method) :
  ftriple (unflagged K) (call_app_method m) (fun _ => I') IE.
Proof.
  destruct m; simpl.
  - eapply ftriple_weaken; [apply winoffice_keeps| | |]; auto.
  - intros f w [HI S]. now apply H_final, ooxml_keeps.
  - apply text_keeps.
  - eapply ftriple_weaken; [apply libreoffice_keeps| | |]; auto.
  - intros f w [HI S]. now apply H_final, pdf_keeps.
  - intros f w [HI S]. now apply H_final, H_danger.
  - intros f w [HI S]. unfold self_do, _archive.
    apply H_archive; [now rewrite is_dangerous_add_description|now apply H_descr].
  - intros f w [HI S]. unfold self_do, _binary_app.
    apply H_binary; [now rewrite is_dangerous_add_description|now apply H_descr].
Qed.

Lemma application_keeps : ftriple (unflagged K) application (fun _ => I') IE.
Proof.
  intros f w [HI S]. unfold application, fbind, self_get, fraise.
  destruct (sub_type f) as [st|] eqn:T; [|now apply H_TypeError].
  destruct (find _ app_subtype_methods) as [[k m]|].
  - now apply call_app_method_keeps.
  - unfold self_do, _unknown_app.
    apply H_unknown; [now rewrite is_dangerous_add_description|now apply H_descr].
Qed.

Lemma ready_keeps (p : pyval) (f : File) (w : world) : ready K R p f w -> K f w.
Proof. destruct p; simpl; auto. Qed.

Lemma ready_error (p : pyval) (e : pyexn) (s : pystr) (f : File) (w : world) :
  ready K R p f w -> ready K R p (add_error e s f) w.
Proof. destruct p; simpl; auto. Qed.

Lemma create_metadata_file_keeps :
  ftriple (unflagged K0) (create_metadata_file (py ".metadata.txt")) (ready K R) IE.
Proof.
  intros f w [HI S].
  unfold create_metadata_file.
  change (_check_leading_dot (py ".metadata.txt")) with (py ".metadata.txt").
  unfold fbind, self_get, world_get, self_do, fret.
  destruct (exists_path _ w) eqn:P; [now apply H_refused|].
  destruct (OsPath.split (dst_path f)) as [dir name] eqn:D.
  unfold makedirs_if_absent, fbind, world_get, fret, os_makedirs.
  destruct (exists_path dir w); [now apply H_sidecar, H_begin|].
  destruct (makedirs dir w) as [e|w'] eqn:M.
  - eapply H_OSError; [apply H_begin; exact HI|exact M|].
    left. split; [exact S|]. now rewrite D.
  - eapply H_sidecar, H_makedirs; [apply H_begin|]; eassumption.
Qed.

(** The tags are written one by one; without a path the first of them
    that is written raises. *)
Lemma write_tags_keep (P : File -> world -> Prop) (tags : list pystr)
    (keep : pystr -> bool) (p : pyval) (E : pyexn -> File -> world -> Prop) :
  (forall f w, P f w ->
     match p with
     | VStr s => P f (write_file s w)
     | _ => E OSError f w
     end) ->
  ftriple P (ffor tags (fun tag => if keep tag then write_metadata p else fret tt))
          (fun _ => P) E.
Proof.
  intro W. apply ftriple_ffor. intros tag f w HI.
  destruct (keep tag); [|exact HI].
  specialize (W f w HI). destruct p; exact W.
Qed.

Lemma metadata_exif_keeps (p : pyval) :
  ftriple (ready K R p) (_metadata_exif p) (fun _ => K) IE.
Proof.
  intros f w HI. unfold _metadata_exif.
  unfold fbind at 1 2. unfold self_get at 1 2.
  match goal with
  | |- context [ffor _ ?body] =>
      assert (F : forall tags f w, ready K R p f w ->
                match (ffor tags body ;;
                       self_do (set_property (py "metadata") (VStr (py "exif"))) ;;
                       fret (VBool true)) f w with
                | FOk _ f' w' => K f' w'
                | FRaise e f' w' => IE e f' w'
                end)
  end.
  { intros tags f1 w1 H1. unfold fbind.
    assert (W : forall f w, ready K R p f w ->
              match p with
              | VStr s => ready K R p f (write_file s w)
              | _ => IE OSError f w
              end).
    { intros f2 w2 H2. destruct p; simpl in *; auto. }
    pose proof (@write_tags_keep (ready K R p) tags
                  (fun tag => negb (str_mem tag [py "JPEGThumbnail"; py "TIFFThumbnail"]))
                  p IE W f1 w1 H1) as T.
    destruct (ffor tags _ f1 w1) as [[] f2 w2|e f2 w2]; [|exact T].
    now apply H_meta, (@ready_keeps p). }
  destruct (v_exif_first (seen f)) as [e|tags]; [|now apply F].
  unfold fbind at 1. unfold self_do at 1.
  destruct (v_exif_retry (seen f)) as [e'|tags].
  - unfold fbind, self_do, fret. now apply H_error, H_error, (@ready_keeps p).
  - now apply F, ready_error.
Qed.

Lemma metadata_png_keeps (p : pyval) :
  ftriple (ready K R p) (_metadata_png p) (fun _ => K) IE.
Proof.
  intros f w HI. unfold _metadata_png.
  unfold fbind at 1 2. unfold self_get at 1 2. unfold ftry.
  destruct (v_png_info (seen f)) as [e|tags].
  - unfold fraise, fbind, self_do, fret. now apply H_danger, H_error, (@ready_keeps p).
  - unfold fbind.
    assert (W : forall f w, ready K R p f w ->
              match p with
              | VStr s => ready K R p f (write_file s w)
              | _ => K f w
              end).
    { intros f2 w2 H2. destruct p; simpl in *; auto. }
    pose proof (@write_tags_keep (ready K R p) tags
                  (fun tag => negb (contains (py "icc_profile") tag))
                  p (fun _ => K) W f w HI) as T.
    destruct (ffor tags _ f w) as [[] f2 w2|e f2 w2].
    + unfold self_do, fret. now apply H_meta, (@ready_keeps p).
    + unfold self_do, fret. now apply H_danger, H_error.
Qed.

Lemma extract_metadata_keeps : ftriple (unflagged K0) extract_metadata (fun _ => K) IE.
Proof.
  unfold extract_metadata.
  eapply ftriple_bind; [apply create_metadata_file_keeps|]. intro p.
  intros f w HI. unfold fbind at 1. unfold self_get at 1.
  destruct (opt_dict_get (mimetype f) metadata_mimetype_methods) as [[]|].
  - unfold fbind. pose proof (@metadata_exif_keeps p f w HI) as T.
    destruct (_metadata_exif p f w); exact T.
  - unfold fbind. pose proof (@metadata_png_keeps p f w HI) as T.
    destruct (_metadata_png p f w); exact T.
  - exact (@ready_keeps p f w HI).
Qed.

Lemma make_tempdir_keeps :
  ftriple K make_tempdir (fun p f w => K f w /\ p = tempdir_path f) IE.
Proof.
  intros f w HI.
  unfold make_tempdir, fbind, self_get, makedirs_if_absent, fbind, world_get, fret,
    os_makedirs.
  destruct (exists_path _ w); [now split|].
  destruct (makedirs (tempdir_path f) w) as [e|w'] eqn:M.
  - eapply H_OSError; [exact HI|exact M|now right].
  - split; [|reflexivity]. eapply H_makedirs; eassumption.
Qed.

Lemma image_keeps : ftriple (unflagged K0) image (fun _ => I') IE.
Proof.
  unfold image.
  apply ftriple_bind with (Q := fun hm f w => unflagged K0 f w).
  { now apply ftriple_self_get. }
  intro hm.
  apply ftriple_bind with (Q := fun _ f w => K f w).
  { destruct hm; [apply extract_metadata_keeps|]. intros f w [HI _]. now apply H_begin. }
  intros [].
  eapply ftriple_bind; [apply make_tempdir_keeps|]. intro tmp.
  intros f w [HI _]. unfold fbind at 1 2 3. unfold self_get at 1 2 3.
  unfold fbind, ftry.
  destruct (v_reencode (seen f)) as [e|].
  - unfold fraise, fbind, self_do. apply H_final.
    match goal with
    | |- K (if negb (is_dangerous ?x) then _ else _) w =>
        assert (H : K x w) by now apply H_danger, H_error
    end.
    destruct (negb _); [now apply H_descr|exact H].
  - unfold fbind, world_do, self_do. apply H_final.
    match goal with
    | |- K (if negb (is_dangerous ?x) then _ else _) ?w' =>
        assert (H : K x w') by now apply H_reencoded, H_write
    end.
    destruct (negb _); [now apply H_descr|exact H].
Qed.

Lemma call_type_method_keeps (m : type_method) :
  ftriple (unflagged K0) (call_type_method m) (fun _ => I') IE.
Proof.
  assert (B : forall f w, unflagged K0 f w -> unflagged K f w).
  { intros f w [HI S]. split; [now apply H_begin|exact S]. }
  destruct m; simpl; try apply image_keeps;
    intros f w H0; pose proof (B f w H0) as H; clear H0; revert f w H.
  - apply text_keeps.
  - intros f w [HI S]. now apply H_final, H_descr, H_descr.
  - intros f w [HI S]. now apply H_final, H_descr, H_descr.
  - apply application_keeps.
  - intros f w [HI S]. unfold self_do, example.
    apply H_discard; [now rewrite is_dangerous_add_description|now apply H_descr].
  - intros f w [HI S]. now apply H_final, H_danger.
  - intros f w [HI S]. now apply H_final, H_danger.
  - intros f w [HI S]. unfold self_do, multipart.
    apply H_discard; [now rewrite is_dangerous_add_description|now apply H_descr].
  - intros f w [HI S]. unfold self_do, inode.
    destruct (is_symlink f);
      (apply H_discard; [now rewrite is_dangerous_add_description|now apply H_descr]).
  - intros f w [HI S]. unfold self_do, unknown.
    apply H_discard; [now rewrite is_dangerous_add_description|now apply H_descr].
Qed.

(** From [I0], [check] returns in [I'] or raises [e] in [IE e]. *)
Lemma check_keeps : ftriple I0 (check mdb) (fun _ => I') IE.
Proof.
  unfold check.
  apply ftriple_bind with (Q := fun _ f w => I f w).
  { apply ftriple_self_do. exact H_start. }
  intros [].
  eapply ftriple_bind; [apply check_filename_keeps|]. intros [].
  intros f w HI. unfold fbind at 1 2. unfold self_get at 1.
  assert (H1 : I (if has_extension f then _check_extension mdb f else f) w).
  { destruct (has_extension f); [now apply check_extension_keeps|exact HI]. }
  replace ((if has_extension f then self_do (_check_extension mdb) else fret tt) f w)
    with (FOk tt (if has_extension f then _check_extension mdb f else f) w)
    by now destruct (has_extension f).
  cbv iota beta.
  set (f1 := if has_extension f then _check_extension mdb f else f) in *. clearbody f1.
  unfold fbind at 1 2. unfold self_get at 1.
  assert (H2 : match (if has_mimetype f1 then _check_mimetype mdb else fret tt) f1 w with
               | FOk _ f' w' => I f' w'
               | FRaise e f' w' => IE e f' w'
               end).
  { destruct (has_mimetype f1) eqn:M; [|exact H1].
    now apply check_mimetype_keeps. }
  destruct ((if has_mimetype f1 then _check_mimetype mdb else fret tt) f1 w)
    as [[] f2 w2|e f2 w2]; [|exact H2].
  unfold fbind at 1. unfold self_get at 1.
  destruct (is_dangerous f2) eqn:D.
  { change (negb true) with false. cbv iota. now apply H_skip. }
  change (negb false) with true. cbv iota.
  unfold fbind at 1. unfold self_get at 1.
  destruct (opt_dict_get (main_type f2) mime_processing_options) as [m|];
    apply call_type_method_keeps; (split; [now apply H_dispatch|exact D]).
Qed.

End CheckInvariant.

Section FileInvariant.

Variable mdb : MimeDB.
Variable J : File -> Prop.

Hypothesis J_danger : forall r f, J f -> J (make_dangerous (VStr r) f).
Hypothesis J_descr : forall d f, J f -> J (add_description d f).
Hypothesis J_error : forall e s f, J f -> J (add_error e s f).
Hypothesis J_meta : forall v f, J f -> J (set_property (py "metadata") (VStr v) f).
Hypothesis J_strip : forall f,
  is_dangerous f = true -> J f ->
  J (with_dst_path (replace_char right_to_left_override [] (dst_path f)) f).
Hypothesis J_sidecar : forall p f, J f -> J (with_metadata_file_path p f).
Hypothesis J_reencoded : forall p f, J f -> J (with_src_path p (reencoded (seen f)) f).
Hypothesis J_force : forall e f, is_dangerous f = false -> J f -> J (force_ext e f).
Hypothesis J_discard : forall f, is_dangerous f = false -> J f -> J (with_should_copy false f).
Hypothesis J_recursive : forall f, is_dangerous f = false -> J f -> J (with_is_recursive true f).
Hypothesis J_binary : forall f, is_dangerous f = false -> J f -> J (make_binary f).
Hypothesis J_unknown : forall f, is_dangerous f = false -> J f -> J (make_unknown f).

Lemma check_dangerous_keeps_on_file (f : File) : J f -> J (_check_dangerous f).
Proof.
  intro H. unfold _check_dangerous.
  repeat match goal with
         | |- context [if ?b then make_dangerous _ _ else _] => destruct b
         end; repeat apply J_danger; exact H.
Qed.

(** A property of the object that every step of [check] keeps holds
    when [check] is over, however it ends. *)
Lemma check_keeps_on_file (f : File) (w : world) : J f -> J (checked mdb f w).
Proof.
  intro H. unfold checked.
  pose proof (@check_keeps mdb (fun f _ => J f) (fun f _ => J f) (fun f _ => J f)
                (fun f _ => J f) (fun f _ => J f) (fun f _ => J f)
                (fun _ f _ => J f)) as C.
  assert (R : ftriple (fun f _ => J f) (check mdb) (fun _ f _ => J f) (fun _ f _ => J f)).
  { apply C; clear C; intros; auto using check_dangerous_keeps_on_file. }
  specialize (R f w H). now destruct (check mdb f w).
Qed.

End FileInvariant.

(** ** The marks of a dangerous file *)

Lemma startswith_iff (s p : pystr) : startswith s p = true <-> exists t, s = p ++ t.
Proof.
  revert s. induction p as [|x p IH]; intro s.
  - split; [intros _; now exists s|intros _; now destruct s].
  - destruct s as [|y s]; simpl.
    + split; [discriminate|intros [t E]; discriminate E].
    + rewrite andb_true_iff, N.eqb_eq, IH. split.
      * intros [-> [t ->]]. now exists t.
      * intros [t E]. injection E as -> ->. split; [reflexivity|now exists t].
Qed.

Lemma endswith_iff (s p : pystr) : endswith s p = true <-> exists t, s = t ++ p.
Proof.
  unfold endswith. rewrite startswith_iff. split.
  - intros [t E]. exists (rev t).
    rewrite <- (rev_involutive s), E, rev_app_distr, rev_involutive. reflexivity.
  - intros [t ->]. exists (rev t). apply rev_app_distr.
Qed.

Lemma replace_char_app (c : N) (new a b : pystr) :
  replace_char c new (a ++ b) = replace_char c new a ++ replace_char c new b.
Proof. unfold replace_char. apply flat_map_app. Qed.

Lemma replace_char_in (c x : N) (s : pystr) :
  In x (replace_char c [] s) -> In x s.
Proof.
  unfold replace_char. intro H. apply in_flat_map in H as (y & Hy & H).
  destruct (N.eqb y c); [destruct H|]. destruct H as [<-|[]]. exact Hy.
Qed.

Lemma basename_replace_char (c : N) (p : pystr) :
  c <> OsPath.sep ->
  OsPath.basename (replace_char c [] p) = replace_char c [] (OsPath.basename p).
Proof.
  intro N. unfold OsPath.basename.
  destruct (break_last OsPath.sep p) as [[a b]|] eqn:E.
  - apply break_last_some in E as [-> Nb].
    rewrite replace_char_app.
    assert (S : replace_char c [] (OsPath.sep :: b) = OsPath.sep :: replace_char c [] b).
    { unfold replace_char. cbn [flat_map].
      assert (X : N.eqb OsPath.sep c = false) by (apply N.eqb_neq; congruence).
      now rewrite X. }
    rewrite S, break_last_app; [reflexivity|].
    intro H. apply Nb. now apply replace_char_in in H.
  - apply break_last_none in E.
    assert (R : break_last OsPath.sep (replace_char c [] p) = None).
    { apply break_last_none. intro H. apply E. now apply replace_char_in in H. }
    now rewrite R.
Qed.

Lemma marked_dangerous_strip (p : pystr) :
  marked_dangerous p = true ->
  marked_dangerous (replace_char right_to_left_override [] p) = true.
Proof.
  unfold marked_dangerous. intro H. apply andb_true_iff in H as [S E].
  rewrite basename_replace_char by discriminate.
  apply startswith_iff in S as [t S]. apply endswith_iff in E as [u E].
  apply andb_true_iff. split.
  - rewrite S, replace_char_app. apply startswith_iff. eexists. reflexivity.
  - rewrite E, replace_char_app. apply endswith_iff. eexists. reflexivity.
Qed.

Lemma make_dangerous_marks (r : pyval) (f : File) :
  is_dangerous f = false -> marked_dangerous (dst_path (make_dangerous r f)) = true.
Proof.
  intro D. rewrite make_dangerous_dst_path by exact D. unfold marked_dangerous.
  destruct (split_parts (dst_path f)) as [_ N].
  rewrite basename_join.
  - apply andb_true_iff. split; [apply startswith_app|].
    rewrite app_assoc. apply endswith_app.
  - apply no_sep_app; [now apply no_sep_check|].
    apply no_sep_app; [exact N|now apply no_sep_check].
Qed.

Lemma is_dangerous_force_ext (e : pystr) (f : File) :
  is_dangerous (force_ext e f) = is_dangerous f.
Proof.
  unfold force_ext. cbv zeta.
  destruct (negb (pyval_eqb _ _)); now destruct (negb (endswith _ _)).
Qed.

Lemma make_binary_not_dangerous (f : File) :
  is_dangerous f = false -> is_dangerous (make_binary f) = false.
Proof.
  intro D. unfold is_dangerous. fold (category (make_binary f)).
  now rewrite make_binary_category, D.
Qed.

Lemma make_unknown_not_dangerous (f : File) :
  is_dangerous f = false -> is_dangerous (make_unknown f) = false.
Proof.
  intro D. unfold is_dangerous. fold (category (make_unknown f)).
  rewrite make_unknown_category, D. now destruct (is_binary f).
Qed.

Lemma checked_carries_the_marks (mdb : MimeDB) (f : File) (w : world) :
  (is_dangerous f = true -> marked_dangerous (dst_path f) = true) ->
  is_dangerous (checked mdb f w) = true ->
  marked_dangerous (dst_path (checked mdb f w)) = true.
Proof.
  apply (@check_keeps_on_file mdb
           (fun f => is_dangerous f = true -> marked_dangerous (dst_path f) = true));
    clear f w.
  - intros r f H _. destruct (is_dangerous f) eqn:D.
    + rewrite make_dangerous_again_dst_path by exact D. now apply H.
    + now apply make_dangerous_marks.
  - intros d f H. rewrite is_dangerous_add_description. exact H.
  - intros e s f H. exact H.
  - intros v f H. exact H.
  - intros f D H _. apply marked_dangerous_strip. now apply H.
  - intros p f H. exact H.
  - intros p f H. exact H.
  - intros e f D _ D'. exfalso. rewrite is_dangerous_force_ext in D'. congruence.
  - intros f D _ D'. exfalso. unfold is_dangerous in *. simpl in D'. congruence.
  - intros f D _ D'. exfalso. unfold is_dangerous in *. simpl in D'. congruence.
  - intros f D _ D'. rewrite make_binary_not_dangerous in D' by exact D. discriminate D'.
  - intros f D _ D'. rewrite make_unknown_not_dangerous in D' by exact D. discriminate D'.
Qed.

(** X10.  The marks of a dangerous file.  When [check] is over,
    however it ends, a file it has flagged has a destination name of
    the form [DANGEROUS_..._DANGEROUS]: no later step of [check], not
    the removal of the right-to-left override either, takes the marks
    away or renames a flagged file. *)
Theorem flagged_files_carry_the_marks (mdb : MimeDB) (f : File) (w : world) :
  (is_dangerous f = true -> marked_dangerous (dst_path f) = true) ->
  is_dangerous (checked mdb f w) = true ->
  marked_dangerous (dst_path (checked mdb f w)) = true.
Proof. exact (@checked_carries_the_marks mdb f w). Qed.

(** The hypotheses of [flagged_files_carry_the_marks] hold of a fresh
    executable, which [check] flags. *)
Lemma flagged_files_carry_the_marks_witness :
  let f := Sample.or_blank (Sample.file_of "setup.exe" "application/x-dosexec") in
  is_dangerous (checked Sample.mimedb f (outside Sample.initial)) = true
  /\ marked_dangerous (dst_path (checked Sample.mimedb f (outside Sample.initial))) = true.
Proof.
  intro f.
  assert (D : is_dangerous (checked Sample.mimedb f (outside Sample.initial)) = true)
    by (vm_compute; reflexivity).
  split; [exact D|].
  apply (@flagged_files_carry_the_marks Sample.mimedb f (outside Sample.initial));
    [intro H; vm_compute in H; discriminate H|exact D].
Defined.

(** ** What [check] adds to an object *)

Lemma only_adds_refl (f : File) : only_adds f f.
Proof.
  constructor; try reflexivity; exists []; rewrite app_nil_r; [split|]; auto.
Qed.

Lemma only_adds_trans (f1 f2 f3 : File) :
  only_adds f1 f2 -> only_adds f2 f3 -> only_adds f1 f3.
Proof.
  intros [] []. constructor; try congruence.
  - destruct adds_descriptions0 as (l & E & F), adds_descriptions1 as (l' & E' & F').
    exists (l ++ l'). split; [now rewrite E', E, app_assoc|now apply Forall_app].
  - destruct adds_errors0 as (l & E), adds_errors1 as (l' & E').
    exists (l ++ l'). now rewrite E', E, app_assoc.
Qed.

Lemma only_adds_same_props (f f' : File) :
  _file_props f' = _file_props f ->
  filename f' = filename f -> extension f' = extension f -> mimetype f' = mimetype f ->
  main_type f' = main_type f -> sub_type f' = sub_type f -> logger f' = logger f ->
  tempdir_path f' = tempdir_path f ->
  only_adds f f'.
Proof.
  intros P. intros.
  constructor; try assumption; unfold descriptions; rewrite P; try reflexivity;
    exists []; rewrite app_nil_r; [split|]; auto.
Qed.

Lemma only_adds_set_description (s : pystr) (f : File) :
  only_adds f (set_property (py "description_string") (VStr s) f).
Proof.
  pose proof (descriptions_set_description (VStr s) f) as D.
  constructor; try reflexivity;
    try (unfold set_property, props_set; simpl; now destruct (existsb _ _)).
  - rewrite D. destruct (existsb _ _).
    + exists []. rewrite app_nil_r. now split.
    + exists [VStr s]. split; [reflexivity|]. repeat constructor. now exists s.
  - exists []. rewrite app_nil_r.
    unfold set_property, props_set. simpl. now destruct (existsb _ _).
Qed.

Lemma only_adds_set_category (c : pyval) (f : File) :
  only_adds f (set_property (py "safety_category") c f).
Proof.
  constructor; try reflexivity; exists []; rewrite app_nil_r; [split|]; auto.
Qed.

Lemma only_adds_set_extension (c : pyval) (f : File) :
  only_adds f (set_property (py "extension") c f).
Proof.
  constructor; try reflexivity; exists []; rewrite app_nil_r; [split|]; auto.
Qed.

Lemma only_adds_set_metadata (c : pyval) (f : File) :
  only_adds f (set_property (py "metadata") c f).
Proof.
  constructor; try reflexivity; exists []; rewrite app_nil_r; [split|]; auto.
Qed.

Lemma only_adds_with_dst_path (d : pystr) (f : File) : only_adds f (with_dst_path d f).
Proof. now apply only_adds_same_props. Qed.

Lemma only_adds_make_dangerous (r : pystr) (f : File) :
  only_adds f (make_dangerous (VStr r) f).
Proof.
  unfold make_dangerous. destruct (is_dangerous f); [apply only_adds_set_description|].
  cbv zeta. destruct (OsPath.split _) as [path name].
  eapply only_adds_trans; [apply only_adds_set_category|].
  eapply only_adds_trans; [apply only_adds_set_description|].
  apply only_adds_with_dst_path.
Qed.

Lemma only_adds_make_binary (f : File) : only_adds f (make_binary f).
Proof.
  unfold make_binary. destruct (is_dangerous f); [apply only_adds_refl|].
  cbv zeta. destruct (OsPath.split _) as [path name].
  eapply only_adds_trans; [apply only_adds_set_category|].
  apply only_adds_with_dst_path.
Qed.

Lemma only_adds_make_unknown (f : File) : only_adds f (make_unknown f).
Proof.
  unfold make_unknown. destruct (_ || _)%bool; [apply only_adds_refl|].
  cbv zeta. destruct (OsPath.split _) as [path name].
  eapply only_adds_trans; [apply only_adds_set_category|].
  apply only_adds_with_dst_path.
Qed.

Lemma only_adds_force_ext (e : pystr) (f : File) : only_adds f (force_ext e f).
Proof.
  unfold force_ext. cbv zeta.
  match goal with
  | |- only_adds f (if _ then set_property _ _ ?x else _) =>
      assert (H : only_adds f x)
  end.
  { destruct (negb (endswith _ _)); [apply only_adds_with_dst_path|apply only_adds_refl]. }
  destruct (negb (pyval_eqb _ _)); [|exact H].
  eapply only_adds_trans; [exact H|apply only_adds_set_extension].
Qed.

Lemma only_adds_add_error (e : pyexn) (s : pystr) (f : File) : only_adds f (add_error e s f).
Proof.
  constructor; try reflexivity.
  - exists []. rewrite app_nil_r. now split.
  - now exists [(e, s)].
Qed.

Lemma checked_only_adds (mdb : MimeDB) (f : File) (w : world) :
  only_adds f (checked mdb f w).
Proof.
  apply (@check_keeps_on_file mdb (only_adds f)); [..|apply only_adds_refl];
    intros; (eapply only_adds_trans; [eassumption|]).
  - apply only_adds_make_dangerous.
  - apply only_adds_set_description.
  - apply only_adds_add_error.
  - apply only_adds_set_metadata.
  - apply only_adds_with_dst_path.
  - now apply only_adds_same_props.
  - now apply only_adds_same_props.
  - apply only_adds_force_ext.
  - now apply only_adds_same_props.
  - now apply only_adds_same_props.
  - apply only_adds_make_binary.
  - apply only_adds_make_unknown.
Qed.

(** X11.  What [check] adds.  However [check] ends, it has left the
    name, the extension, the mimetype and its halves, the logger, the
    scratch directory and the properties set at construction as they
    were, has kept every description and every error of the file in
    place, and has added only strings to the descriptions. *)
Theorem check_only_adds (mdb : MimeDB) (f : File) (w : world) :
  only_adds f (checked mdb f w).
Proof. apply checked_only_adds. Qed.

(** ** What [check] does outside *)

Lemma only_new_paths_refl (w : world) : only_new_paths w w.
Proof. repeat split. apply incl_refl. Qed.

Lemma only_new_paths_set_fs (w0 w : world) (l : list pystr) :
  only_new_paths w0 w -> only_new_paths w0 (set_fs (fs w ++ l) w).
Proof.
  intros (L & C & F). repeat split; [exact L|exact C|].
  simpl. now apply incl_appl.
Qed.

Lemma check_world (mdb : MimeDB) (f : File) (w : world) :
  only_new_paths w (world_after (check mdb f w)).
Proof.
  pose proof (@check_keeps mdb
                (fun _ w' => only_new_paths w w') (fun _ w' => only_new_paths w w')
                (fun _ w' => only_new_paths w w') (fun _ w' => only_new_paths w w')
                (fun _ w' => only_new_paths w w') (fun _ w' => only_new_paths w w')
                (fun _ _ w' => only_new_paths w w')) as C.
  assert (R : ftriple (fun _ w' => only_new_paths w w') (check mdb)
                      (fun _ _ w' => only_new_paths w w')
                      (fun _ _ w' => only_new_paths w w')).
  { apply C; clear C; intros; auto.
    - match goal with
      | M : makedirs ?p ?w1 = inr ?w2 |- _ =>
          unfold makedirs in M; destruct p; [discriminate M|injection M as <-]
      end.
      now apply only_new_paths_set_fs.
    - now apply only_new_paths_set_fs. }
  specialize (R f w (only_new_paths_refl w)).
  now destruct (check mdb f w).
Qed.

(** X12.  What [check] does outside.  However [check] ends, it has
    written no line to the log, has made no copy and has removed no
    path: it only creates directories and files. *)
Theorem check_only_creates_paths (mdb : MimeDB) (f : File) (w : world) :
  only_new_paths w (world_after (check mdb f w)).
Proof. exact (@check_world mdb f w). Qed.

(** ** Where [check] raises *)



Lemma is_dangerous_add_error (e : pyexn) (s : pystr) (f : File) :
  is_dangerous (add_error e s f) = is_dangerous f.
Proof. reflexivity. Qed.




(** ** Flagged files are neither discarded nor unpacked *)

(** X14.  A file [check] flags is not discarded and not unpacked.
    However [check] ends, a file that is dangerous by then has the
    [should_copy] and [is_recursive] it came with: the methods that
    discard a file or declare it an archive never flag it, and the ones
    that flag it leave both attributes alone. *)
Theorem flagged_files_are_not_discarded (mdb : MimeDB) (f : File) (w : world) :
  is_dangerous (checked mdb f w) = true ->
  should_copy (checked mdb f w) = should_copy f
  /\ is_recursive (checked mdb f w) = is_recursive f.
Proof.
  set (I := fun (f1 : File) (_ : world) =>
         should_copy f1 = should_copy f /\ is_recursive f1 = is_recursive f).
  set (I' := fun (f1 : File) (_ : world) => is_dangerous f1 = true -> I f1 w).
  assert (R : ftriple I (check mdb) (fun _ => I') (fun _ => I')).
  { assert (flag : forall r f1 w1, I f1 w1 -> I (make_dangerous (VStr r) f1) w1).
    { intros r f1 w1 [S C]. pose proof (same_file_make_dangerous (VStr r) f1) as M.
      split; [now rewrite (same_should_copy M)|now rewrite (same_is_recursive M)]. }
    assert (descr : forall d f1 w1, I f1 w1 -> I (add_description d f1) w1).
    { intros d f1 w1 [S C].
      pose proof (same_file_set_description (VStr d) f1) as M.
      unfold add_description.
      split; [now rewrite (same_should_copy M)|now rewrite (same_is_recursive M)]. }
    apply (@check_keeps mdb I I I I I I' (fun _ => I')); unfold I'; auto.
    - intros f1 w1 H. unfold _check_dangerous.
      repeat match goal with
             | |- context [if ?b then make_dangerous _ _ else _] => destruct b
             end; repeat apply flag; exact H.
    - intros e f1 w1 D _ D'. rewrite is_dangerous_force_ext in D'. congruence.
    - intros f1 w1 D _ D'. change (is_dangerous f1 = true) in D'. congruence.
    - intros f1 w1 D _ D'. change (is_dangerous f1 = true) in D'. congruence.
    - intros f1 w1 D _ D'. rewrite make_binary_not_dangerous in D' by exact D.
      discriminate D'.
    - intros f1 w1 D _ D'. rewrite make_unknown_not_dangerous in D' by exact D.
      discriminate D'. }
  intro D. unfold checked in *. 
  assert (S : I f w) by now split.
  specialize (R f w S). destruct (check mdb f w); now apply R.
Qed.

(** The hypothesis of [flagged_files_are_not_discarded] holds of a fresh
    executable, which [check] flags. *)
Lemma flagged_files_are_not_discarded_witness :
  let f := Sample.or_blank (Sample.file_of "setup.exe" "application/x-dosexec") in
  is_dangerous (checked Sample.mimedb f (outside Sample.initial)) = true
  /\ should_copy (checked Sample.mimedb f (outside Sample.initial)) = should_copy f.
Proof.
  intro f.
  assert (D : is_dangerous (checked Sample.mimedb f (outside Sample.initial)) = true)
    by (vm_compute; reflexivity).
  split; [exact D|].
  exact (proj1 (@flagged_files_are_not_discarded Sample.mimedb f (outside Sample.initial) D)).
Defined.

(** ** Files flagged by [_check_dangerous] *)

Lemma incl_make_dangerous (r : pyval) (f : File) :
  incl (descriptions f) (descriptions (make_dangerous r f)).
Proof.
  rewrite make_dangerous_descriptions.
  destruct (existsb _ _); [apply incl_refl|apply incl_appl, incl_refl].
Qed.

Lemma extension_make_dangerous (r : pyval) (f : File) :
  extension (make_dangerous r f) = extension f.
Proof. apply (same_extension (same_file_make_dangerous r f)). Qed.

Lemma check_dangerous_reasons (f : File) :
  incl (map VStr (reasons_at_once f)) (descriptions (_check_dangerous f))
  /\ (reasons_at_once f <> [] -> is_dangerous (_check_dangerous f) = true).
Proof.
  unfold _check_dangerous, reasons_at_once. cbv zeta.
  set (f1 := if negb (has_mimetype f) then make_dangerous _ f else f).
  set (f2 := if negb (has_extension f1) then make_dangerous _ f1 else f1).
  assert (E1 : extension f1 = extension f).
  { unfold f1. destruct (negb (has_mimetype f));
      [apply extension_make_dangerous|reflexivity]. }
  assert (E2 : extension f2 = extension f).
  { unfold f2. destruct (negb (has_extension f1));
      [now rewrite extension_make_dangerous|exact E1]. }
  assert (H1 : has_extension f1 = has_extension f) by (unfold has_extension; now rewrite E1).
  rewrite E2. fold f2.
  assert (I12 : incl (descriptions f1) (descriptions f2)).
  { unfold f2. destruct (negb (has_extension f1));
      [apply incl_make_dangerous|apply incl_refl]. }
  assert (D12 : is_dangerous f1 = true -> is_dangerous f2 = true).
  { unfold f2. destruct (negb (has_extension f1));
      [intros _; apply make_dangerous_is_dangerous|auto]. }
  set (f3 := if opt_mem (extension f) Config.malicious_exts then make_dangerous _ f2 else f2).
  assert (I23 : incl (descriptions f2) (descriptions f3)).
  { unfold f3. destruct (opt_mem (extension f) Config.malicious_exts);
      [apply incl_make_dangerous|apply incl_refl]. }
  assert (D23 : is_dangerous f2 = true -> is_dangerous f3 = true).
  { unfold f3. destruct (opt_mem (extension f) Config.malicious_exts);
      [intros _; apply make_dangerous_is_dangerous|auto]. }
  assert (R1 : has_mimetype f = false ->
               In (VStr (py "File has no mimetype")) (descriptions f1)
               /\ is_dangerous f1 = true).
  { intro M. unfold f1. rewrite M.
    split; [apply make_dangerous_records|apply make_dangerous_is_dangerous]. }
  assert (R2 : has_extension f = false ->
               In (VStr (py "File has no extension")) (descriptions f2)
               /\ is_dangerous f2 = true).
  { intro M. unfold f2. rewrite H1, M.
    split; [apply make_dangerous_records|apply make_dangerous_is_dangerous]. }
  assert (R3 : opt_mem (extension f) Config.malicious_exts = true ->
               In (VStr (py "Extension identifies file as potentially dangerous"))
                  (descriptions f3)
               /\ is_dangerous f3 = true).
  { intro M. unfold f3. rewrite M.
    split; [apply make_dangerous_records|apply make_dangerous_is_dangerous]. }
  destruct (has_mimetype f), (has_extension f), (opt_mem (extension f) Config.malicious_exts);
    simpl; (split; [|try (intro X; now contradiction X); intros _]);
    repeat match goal with
           | H : ?a = ?a -> _ |- _ => specialize (H eq_refl); destruct H
           | |- incl [] _ => intros x []
           | |- incl (_ :: _) _ => apply incl_cons
           end; auto.
Qed.

(** X15.  Files flagged at once.  A file without mimetype, without
    extension or with an extension of the malicious list is dangerous
    when [check] is over, with each reason that applies among its
    descriptions; no method for its type has run: the world is as it
    was, and so are the source path, the attributes [should_copy] and
    [is_recursive], what the libraries answer and the errors. *)
Theorem files_flagged_at_once_skip_the_methods (mdb : MimeDB) (f : File) (w : world) :
  reasons_at_once f <> [] ->
  is_dangerous (checked mdb f w) = true
  /\ world_after (check mdb f w) = w
  /\ same_file f (checked mdb f w)
  /\ incl (map VStr (reasons_at_once f)) (descriptions (checked mdb f w)).
Proof.
  intro N. destruct (check_dangerous_reasons f) as [RI RD]. specialize (RD N).
  set (I := fun (f1 : File) (w1 : world) =>
         is_dangerous f1 = true /\ w1 = w /\ same_file f f1
         /\ incl (map VStr (reasons_at_once f)) (descriptions f1)).
  assert (R : ftriple (fun f1 w1 => f1 = f /\ w1 = w) (check mdb)
                      (fun _ => I) (fun _ => I)).
  { apply (@check_keeps mdb (fun f1 w1 => f1 = f /\ w1 = w) I (fun _ _ => False)
             (fun _ _ => False) (fun _ _ => False) I (fun _ => I));
      unfold I; try (intros; tauto).
    - intros f1 w1 [-> ->].
      split; [exact RD|split; [reflexivity|split; [apply same_file_check_dangerous|exact RI]]].
    - intros r f1 w1 (D & W & S & L).
      destruct (@remarked_make_dangerous (VStr r) f1 D) as (S' & D' & _ & L').
      split; [exact D'|split; [exact W|split]].
      + eapply same_file_trans; eassumption.
      + eapply incl_tran; eassumption.
    - intros f1 w1 _ (D & W & S & L).
      split; [exact D|split; [exact W|split; [|exact L]]].
      destruct S. now constructor.
    - intros f1 w1 (D & _) D'. congruence. }
  specialize (R f w (conj eq_refl eq_refl)). unfold checked.
  destruct (check mdb f w); exact R.
Qed.

(** The hypothesis of [files_flagged_at_once_skip_the_methods] holds of
    a file for which libmagic answers [data]. *)
Lemma files_flagged_at_once_skip_the_methods_witness :
  let f := Sample.or_blank (Sample.file_of "core.dump" "data") in
  reasons_at_once f <> []
  /\ is_dangerous (checked Sample.mimedb f (outside Sample.initial)) = true
  /\ world_after (check Sample.mimedb f (outside Sample.initial)) = outside Sample.initial.
Proof.
  intro f.
  assert (N : reasons_at_once f <> []) by (vm_compute; discriminate).
  split; [exact N|].
  destruct (@files_flagged_at_once_skip_the_methods Sample.mimedb f (outside Sample.initial) N)
    as (D & W & _).
  now split.
Defined.

(** ** The log line of a checked file *)

Lemma join_values_strings (l : list pyval) :
  Forall is_string l -> exists items, join_values l = inr items.
Proof.
  induction 1 as [|v l [s ->] _ [items IH]]; simpl.
  - now exists [].
  - rewrite IH. now exists (s :: items).
Qed.

Lemma check_keeps_category_a_string (mdb : MimeDB) (f : File) (w : world) :
  (category f = VNone \/ exists s, category f = VStr s) ->
  category (checked mdb f w) = VNone \/ exists s, category (checked mdb f w) = VStr s.
Proof.
  apply (@check_keeps_on_file mdb
           (fun f => category f = VNone \/ exists s, category f = VStr s)); clear f w.
  - intros r f _. right. rewrite make_dangerous_category. now eexists.
  - intros d f H. unfold add_description. now rewrite category_set_description.
  - intros e s f H. exact H.
  - intros v f H. exact H.
  - intros f _ H. exact H.
  - intros p f H. exact H.
  - intros p f H. exact H.
  - intros e f _ H. unfold force_ext. cbv zeta.
    destruct (negb (pyval_eqb _ _)); now destruct (negb (endswith _ _)).
  - intros f _ H. exact H.
  - intros f _ H. exact H.
  - intros f _ H. rewrite make_binary_category.
    destruct (is_dangerous f); [exact H|right; now eexists].
  - intros f _ H. rewrite make_unknown_category.
    destruct (_ || _)%bool; [exact H|right; now eexists].
Qed.

(** X16.  The log line of a checked file.  For an object built by
    [File] and handed to [check], however [check] ended, [write_log]
    appends exactly one line to the log and changes nothing else when
    one of the two roots occurs in the source path, and raises
    [UnboundLocalError], leaving the world as it is, when none does: the
    descriptions are strings and the category is [None] or a string,
    so that the line can always be composed. *)
Theorem write_log_after_check
    (mdb : MimeDB) (src dst : pystr) (lg : GroomerLogger) (v : verdicts)
    (f : File) (w w1 : world) :
  File_init src dst lg v = inr f ->
  let f' := checked mdb f w in
  if (contains (src_path f') (_dst_root_path lg)
      || contains (src_path f') (_src_root_path lg))%bool
  then exists line, write_log f' w1 = FOk tt f' (append_log line w1)
  else write_log f' w1 = FRaise UnboundLocalError f' w1.
Proof.
  intros B f'.
  destruct (File_init_fields _ _ _ _ B)
    as (_ & _ & _ & _ & _ & _ & _ & _ & Hl & _ & _ & Hc & Hd & _).
  pose proof (@checked_only_adds mdb f w) as A. fold f' in A.
  assert (C : category f' = VNone \/ exists s, category f' = VStr s).
  { apply check_keeps_category_a_string. now left. }
  assert (J : exists items, join_values (descriptions f') = inr items).
  { destruct (adds_descriptions A) as (l & E & S). rewrite E, Hd. simpl.
    now apply join_values_strings. }
  destruct J as [items J].
  unfold write_log, add_file, _get_path_depth.
  rewrite (adds_logger A), Hl.
  destruct (contains (src_path f') (_dst_root_path lg)) eqn:C1; cbn [orb].
  - fold (descriptions f'). rewrite J. fold (category f').
    destruct C as [-> | [s ->]]; eexists; reflexivity.
  - destruct (contains (src_path f') (_src_root_path lg)) eqn:C2.
    + fold (descriptions f'). rewrite J. fold (category f').
      destruct C as [-> | [s ->]]; eexists; reflexivity.
    + reflexivity.
Qed.

(** The hypothesis of [write_log_after_check] holds of a text file under
    the source root. *)
Lemma write_log_after_check_witness :
  let f := Sample.or_blank (Sample.file_of "notes.txt" "text/plain") in
  let f' := checked Sample.mimedb f (outside Sample.initial) in
  exists line, write_log f' (outside Sample.initial)
               = FOk tt f' (append_log line (outside Sample.initial)).
Proof.
  intros f f'.
  exact (@write_log_after_check Sample.mimedb
           (OsPath.join (py "/media/src") (py "notes.txt"))
           (OsPath.join (py "/media/dst") (py "notes.txt"))
           Sample.the_logger (Sample.sniffed "text/plain") f
           (outside Sample.initial) (outside Sample.initial) eq_refl).
Defined.

(** ** No flag without a reason *)

(** X17.  No flag without a reason.  If a file handed to [check] is not
    dangerous, or has a description that is a string, then however
    [check] ends, a file that is dangerous afterwards has at least one
    description that is a string: every step that flags a file records
    why. *)
Theorem flagged_files_have_a_reason (mdb : MimeDB) (f : File) (w : world) :
  (is_dangerous f = true -> exists r, In (VStr r) (descriptions f)) ->
  is_dangerous (checked mdb f w) = true ->
  exists r, In (VStr r) (descriptions (checked mdb f w)).
Proof.
  apply (@check_keeps_on_file mdb
           (fun f => is_dangerous f = true -> exists r, In (VStr r) (descriptions f)));
    clear f w.
  - intros r f _ _. exists r. apply make_dangerous_records.
  - intros d f H D. rewrite is_dangerous_add_description in D.
    destruct (H D) as [r Hr]. exists r.
    unfold add_description. rewrite descriptions_set_description.
    destruct (existsb _ _); [exact Hr|apply in_or_app; now left].
  - intros e s f H. exact H.
  - intros v f H. exact H.
  - intros f _ H. exact H.
  - intros p f H. exact H.
  - intros p f H. exact H.
  - intros e f D _ D'. rewrite is_dangerous_force_ext in D'. congruence.
  - intros f D _ D'. change (is_dangerous f = true) in D'. congruence.
  - intros f D _ D'. change (is_dangerous f = true) in D'. congruence.
  - intros f D _ D'. rewrite make_binary_not_dangerous in D' by exact D. discriminate D'.
  - intros f D _ D'. rewrite make_unknown_not_dangerous in D' by exact D. discriminate D'.
Qed.

(** The hypotheses of [flagged_files_have_a_reason] hold of a fresh
    executable, which [check] flags. *)
Lemma flagged_files_have_a_reason_witness :
  let f := Sample.or_blank (Sample.file_of "setup.exe" "application/x-dosexec") in
  is_dangerous (checked Sample.mimedb f (outside Sample.initial)) = true
  /\ exists r, In (VStr r) (descriptions (checked Sample.mimedb f (outside Sample.initial))).
Proof.
  intro f.
  assert (D : is_dangerous (checked Sample.mimedb f (outside Sample.initial)) = true)
    by (vm_compute; reflexivity).
  split; [exact D|].
  apply (@flagged_files_have_a_reason Sample.mimedb f (outside Sample.initial));
    [intro H; vm_compute in H; discriminate H|exact D].
Defined.

(** ** The dispatch on the main type *)

Lemma dict_get_some {V : Type} (k : pystr) (d : list (pystr * V)) (v : V) :
  dict_get k d = Some v -> In (k, v) d.
Proof.
  induction d as [|[k' v'] d IH]; simpl; [discriminate|].
  destruct (str_eqb k k') eqn:E.
  - intro H. injection H as <-. apply str_eqb_eq in E. subst. now left.
  - intro H. right. now apply IH.
Qed.

Lemma check_dangerous_or_same (f : File) :
  is_dangerous (_check_dangerous f) = true \/ _check_dangerous f = f.
Proof.
  unfold _check_dangerous. cbv zeta.
  destruct (negb (has_mimetype f)).
  { left. repeat match goal with
                 | |- context [if ?b then make_dangerous _ _ else _] => destruct b
                 end; apply make_dangerous_is_dangerous. }
  destruct (negb (has_extension f)).
  { left. repeat match goal with
                 | |- context [if ?b then make_dangerous _ _ else _] => destruct b
                 end; apply make_dangerous_is_dangerous. }
  destruct (opt_mem (extension f) Config.malicious_exts);
    [left; apply make_dangerous_is_dangerous|now right].
Qed.

(** [check] on a file its checks do not flag is the method for the main
    type, run on the object as it came; otherwise the file is flagged
    and the world is as it was. *)
Lemma check_cases (mdb : MimeDB) (f : File) (w : world) :
  match check mdb f w with
  | FOk _ f' w' =>
      (is_dangerous f' = true /\ w' = w)
      \/ (is_dangerous f = false
          /\ call_type_method (method_for f) f w = FOk tt f' w')
  | FRaise e f' w' =>
      (w' = w /\ (e = IndexError \/ e = AttributeError))
      \/ (is_dangerous f = false
          /\ call_type_method (method_for f) f w = FRaise e f' w')
  end.
Proof.
  unfold check.
  unfold fbind at 1. unfold self_do at 1.
  set (f1 := _check_dangerous f).
  assert (S1 : is_dangerous f1 = true \/ f1 = f) by apply check_dangerous_or_same.
  clearbody f1.
  unfold fbind at 1.
  assert (S2 : match _check_filename f1 w with
               | FOk _ f2 w2 => w2 = w /\ (is_dangerous f2 = true \/ f2 = f)
               | FRaise e _ w2 => w2 = w /\ e = IndexError
               end).
  { unfold _check_filename, fbind, self_get, self_do, fret, fraise.
    destruct (filename f1); [now split|].
    destruct (contains _ _); [|now split].
    split; [reflexivity|left]. apply make_dangerous_is_dangerous. }
  destruct (_check_filename f1 w) as [[] f2 w2|e f2 w2];
    [|destruct S2 as [-> ->]; left; auto].
  destruct S2 as [-> S2]. clear f1 S1.
  unfold fbind at 1 2. unfold self_get at 1.
  set (f3 := if has_extension f2 then _check_extension mdb f2 else f2).
  assert (S3 : is_dangerous f3 = true \/ f3 = f).
  { unfold f3. destruct (has_extension f2); [|exact S2].
    unfold _check_extension. destruct (_ && _)%bool; [|exact S2].
    left. apply make_dangerous_is_dangerous. }
  replace ((if has_extension f2 then self_do (_check_extension mdb) else fret tt) f2 w)
    with (FOk tt f3 w) by (unfold f3; now destruct (has_extension f2)).
  cbv iota beta. clearbody f3. clear f2 S2.
  unfold fbind at 1 2. unfold self_get at 1.
  assert (S4 : match (if has_mimetype f3 then _check_mimetype mdb else fret tt) f3 w with
               | FOk _ f4 w4 => w4 = w /\ (is_dangerous f4 = true \/ f4 = f)
               | FRaise e _ w4 => w4 = w /\ e = AttributeError
               end).
  { destruct (has_mimetype f3); [|now split].
    unfold _check_mimetype, fbind, self_get, self_do, fret, fraise.
    destruct (match opt_dict_get (mimetype f3) Config.aliases with
              | Some m => Some m
              | None => mimetype f3
              end) as [mt|]; [|now split].
    destruct (guess_all_extensions mdb mt); [now split|].
    destruct (_ && _)%bool; [|now split].
    split; [reflexivity|left]. apply make_dangerous_is_dangerous. }
  destruct ((if has_mimetype f3 then _check_mimetype mdb else fret tt) f3 w)
    as [[] f4 w4|e f4 w4]; [|destruct S4 as [-> ->]; left; auto].
  destruct S4 as [-> S4]. clear f3 S3.
  unfold fbind at 1. unfold self_get at 1.
  destruct (is_dangerous f4) eqn:D.
  { change (negb true) with false. cbv iota. left. now split. }
  change (negb false) with true. cbv iota.
  destruct S4 as [S4| ->]; [congruence|].
  unfold fbind at 1. unfold self_get at 1.
  assert (M : (match opt_dict_get (main_type f) mime_processing_options with
               | Some method => call_type_method method
               | None => call_type_method t_unknown
               end) = call_type_method (method_for f)).
  { unfold method_for. now destruct (opt_dict_get _ _). }
  rewrite M.
  destruct (call_type_method (method_for f) f w) as [[] f' w'|e f' w']; right; now split.
Qed.

Lemma method_for_main_type (f : File) (m : type_method) :
  method_for f = m -> m <> t_unknown ->
  exists k, main_type f = Some k /\ In (k, m) mime_processing_options.
Proof.
  unfold method_for. intros H N.
  destruct (main_type f) as [k|]; unfold opt_dict_get in H; [|congruence].
  destruct (dict_get k mime_processing_options) as [m'|] eqn:E; [|congruence].
  subst m'. exists k. split; [reflexivity|now apply dict_get_some].
Qed.

(** X18.  The main types that pass.  When [check] returns with a file
    that is neither dangerous nor discarded, the main type of the file
    is one of [text], [audio], [image], [video] and [application]; and
    when it returns on a file of main type [message] or [model], the
    file is dangerous. *)
Theorem only_known_main_types_pass (mdb : MimeDB) (f : File) (w : world)
    (f' : File) (w' : world) :
  check mdb f w = FOk tt f' w' ->
  (is_dangerous f' = false -> should_copy f' = true ->
   In (main_type f)
      [Some (py "text"); Some (py "audio"); Some (py "image"); Some (py "video");
       Some (py "application")])
  /\ (main_type f = Some (py "message") \/ main_type f = Some (py "model") ->
      is_dangerous f' = true).
Proof.
  intro C. pose proof (check_cases mdb f w) as K. rewrite C in K.
  destruct K as [[D _]|[D M]].
  { split; [intros D'; congruence|intros _; exact D]. }
  split.
  - intros D' S.
    destruct (method_for f) eqn:T.
    1-5: destruct (@method_for_main_type f _ T) as (k & -> & I); [discriminate|];
      simpl in I;
      repeat (destruct I as [I|I]; [try discriminate I; injection I as <-; simpl; tauto|]);
      contradiction.
    all: exfalso; simpl in M; unfold self_do in M; injection M as <- _.
    + unfold example in S. simpl in S. discriminate S.
    + unfold message in D'. rewrite make_dangerous_is_dangerous in D'. discriminate D'.
    + unfold model in D'. rewrite make_dangerous_is_dangerous in D'. discriminate D'.
    + unfold multipart in S. simpl in S. discriminate S.
    + unfold inode in S. simpl in S. discriminate S.
    + unfold unknown in S. simpl in S. discriminate S.
  - intros T.
    assert (X : method_for f = t_message \/ method_for f = t_model).
    { unfold method_for. destruct T as [-> | ->]; [left|right]; reflexivity. }
    destruct X as [X|X]; rewrite X in M; simpl in M; unfold self_do in M;
      injection M as <- _; apply make_dangerous_is_dangerous.
Qed.

(** The hypothesis of [only_known_main_types_pass] holds of a text
    file. *)
Lemma only_known_main_types_pass_witness :
  let f := Sample.or_blank (Sample.file_of "notes.txt" "text/plain") in
  exists f' w',
    check Sample.mimedb f (outside Sample.initial) = FOk tt f' w'
    /\ is_dangerous f' = false /\ should_copy f' = true
    /\ In (main_type f)
          [Some (py "text"); Some (py "audio"); Some (py "image"); Some (py "video");
           Some (py "application")].
Proof.
  intro f.
  destruct (check Sample.mimedb f (outside Sample.initial)) as [[] f' w'|e f' w'] eqn:C;
    [|vm_compute in C; discriminate C].
  exists f', w'. split; [reflexivity|].
  assert (D : is_dangerous f' = false) by (vm_compute in C; now injection C as <- _).
  assert (S : should_copy f' = true) by (vm_compute in C; now injection C as <- _).
  split; [exact D|]. split; [exact S|].
  exact (proj1 (@only_known_main_types_pass Sample.mimedb f (outside Sample.initial)
                  f' w' C) D S).
Defined.

(** ** [process_file]: the copy and the scratch directory *)

Lemma rmtree_removes (p : pystr) (w : world) : exists_path p (rmtree p w) = false.
Proof.
  unfold exists_path, rmtree, str_mem. simpl.
  induction (fs w) as [|q l IH]; [reflexivity|]. simpl.
  destruct (str_eqb q p) eqn:E; simpl; [exact IH|].
  destruct (startswith q (p ++ [OsPath.sep])); simpl; [exact IH|].
  rewrite str_eqb_sym, E. exact IH.
Qed.

Lemma write_log_world (f : File) (w : world) :
  match write_log f w with
  | FOk _ f' w' => f' = f /\ copies w' = copies w /\ fs w' = fs w
  | FRaise _ f' w' => f' = f /\ w' = w
  end.
Proof.
  unfold write_log, add_file.
  destruct (_get_path_depth _ _); [now split|].
  destruct (join_values _); [now split|].
  destruct (p_safety_category _); now repeat split.
Qed.

(** What [process_file] does to a file that is to be copied:
    [safe_copy], the property [copied] and the log line *)
Lemma copy_stage_cases (f : File) (w : world) :
  match fbind (safe_copy None None) (fun _ =>
        fbind (self_do (set_property (py "copied") (VBool true))) (fun _ =>
        write_log)) f w with
  | FOk _ f' w' | FRaise _ f' w' =>
      src_path f' = src_path f /\ dst_path f' = dst_path f
      /\ should_copy f' = should_copy f /\ is_recursive f' = is_recursive f
      /\ is_dangerous f' = is_dangerous f /\ tempdir_path f' = tempdir_path f
      /\ p_copied (_file_props f') = VBool true
      /\ ((copies w' = copies w ++ [(src_path f, dst_path f)]
           /\ v_copy (seen f) = None
           /\ p_errors (_file_props f') = p_errors (_file_props f))
          \/ (copies w' = copies w
              /\ exists e, p_errors (_file_props f') = p_errors (_file_props f) ++ [(e, [])]))
  end.
Proof.
  destruct (safe_copy_cases None None f w) as (f1 & w1 & E & _ & _ & C).
  unfold fbind at 1. rewrite E. unfold fbind, self_do.
  set (f2 := set_property (py "copied") (VBool true) f1).
  pose proof (write_log_world f2 w1) as W.
  assert (K : src_path f2 = src_path f /\ dst_path f2 = dst_path f
              /\ should_copy f2 = should_copy f /\ is_recursive f2 = is_recursive f
              /\ is_dangerous f2 = is_dangerous f /\ tempdir_path f2 = tempdir_path f
              /\ p_copied (_file_props f2) = VBool true).
  { unfold f2. destruct C as [(-> & _)|(_ & e & -> & _)]; now repeat split. }
  assert (R : forall w', copies w' = copies w1 ->
              (copies w' = copies w ++ [(src_path f, dst_path f)]
               /\ v_copy (seen f) = None
               /\ p_errors (_file_props f2) = p_errors (_file_props f))
              \/ (copies w' = copies w
                  /\ exists e, p_errors (_file_props f2)
                               = p_errors (_file_props f) ++ [(e, [])])).
  { intros w' Hw. unfold f2.
    destruct C as [(-> & Cp & _ & V)|(Cp & e & -> & _)].
    - left. rewrite Hw. now repeat split.
    - right. rewrite Hw. split; [exact Cp|]. now exists e. }
  destruct (write_log f2 w1) as [[] f' w'|e f' w'].
  - destruct W as (-> & Wc & _). destruct K as (K1 & K2 & K3 & K4 & K5 & K6 & K7).
    repeat (split; [assumption|]). now apply R.
  - destruct W as (-> & ->). destruct K as (K1 & K2 & K3 & K4 & K5 & K6 & K7).
    repeat (split; [assumption|]). now apply R.
Qed.

Lemma checked_archives_are_not_copied (mdb : MimeDB) (f : File) (w : world) :
  (is_recursive f = true -> should_copy f = false) ->
  is_recursive (checked mdb f w) = true -> should_copy (checked mdb f w) = false.
Proof.
  set (J := fun (f : File) (_ : world) => is_recursive f = true -> should_copy f = false).
  assert (R : ftriple J (check mdb) (fun _ => J) (fun _ => J)).
  { assert (flag : forall r f1 w1, J f1 w1 -> J (make_dangerous (VStr r) f1) w1).
    { intros r f1 w1 H. pose proof (same_file_make_dangerous (VStr r) f1) as S.
      unfold J. now rewrite (same_should_copy S), (same_is_recursive S). }
    assert (descr : forall d f1 w1, J f1 w1 -> J (add_description d f1) w1).
    { intros d f1 w1 H. pose proof (same_file_set_description (VStr d) f1) as S.
      unfold J, add_description. now rewrite (same_should_copy S), (same_is_recursive S). }
    apply (@check_keeps mdb J J J J J J (fun _ => J)); auto;
      try (intros; unfold J; simpl; intros; reflexivity).
    - intros f1 w1 H. unfold _check_dangerous.
      repeat match goal with
             | |- context [if ?b then make_dangerous _ _ else _] => destruct b
             end; repeat apply flag; exact H.
    - intros e f1 w1 _ H. unfold J, force_ext. cbv zeta.
      destruct (negb (pyval_eqb _ _)); now destruct (negb (endswith _ _)).
    - intros f1 w1 _ H. unfold J, make_binary. destruct (is_dangerous f1); [exact H|].
      cbv zeta. now destruct (OsPath.split _).
    - intros f1 w1 _ H. unfold J, make_unknown. destruct (_ || _)%bool; [exact H|].
      cbv zeta. now destruct (OsPath.split _). }
  intros H. specialize (R f w H). unfold checked. now destruct (check mdb f w).
Qed.

(** X19.  No scratch directory is left behind.  When [process_file]
    returns, whether the file was copied, discarded, expanded as an
    archive or flagged as a bomb, the path of its scratch directory
    does not exist. *)
Theorem process_file_removes_the_scratch_directory
    (mdb : MimeDB) (g : KittenGroomerFileCheck) (fuel : nat) (i : nat) (f : File)
    (o : extractor_outcome) (unpacked : list node) (s : state) :
  match process_file mdb g fuel i f o unpacked s with
  | Ok _ s' => exists_path (tempdir_path f) (outside s') = false
  | Raise _ _ | OutOfFuel => True
  end.
Proof.
  unfold process_file, process_file_with. unfold gbind at 1. unfold on_file at 1.
  pose proof (@checked_only_adds mdb f (outside s)) as A. unfold checked in A.
  destruct (check mdb f (outside s)) as [[] f1 w1|e f1 w1]; [|exact I].
  cbn [snd]. set (s1 := store i f1 (set_outside w1 s)). clearbody s1.
  unfold gbind at 1.
  assert (T : match (if should_copy f1
                     then (r <- on_file i f1
                                  (fbind (safe_copy None None) (fun _ =>
                                   fbind (self_do (set_property (py "copied") (VBool true)))
                                         (fun _ => write_log))) ;;
                           gret (snd r))%gm
                     else gret f1) s1 with
              | Ok file _ => tempdir_path file = tempdir_path f
              | _ => True
              end).
  { destruct (should_copy f1); [|exact (adds_tempdir_path A)].
    unfold gbind, on_file, gret.
    pose proof (copy_stage_cases f1 (outside s1)) as C.
    destruct (fbind _ _ f1 (outside s1)) as [[] f2 w2|e f2 w2]; [|exact I].
    cbn [snd]. destruct C as (_ & _ & _ & _ & _ & C & _).
    rewrite C. exact (adds_tempdir_path A). }
  match goal with
  | |- match match ?stage s1 with _ => _ end with _ => _ end =>
      destruct (stage s1) as [file s2| |]; [|exact I|exact I]
  end.
  rewrite T. unfold gbind.
  match goal with
  | |- match match ?stage s2 with _ => _ end with _ => _ end =>
      destruct (stage s2) as [[] s3| |]; [|exact I|exact I]
  end.
  unfold safe_rmtree, state_do.
  destruct (exists_path (tempdir_path f) (outside s3)) eqn:E; [|exact E].
  simpl. apply rmtree_removes.
Qed.

(** X20.  The [copied] property.  When [check] returns on a file that
    is to be copied and is no archive, [process_file] sets the property
    [copied] to [True] whether the copy was made or not: either the copy
    is the one new entry of the copies, or no copy is recorded, one
    error is added to the file, and [copied] is [True] all the same. *)
Theorem copied_is_set_whatever_the_copy_did
    (mdb : MimeDB) (g : KittenGroomerFileCheck) (fuel : nat) (i : nat) (f : File)
    (o : extractor_outcome) (unpacked : list node) (s : state) (f1 : File) (w1 : world) :
  i < List.length (heap s) ->
  check mdb f (outside s) = FOk tt f1 w1 ->
  should_copy f1 = true ->
  is_recursive f1 = false ->
  match process_file mdb g fuel i f o unpacked s with
  | Ok _ s' | Raise _ s' =>
      exists f2,
        nth_error (heap s') i = Some f2
        /\ p_copied (_file_props f2) = VBool true
        /\ ((copies (outside s') = copies (outside s) ++ [(src_path f1, dst_path f1)]
             /\ v_copy (seen f1) = None
             /\ p_errors (_file_props f2) = p_errors (_file_props f1))
            \/ (copies (outside s') = copies (outside s)
                /\ exists e, p_errors (_file_props f2)
                             = p_errors (_file_props f1) ++ [(e, [])]))
  | OutOfFuel => False
  end.
Proof.
  intros Hi C S R.
  unfold process_file, process_file_with. unfold gbind at 1. unfold on_file at 1.
  rewrite C. cbn [snd]. rewrite S.
  pose proof (check_world mdb f (outside s)) as W. rewrite C in W.
  destruct W as (_ & Wc & _). simpl in Wc.
  unfold gbind at 1 2. unfold on_file.
  pose proof (copy_stage_cases f1 w1) as K.
  change (outside (store i f1 (set_outside w1 s))) with w1.
  destruct (fbind _ _ f1 w1) as [[] f2 w2|e f2 w2];
    destruct K as (_ & _ & _ & K4 & _ & _ & K7 & K8).
  - unfold gret. cbn [snd]. rewrite K4, R. unfold gbind, gret, safe_rmtree, state_do.
    exists f2. split; [|split; [exact K7|]].
    + destruct (exists_path _ _); simpl;
        rewrite !nth_error_list_update_same; auto;
        rewrite ?length_list_update; exact Hi.
    + destruct (exists_path _ _); simpl; rewrite <- Wc; exact K8.
  - exists f2. split; [|split; [exact K7|]].
    + simpl. rewrite !nth_error_list_update_same; auto;
        rewrite ?length_list_update; exact Hi.
    + simpl. rewrite <- Wc. exact K8.
Qed.

(** The hypotheses of [copied_is_set_whatever_the_copy_did] hold of a
    text file allocated in the initial state. *)
Lemma copied_is_set_whatever_the_copy_did_witness :
  let f := Sample.or_blank (Sample.file_of "notes.txt" "text/plain") in
  let s := snd (allocate f Sample.initial) in
  match process_file Sample.mimedb (Sample.groomer 2) 2 0 f ExitZero [] s with
  | Ok _ s' | Raise _ s' =>
      exists f2, nth_error (heap s') 0 = Some f2
                 /\ p_copied (_file_props f2) = VBool true
  | OutOfFuel => False
  end.
Proof.
  intros f s.
  destruct (check Sample.mimedb f (outside s)) as [[] f1 w1|e f1 w1] eqn:C;
    [|vm_compute in C; discriminate C].
  assert (S : should_copy f1 = true) by (vm_compute in C; now injection C as <- _).
  assert (R : is_recursive f1 = false) by (vm_compute in C; now injection C as <- _).
  assert (L : 0 < List.length (heap s)) by (simpl; lia).
  pose proof (@copied_is_set_whatever_the_copy_did Sample.mimedb (Sample.groomer 2) 2 0 f
                ExitZero [] s f1 w1 L C S R) as T.
  destruct (process_file _ _ _ _ _ _ _ _) as [[] s'|e s'|]; [| |exact T];
    destruct T as (f2 & N & P & _); exists f2; now split.
Defined.

(** ** The copies a run makes *)

Lemma copies_between_same (lo hi : nat) (s s1 : state) :
  copies (outside s1) = copies (outside s) -> copies_between lo hi s s1.
Proof. intros E c H. left. now rewrite <- E. Qed.

Lemma copies_between_weaken (lo lo' hi hi' : nat) (s s' : state) :
  lo' <= lo -> hi <= hi' -> copies_between lo hi s s' -> copies_between lo' hi' s s'.
Proof.
  intros Hl Hh C c H. destruct (C c H) as [X|(j & f & B & N & K)]; [now left|].
  right. exists j, f. split; [lia|now split].
Qed.

Lemma copies_between_step (lo hi : nat) (s s1 s2 : state) :
  heap s2 = heap s1 -> copies (outside s2) = copies (outside s1) ->
  copies_between lo hi s s1 -> copies_between lo hi s s2.
Proof. intros H E C c I. rewrite E in I. rewrite H. now apply C. Qed.

Lemma make_tempdir_world (f : File) (w : world) :
  match make_tempdir f w with
  | FOk _ f' w' | FRaise _ f' w' => f' = f /\ copies w' = copies w
  end.
Proof.
  unfold make_tempdir, fbind, self_get, makedirs_if_absent, fbind, world_get, fret,
    os_makedirs.
  destruct (exists_path _ w); [now split|].
  unfold makedirs. destruct (tempdir_path f); now split.
Qed.

Lemma on_file_same_copies {A : Type} (P : state -> Prop) (i : nat) (f : File) (m : FM A)
    (s0 : state) :
  (forall s f' w', P s -> P (store i f' (set_outside w' s))) ->
  (forall w, match m f w with
             | FOk _ _ w' | FRaise _ _ w' => copies w' = copies w
             end) ->
  triple (fun s => P s /\ same_copies s0 s) (on_file i f m)
         (fun _ s => P s /\ same_copies s0 s) (fun s => same_copies s0 s).
Proof.
  intros HP Hm s [Ps [C L]]. unfold on_file. specialize (Hm (outside s)).
  destruct (m f (outside s)) as [a f' w'|e f' w'].
  - split; [now apply HP|]. split; simpl; [congruence|].
    now rewrite length_list_update.
  - split; simpl; [congruence|]. now rewrite length_list_update.
Qed.

Section CopyProperties.

Variable mdb : MimeDB.
Variable g : KittenGroomerFileCheck.
Variable recurse : pystr -> pystr -> list node -> GM unit.
Variable d : Z.

(** The nested calls behave, at the depth where they can be made. *)
Hypothesis recurse_copies :
  (d + 1 < max_recursive_depth g)%Z ->
  forall src dst ls, walks_copying (d + 1) (recurse src dst ls).

Lemma recurse_walks_too :
  (d + 1 < max_recursive_depth g)%Z ->
  forall src dst ls, walks_at (d + 1) (recurse src dst ls).
Proof.
  intros H src dst ls s D. pose proof (recurse_copies H src dst ls s D) as W.
  destruct (recurse src dst ls s) as [[] s'|e s'|]; [|now destruct W|exact W].
  destruct W as (D' & F & _). now split.
Qed.

Lemma process_archive_copies (i : nat) (f : File) (o : extractor_outcome)
    (unpacked : list node) (s0 : state) :
  triple (fun s => recursive_archive_depth s = d /\ same_copies s0 s)
         (process_archive_with g recurse i f o unpacked)
         (fun _ s' => copies_between (List.length (heap s0)) (List.length (heap s')) s0 s')
         (fun s' => copies_between (List.length (heap s0)) (List.length (heap s')) s0 s').
Proof.
  set (CB := fun s' => copies_between (List.length (heap s0)) (List.length (heap s')) s0 s').
  set (P1 := fun s => recursive_archive_depth s = (d + 1)%Z).
  assert (same_CB : forall s, same_copies s0 s -> CB s).
  { intros s [C _]. now apply copies_between_same. }
  assert (store_P1 : forall s f' w', P1 s -> P1 (store i f' (set_outside w' s))).
  { intros s f' w' H. exact H. }
  unfold process_archive_with.
  eapply triple_bind with (Q := fun _ s => P1 s /\ same_copies s0 s).
  { apply triple_state_do. intros s [D [C L]]. split; [unfold P1; simpl; lia|now split]. }
  intros []. eapply triple_bind; [apply triple_state_get|]. intros depth.
  eapply triple_bind with (Q := fun _ s' => CB s').
  - intros s [[D C] E].
    destruct (depth >=? max_recursive_depth g)%Z eqn:G.
    + pose proof (@on_file_same_copies unit P1 i f
                    (self_do (make_dangerous (VStr (py "Archive bomb")))) s0 store_P1
                    (fun w => eq_refl) s (conj D C)) as T.
      unfold gbind. destruct (on_file i f _ s) as [r s'|e s'|];
        [apply same_CB, T|apply same_CB, T|exact T].
    + assert (Hlt : (d + 1 < max_recursive_depth g)%Z).
      { unfold P1 in D. rewrite E, D in G. lia. }
      revert s D C E.
      assert (T : triple (fun s => P1 s /\ same_copies s0 s)
                    (r <- on_file i f make_tempdir ;;
                     (let (tempdir_path, file) := r in
                      _run_process o (flat_map (paths_of tempdir_path) unpacked) ;;
                      r0 <- on_file i file write_log ;;
                      (let file0 := snd r0 in
                       recurse tempdir_path (dst_path file0) unpacked ;;
                       safe_rmtree tempdir_path)))%gm
                    (fun _ s' => CB s') CB).
      { eapply triple_bind.
        { eapply triple_weaken;
            [apply (@on_file_same_copies _ P1 i f make_tempdir s0 store_P1)| | |];
            [|intros s H; exact H|intros a s H; exact H|exact same_CB].
          intro w. pose proof (make_tempdir_world f w) as M.
          destruct (make_tempdir f w); now destruct M. }
        intros [tempdir_path file].
        eapply triple_bind with (Q := fun _ s => P1 s /\ same_copies s0 s).
        { intros s [D [C L]].
          destruct o; simpl; first [split; [exact D|now split]|apply same_CB; now split]. }
        intros ran. eapply triple_bind.
        { eapply triple_weaken;
            [apply (@on_file_same_copies _ P1 i file write_log s0 store_P1)| | |];
            [|intros s H; exact H|intros a s H; exact H|exact same_CB].
          intro w. pose proof (write_log_world file w) as M.
          destruct (write_log file w); [now destruct M as (_ & M & _)|].
          destruct M as (_ & ->). reflexivity. }
        intros r0.
        eapply triple_bind with (Q := fun _ s' => CB s').
        - intros s [D [C L]].
          pose proof (recurse_copies Hlt tempdir_path (dst_path (snd r0)) unpacked s D) as W.
          destruct (recurse _ _ _ s) as [[] s'|e s'|]; [| |exact W].
          + destruct W as (_ & _ & W). unfold CB. rewrite <- L.
            intros c Hc. destruct (W c Hc) as [X|X]; [left; now rewrite <- C|now right].
          + destruct W as (_ & W). unfold CB. rewrite <- L.
            intros c Hc. destruct (W c Hc) as [X|X]; [left; now rewrite <- C|now right].
        - intros []. apply triple_state_do. intros s H.
          destruct (exists_path _ _); [|exact H].
          unfold CB in *. eapply copies_between_step; [| |exact H]; reflexivity. }
      intros s D C E. apply T. now split.
  - intros []. apply triple_state_do. intros s H.
    unfold CB in *. eapply copies_between_step; [| |exact H]; reflexivity.
Qed.

Lemma process_file_copies (i : nat) (f : File) (o : extractor_outcome)
    (unpacked : list node) (s0 : state) :
  i < List.length (heap s0) ->
  is_dangerous f = false ->
  is_recursive f = false ->
  recursive_archive_depth s0 = d ->
  match process_file_with mdb g recurse i f o unpacked s0 with
  | Ok _ s' | Raise _ s' => copies_between i (List.length (heap s')) s0 s'
  | OutOfFuel => False
  end.
Proof.
  intros Hi Df Rf D.
  unfold process_file_with. unfold gbind at 1. unfold on_file at 1.
  pose proof (check_world mdb f (outside s0)) as W.
  pose proof (@checked_carries_the_marks mdb f (outside s0)) as M.
  pose proof (@checked_archives_are_not_copied mdb f (outside s0)) as A.
  unfold checked in M, A.
  destruct (check mdb f (outside s0)) as [[] f1 w1|e f1 w1];
    destruct W as (_ & Wc & _); simpl in Wc;
    [|now apply copies_between_same].
  assert (M1 : is_dangerous f1 = true -> marked_dangerous (dst_path f1) = true)
    by (apply M; intro H; congruence).
  assert (A1 : is_recursive f1 = true -> should_copy f1 = false)
    by (apply A; intro H; congruence).
  clear M A.
  cbn [snd]. set (s1 := store i f1 (set_outside w1 s0)).
  assert (L1 : List.length (heap s1) = List.length (heap s0)).
  { unfold s1. simpl. apply length_list_update. }
  assert (C1 : copies (outside s1) = copies (outside s0)) by exact Wc.
  assert (D1 : recursive_archive_depth s1 = d) by exact D.
  unfold gbind at 1.
  assert (T2 : match (if should_copy f1
                      then (r <- on_file i f1
                                   (fbind (safe_copy None None) (fun _ =>
                                    fbind (self_do (set_property (py "copied") (VBool true)))
                                          (fun _ => write_log))) ;;
                            gret (snd r))%gm
                      else gret f1) s1 with
               | Ok file s2 =>
                   recursive_archive_depth s2 = d
                   /\ List.length (heap s2) = List.length (heap s0)
                   /\ ((is_recursive file = false /\ copies_between i (S i) s0 s2)
                       \/ same_copies s0 s2)
               | Raise _ s2 => copies_between i (List.length (heap s2)) s0 s2
               | OutOfFuel => False
               end).
  { destruct (should_copy f1) eqn:SC.
    2:{ simpl. split; [exact D1|]. split; [exact L1|]. right. now split. }
    unfold gbind, on_file, gret.
    pose proof (copy_stage_cases f1 (outside s1)) as K.
    assert (G : forall f2 w2,
              src_path f2 = src_path f1 /\ dst_path f2 = dst_path f1
              /\ should_copy f2 = should_copy f1 /\ is_recursive f2 = is_recursive f1
              /\ is_dangerous f2 = is_dangerous f1 /\ tempdir_path f2 = tempdir_path f1
              /\ p_copied (_file_props f2) = VBool true
              /\ ((copies w2 = copies (outside s1) ++ [(src_path f1, dst_path f1)]
                   /\ v_copy (seen f1) = None
                   /\ p_errors (_file_props f2) = p_errors (_file_props f1))
                  \/ (copies w2 = copies (outside s1)
                      /\ exists e, p_errors (_file_props f2)
                                   = p_errors (_file_props f1) ++ [(e, [])])) ->
              is_recursive f2 = false
              /\ copies_between i (S i) s0 (store i f2 (set_outside w2 s1))).
    { intros f2 w2 (K1 & K2 & K3 & K4 & K5 & _ & _ & K8).
      assert (R1 : is_recursive f1 = false).
      { destruct (is_recursive f1); [|reflexivity]. specialize (A1 eq_refl). congruence. }
      split; [congruence|].
      destruct K8 as [(Kc & _)|(Kc & _)].
      - intros c Hc. simpl in Hc. rewrite Kc, C1 in Hc.
        apply in_app_or in Hc as [Hc|[<-|[]]]; [now left|].
        right. exists i, f2. split; [lia|]. split.
        + simpl. apply nth_error_list_update_same.
          rewrite ?length_list_update. exact Hi.
        + split; [now rewrite K1, K2|]. split; [congruence|]. split; [congruence|].
          rewrite K5, K2. exact M1.
      - apply copies_between_same. simpl. now rewrite Kc. }
    destruct (fbind _ _ f1 (outside s1)) as [[] f2 w2|e f2 w2];
      destruct (G f2 w2 K) as [G1 G2].
    - cbn [snd]. split; [exact D1|]. split; [|now left].
      simpl. now rewrite !length_list_update.
    - eapply copies_between_weaken; [| |exact G2]; [lia|].
      simpl. rewrite !length_list_update. exact Hi. }
  match goal with
  | |- match match ?stage s1 with _ => _ end with _ => _ end =>
      destruct (stage s1) as [file s2|e s2|]; [|exact T2|exact T2]
  end.
  destruct T2 as (D2 & L2 & T2).
  unfold gbind.
  destruct (is_recursive file) eqn:R.
  - destruct T2 as [[T2 _]|T2]; [congruence|].
    pose proof (@process_archive_copies i file o unpacked s0 s2 (conj D2 T2)) as T3.
    destruct (process_archive_with g recurse i file o unpacked s2) as [[] s3|e s3|];
      [|eapply copies_between_weaken; [| |exact T3]; lia|exact T3].
    unfold safe_rmtree, state_do.
    destruct (exists_path _ _);
      (eapply copies_between_weaken; [| |exact T3]; [lia|reflexivity]).
  - unfold gret, safe_rmtree, state_do.
    assert (X : copies_between i (List.length (heap s2)) s0 s2).
    { destruct T2 as [[_ T2]|[T2 _]].
      - eapply copies_between_weaken; [| |exact T2]; lia.
      - now apply copies_between_same. }
    destruct (exists_path _ _); exact X.
Qed.

Lemma add_dir_copies (lg : GroomerLogger) (p : pystr) (w w' : world) :
  add_dir lg p w = inr w' -> copies w' = copies w.
Proof.
  unfold add_dir. destruct (_get_path_depth lg p); [discriminate|].
  intro H. now injection H as <-.
Qed.

Lemma copies_between_trans (lo i hi : nat) (file : File) (s0 s s' : state) :
  lo <= i -> i <= hi -> i = List.length (heap s) ->
  copies_between lo i s0 s ->
  untouched i (snd (allocate file s)) s' ->
  copies_between i hi (snd (allocate file s)) s' ->
  copies_between lo hi s0 s'.
Proof.
  intros Hl Hh Hi C [U L] C' c Hc.
  destruct (C' c Hc) as [X|(j & f & B & N & K)].
  - simpl in X. destruct (C c X) as [Y|(j & f & B & N & K)]; [now left|].
    right. exists j, f. split; [|split; [|exact K]].
    + lia.
    + rewrite U; [| lia |simpl; rewrite length_app; simpl; lia].
      simpl. rewrite nth_error_app1 by lia. exact N.
  - right. exists j, f. split; [lia|now split].
Qed.

Lemma process_dir_copies (s0 : state) (src_dir dst_dir : pystr) (ls : list node) :
  triple (fun s => at_depth d (List.length (heap s0)) s0 s
                   /\ copies_between (List.length (heap s0)) (List.length (heap s)) s0 s)
         (process_dir_with mdb g recurse src_dir dst_dir ls)
         (fun _ s => at_depth d (List.length (heap s0)) s0 s
                     /\ copies_between (List.length (heap s0)) (List.length (heap s)) s0 s)
         (fun s => untouched (List.length (heap s0)) s0 s
                   /\ copies_between (List.length (heap s0)) (List.length (heap s)) s0 s).
Proof.
  unfold process_dir_with. apply triple_gfor. intros [srcpath|srcpath v o unpacked] _.
  - intros s [[D U] C]. unfold logging.
    destruct (add_dir (groomer_logger g) srcpath (outside s)) as [e|w'] eqn:A;
      [now split|].
    apply add_dir_copies in A. split.
    + split; [exact D|now apply untouched_set_outside].
    + eapply copies_between_step; [| |exact C]; [reflexivity|exact A].
  - destruct (File_init _ _ _ _) as [e|file] eqn:B; [intros s [[D U] C]; now split|].
    destruct (File_init_fields _ _ _ _ B)
      as (_ & _ & _ & _ & _ & _ & _ & Hr & _ & _ & _ & Hc & _).
    assert (Df : is_dangerous file = false).
    { unfold is_dangerous. fold (category file). now rewrite Hc. }
    intros s [[D U] C]. unfold gbind.
    set (i := List.length (heap s)). set (s1 := snd (allocate file s)).
    change (allocate file s) with (i, s1). cbv iota beta.
    assert (Li : i < List.length (heap s1)).
    { unfold s1, i. simpl. rewrite length_app. simpl. lia. }
    pose proof (@process_file_at mdb g recurse d recurse_walks_too
                  (List.length (heap s0)) i s0 file o unpacked (proj2 U) s1
                  (conj D (untouched_allocate file U))) as T1.
    pose proof (@process_file_at mdb g recurse d recurse_walks_too
                  i i s1 file o unpacked (le_n i) s1
                  (conj D (untouched_refl i s1))) as T2.
    pose proof (@process_file_copies i file o unpacked s1 Li Df Hr D) as T3.
    destruct (process_file_with mdb g recurse i file o unpacked s1) as [[] s'|e s'|];
      [| |exact T1].
    + split; [exact T1|].
      destruct T2 as [_ T2].
      eapply copies_between_trans; [exact (proj2 U)| |reflexivity|exact C|exact T2|exact T3].
      destruct T2 as [_ T2]. fold i. lia.
    + split; [exact T1|].
      eapply copies_between_trans; [exact (proj2 U)| |reflexivity|exact C|exact T2|exact T3].
      destruct T2 as [_ T2]. fold i. lia.
Qed.

Lemma process_dir_walks_copying (src_dir dst_dir : pystr) (ls : list node) :
  walks_copying d (process_dir_with mdb g recurse src_dir dst_dir ls).
Proof.
  intros s D.
  assert (P : at_depth d (List.length (heap s)) s s
              /\ copies_between (List.length (heap s)) (List.length (heap s)) s s).
  { split; [split; [exact D|apply untouched_refl]|now apply copies_between_same]. }
  pose proof (@process_dir_copies s src_dir dst_dir ls s P) as T.
  destruct (process_dir_with _ _ _ _ _ _ s) as [[] s'|e s'|]; [|exact T|exact T].
  destruct T as [[D' U] C]. split; [exact D'|split; [exact U|exact C]].
Qed.

End CopyProperties.

Lemma recursion_copies (mdb : MimeDB) (g : KittenGroomerFileCheck) (fuel : nat) :
  forall d, enough_fuel g fuel d ->
    (d + 1 < max_recursive_depth g)%Z ->
    forall src dst ls, walks_copying (d + 1) (recursion mdb g fuel src dst ls).
Proof.
  unfold enough_fuel.
  induction fuel as [|fuel IH]; intros d Hf Hlt src dst ls; [lia|].
  simpl recursion. rewrite process_dir_unfold.
  apply process_dir_walks_copying. intro Hlt'. apply IH; [lia|exact Hlt'].
Qed.

(** X21.  No dangerous file is copied under its own name.  With the
    fuel the depth bound calls for, a run does not run out of fuel, and
    however it ends, every copy it has made is the copy of one of its
    file objects, from the source path of the object to its destination
    path; that object is to be copied, and if it is dangerous its
    destination name has the form [DANGEROUS_..._DANGEROUS]. *)
Theorem copies_of_flagged_files_carry_the_marks
    (mdb : MimeDB) (g : KittenGroomerFileCheck) (fuel : nat) (tree : list node) (s : state) :
  enough_fuel g fuel (recursive_archive_depth s) ->
  match run mdb g fuel tree s with
  | Ok _ s' | Raise _ s' =>
      forall src dst, In (src, dst) (copies (outside s')) ->
        In (src, dst) (copies (outside s))
        \/ exists f, In f (heap s')
                     /\ src_path f = src /\ dst_path f = dst
                     /\ should_copy f = true
                     /\ (is_dangerous f = true -> marked_dangerous dst = true)
  | OutOfFuel => False
  end.
Proof.
  intro Hf. unfold run. rewrite process_dir_unfold.
  pose proof (@process_dir_walks_copying mdb g (recursion mdb g fuel)
                (recursive_archive_depth s)
                (fun Hlt => recursion_copies mdb Hf Hlt)
                (src_root_path g) (dst_root_path g) tree s eq_refl) as W.
  assert (R : forall s', copies_between (List.length (heap s)) (List.length (heap s')) s s' ->
              forall src dst, In (src, dst) (copies (outside s')) ->
                In (src, dst) (copies (outside s))
                \/ exists f, In f (heap s')
                             /\ src_path f = src /\ dst_path f = dst
                             /\ should_copy f = true
                             /\ (is_dangerous f = true -> marked_dangerous dst = true)).
  { intros s' C src dst H. destruct (C _ H) as [X|(j & f & _ & N & E & S & _ & M)];
      [now left|].
    right. exists f. injection E as -> ->.
    split; [now apply nth_error_In in N|]. now repeat split. }
  destruct (process_dir_with _ _ _ _ _ _ s) as [[] s'|e s'|]; [| |exact W].
  - apply R, W.
  - apply R, W.
Qed.

(** The hypothesis of [copies_of_flagged_files_carry_the_marks] holds of
    the sample groomer, with the bound at 2 and two units of fuel. *)
Lemma copies_of_flagged_files_carry_the_marks_witness :
  enough_fuel (Sample.groomer 2) 2 (recursive_archive_depth Sample.initial)
  /\ exists s',
       run Sample.mimedb (Sample.groomer 2) 2 mixed_tree Sample.initial = Ok tt s'
       /\ forall src dst, In (src, dst) (copies (outside s')) ->
            In (src, dst) (copies (outside Sample.initial))
            \/ exists f, In f (heap s')
                         /\ src_path f = src /\ dst_path f = dst
                         /\ should_copy f = true
                         /\ (is_dangerous f = true -> marked_dangerous dst = true).
Proof.
  assert (H : enough_fuel (Sample.groomer 2) 2 (recursive_archive_depth Sample.initial))
    by (vm_compute; discriminate).
  split; [exact H|].
  pose proof (@copies_of_flagged_files_carry_the_marks Sample.mimedb (Sample.groomer 2) 2
                mixed_tree Sample.initial H) as T.
  destruct (run Sample.mimedb (Sample.groomer 2) 2 mixed_tree Sample.initial)
    as [[] s'|e s'|] eqn:E.
  - exists s'. split; [reflexivity|exact T].
  - exfalso. vm_compute in E. discriminate.
  - destruct T.
Defined.

(** ** Images *)

(** What [image] leaves of a file that is not flagged when it starts *)
Lemma image_result (f : File) (w : world) :
  is_dangerous f = false ->
  match image f w with
  | FOk _ f' w' =>
      is_dangerous f' = true
      \/ (src_path f' = OsPath.join (tempdir_path f) (filename f)
          /\ exists_path (src_path f') w' = true
          /\ v_reencode (seen f) = None
          /\ seen f' = reencoded (seen f))
  | FRaise _ _ _ => True
  end.
Proof.
  intro D.
  set (K := fun (f1 : File) (_ : world) =>
         filename f1 = filename f /\ tempdir_path f1 = tempdir_path f /\ seen f1 = seen f).
  assert (T : ftriple (fun f1 _ => f1 = f) image
                (fun _ f' w' =>
                   is_dangerous f' = true
                   \/ (src_path f' = OsPath.join (tempdir_path f) (filename f)
                       /\ exists_path (src_path f') w' = true
                       /\ v_reencode (seen f) = None
                       /\ seen f' = reencoded (seen f)))
                (fun _ _ _ => True)).
  { unfold image.
    apply ftriple_bind with (Q := fun _ f1 w1 => unflagged K f1 w1).
    { apply ftriple_self_get. intros f1 w1 ->. split; [now repeat split|exact D]. }
    intro hm.
    apply ftriple_bind with (Q := fun _ f1 w1 => K f1 w1).
    { destruct hm; [|intros f1 w1 [H _]; exact H].
      apply (@extract_metadata_keeps K K K (fun _ _ _ => True)); unfold K; auto.
      - intros r f1 _ (H1 & H2 & H3).
        pose proof (same_file_make_dangerous (VStr r) f1) as S.
        now rewrite (same_filename S), (same_tempdir_path S), (same_seen S). }
    intros [].
    eapply ftriple_bind.
    { apply (@make_tempdir_keeps K (fun _ _ _ => True)); unfold K; auto. }
    intros tmp f1 w1 [(K1 & K2 & K3) ->].
    unfold fbind at 1 2 3. unfold self_get at 1 2 3. unfold fbind, ftry.
    destruct (v_reencode (seen f1)) as [e|] eqn:V.
    - unfold fraise, fbind, self_do. left.
      rewrite make_dangerous_is_dangerous. simpl. apply make_dangerous_is_dangerous.
    - unfold fbind, world_do, self_do.
      match goal with
      | |- is_dangerous (if negb (is_dangerous ?x) then _ else _) = true \/ _ =>
          destruct (is_dangerous x) eqn:Dx; [left; exact Dx|right]
      end.
      simpl. rewrite K1, K2, K3. rewrite K3 in V.
      split; [reflexivity|]. split; [|now split].
      unfold exists_path. apply str_mem_In. simpl. apply in_or_app. right. now left. }
  specialize (T f w eq_refl). destruct (image f w); [exact T|exact I].
Qed.

(** X22.  Images are copied from their re-encoded file.  When [check]
    returns on a file of main type [image] without flagging it, Pillow
    has re-encoded the image: [src_path] is now the file of that name in
    the scratch directory, which exists, and what the libraries answer
    is what they answer about the new file; so the copy [process_file]
    makes next is never the one of the original image. *)
Theorem unflagged_images_are_reencoded
    (mdb : MimeDB) (f : File) (w : world) (f' : File) (w' : world) :
  main_type f = Some (py "image") ->
  check mdb f w = FOk tt f' w' ->
  is_dangerous f' = false ->
  src_path f' = OsPath.join (tempdir_path f) (filename f)
  /\ exists_path (src_path f') w' = true
  /\ v_reencode (seen f) = None
  /\ seen f' = reencoded (seen f).
Proof.
  intros M C D. pose proof (check_cases mdb f w) as K. rewrite C in K.
  destruct K as [[D' _]|[Df K]]; [congruence|].
  assert (T : method_for f = t_image) by (unfold method_for; now rewrite M).
  rewrite T in K. simpl in K.
  pose proof (@image_result f w Df) as R. rewrite K in R.
  destruct R as [R|R]; [congruence|exact R].
Qed.

(** The hypotheses of [unflagged_images_are_reencoded] hold of a
    photograph. *)
Lemma unflagged_images_are_reencoded_witness :
  let f := Sample.or_blank (Sample.file_of "photo.jpg" "image/jpeg") in
  exists f' w',
    check Sample.mimedb f (outside Sample.initial) = FOk tt f' w'
    /\ is_dangerous f' = false
    /\ src_path f' = py "/media/dst/photo.jpg_temp/photo.jpg".
Proof.
  intro f.
  destruct (check Sample.mimedb f (outside Sample.initial)) as [[] f' w'|e f' w'] eqn:C;
    [|vm_compute in C; discriminate C].
  exists f', w'. split; [reflexivity|].
  assert (D : is_dangerous f' = false) by (vm_compute in C; now injection C as <- _).
  split; [exact D|].
  exact (proj1 (@unflagged_images_are_reencoded Sample.mimedb f (outside Sample.initial)
                  f' w' eq_refl C D)).
Defined.
